(** * Adaptive streaming control: session manager and adaptive controller

    A shallow embedding of [src/rist/rist_manager.py] (the pipeline session
    manager, [RISTManager]) and [src/rist/adaptive_controller.py] (the
    closed-loop controller, [AdaptiveController]), with the properties the
    specification states about them.

    Conventions.
    - Python [int] is [Z]; Python [float] is an IEEE-754 binary64 value,
      written with the executable operations of [SpecFloat] at precision 53.
    - Python [str] is [string], the UTF-8 encoding of the text (a character
      is one to four bytes); [dict] is a [gmap] with string keys.
    - A call that can raise returns a [result]; mutable objects are threaded
      explicitly (the controller's fields are the record [controller]).
    - Everything the controller obtains from its collaborators (statistics,
      modem readings, the outcome of a live reconfiguration, the clock, the
      content of the configuration file) is an input of the tick. *)

From Stdlib Require Import ZArith Bool List String Ascii Lia.
From Stdlib Require Import Floats.SpecFloat.
From stdpp Require Import base option list strings pretty gmap.

Local Open Scope Z_scope.
Set Warnings "-register-all".

(** ** Python values: exceptions, floats, integers *)

Module Py.

Inductive exn_kind : Type :=
| RuntimeError | AttributeError | TypeError | ValueError | OverflowError
| ZeroDivisionError | OSError | UnicodeDecodeError.

(** An exception object: its class and the text [str(e)] gives. *)
Record exn : Type := Exn { kind : exn_kind; message : string }.

Definition str_exn (e : exn) : string := message e.

Definition overflow : exn := Exn OverflowError "int too large to convert to float".
Definition zero_division : exn := Exn ZeroDivisionError "division by zero".

(** The outcome of a call: it returns a value or raises. *)
Inductive result (A : Type) : Type :=
| Ret (a : A)
| Raise (e : exn).
Arguments Ret {A} a.
Arguments Raise {A} e.

Definition is_ret {A} (r : result A) : bool :=
  match r with Ret _ => true | Raise _ => false end.

Definition bind {A B} (r : result A) (k : A -> result B) : result B :=
  match r with
  | Ret a => k a
  | Raise e => Raise e
  end.

(** binary64 *)
Definition prec : Z := 53.
Definition emax : Z := 1024.
Definition float : Type := spec_float.

Definition fmul : float -> float -> float := SFmul prec emax.
Definition fadd : float -> float -> float := SFadd prec emax.
Definition fsub : float -> float -> float := SFsub prec emax.
Definition fdiv : float -> float -> float := SFdiv prec emax.
Definition flt : float -> float -> bool := SFltb.
Definition fle : float -> float -> bool := SFleb.

(** An integer as an exact (unrounded) binary number. *)
Definition exact (z : Z) : float :=
  match z with
  | Z0 => S754_zero false
  | Zpos p => S754_finite false p 0
  | Zneg p => S754_finite true p 0
  end.

(** [float(z)] as the arithmetic operators apply it to an [int] operand:
    round to nearest even; an integer beyond the range raises. *)
Definition float_of_int (z : Z) : result float :=
  match binary_normalize prec emax z 0 false with
  | S754_infinity _ => Raise overflow
  | f => Ret f
  end.

(** [a / b] on two [int]s: the correctly rounded quotient. *)
Definition truediv (a b : Z) : result float :=
  if b =? 0 then Raise zero_division
  else match fdiv (exact a) (exact b) with
       | S754_infinity _ =>
           Raise (Exn OverflowError "integer division result too large for a float")
       | f => Ret f
       end.

(** [int(x)]: truncation towards zero; infinities and NaN raise. *)
Definition int_of_float (x : float) : result Z :=
  match x with
  | S754_zero _ => Ret 0
  | S754_finite s m e => Ret (cond_Zopp s (Z.shiftl (Zpos m) e))
  | S754_infinity _ =>
      Raise (Exn OverflowError "cannot convert float infinity to integer")
  | S754_nan => Raise (Exn ValueError "cannot convert float NaN to integer")
  end.

(** A decimal literal [m / 10^k], e.g. [0.15] is [dec 15 2]. *)
Definition dec (m : Z) (k : Z) : float := fdiv (exact m) (exact (10 ^ k)).

(** The float of a small integer literal such as [5.0]. *)
Definition flit (z : Z) : float := binary_normalize prec emax z 0 false.

End Py.

Import Py.

(** ** Text helpers *)

Definition lower_ascii (c : ascii) : ascii :=
  let n := N_of_ascii c in
  if ((65 <=? n) && (n <=? 90))%N then ascii_of_N (n + 32) else c.

(** [str.lower()]. The letters A-Z are lowered and every other byte is
    kept. A character outside ASCII lowers to characters outside ASCII,
    except U+0130 (to [i] followed by U+0307) and U+212A (to [k]); no
    signature matched below contains [k] or ends in [i], so the tests on the
    lowered text come out as they do in Python. *)
Fixpoint lower (s : string) : string :=
  match s with
  | EmptyString => EmptyString
  | String c t => String (lower_ascii c) (lower t)
  end.

(** [needle in hay] *)
Fixpoint contains (needle hay : string) : bool :=
  if String.prefix needle hay then true
  else match hay with
       | EmptyString => false
       | String _ t => contains needle t
       end.

(** A byte that continues a character of the text (10xxxxxx). *)
Definition is_continuation (c : ascii) : bool :=
  let n := N_of_ascii c in
  ((128 <=? n) && (n <=? 191))%N.

(** [s[:n]]: the first [n] characters of the text, a character being a byte
    that is no continuation byte with the continuation bytes after it. *)
Fixpoint take_chars (n : nat) (s : string) : string :=
  match s with
  | EmptyString => EmptyString
  | String c t =>
      if is_continuation c then String c (take_chars n t)
      else match n with
           | O => EmptyString
           | S n' => String c (take_chars n' t)
           end
  end.

(** [len(s)]: the number of characters of the text. *)
Fixpoint char_length (s : string) : nat :=
  match s with
  | EmptyString => O
  | String c t => if is_continuation c then char_length t else S (char_length t)
  end.

(** The white space [str.strip()] removes: U+0009 to U+000D, U+001C to
    U+0020, U+0085, U+00A0, U+1680, U+2000 to U+200A, U+2028, U+2029,
    U+202F, U+205F and U+3000; in UTF-8 a character of one byte, *)
Definition is_space (c : ascii) : bool :=
  let n := N_of_ascii c in
  (((9 <=? n) && (n <=? 13)) || ((28 <=? n) && (n <=? 32)))%N.

(** of two bytes (U+0085, U+00A0), *)
Definition is_space2 (c1 c2 : ascii) : bool :=
  let a := N_of_ascii c1 in
  let b := N_of_ascii c2 in
  ((a =? 194) && ((b =? 133) || (b =? 160)))%N.

(** or of three bytes (U+1680; U+2000 to U+200A, U+2028, U+2029, U+202F;
    U+205F; U+3000). *)
Definition is_space3 (c1 c2 c3 : ascii) : bool :=
  let a := N_of_ascii c1 in
  let b := N_of_ascii c2 in
  let c := N_of_ascii c3 in
  (((a =? 225) && (b =? 154) && (c =? 128))
   || ((a =? 226) && (b =? 128)
       && (((128 <=? c) && (c <=? 138)) || (c =? 168) || (c =? 169) || (c =? 175)))
   || ((a =? 226) && (b =? 129) && (c =? 159))
   || ((a =? 227) && (b =? 128) && (c =? 128)))%N.

(** The text is one white-space character. *)
Definition is_space_char (s : string) : bool :=
  match s with
  | String c EmptyString => is_space c
  | String c1 (String c2 EmptyString) => is_space2 c1 c2
  | String c1 (String c2 (String c3 EmptyString)) => is_space3 c1 c2 c3
  | _ => false
  end.

Fixpoint lstrip (s : string) : string :=
  match s with
  | EmptyString => EmptyString
  | String c t =>
      if is_space c then lstrip t
      else match t with
           | EmptyString => s
           | String c2 t2 =>
               if is_space2 c c2 then lstrip t2
               else match t2 with
                    | EmptyString => s
                    | String c3 t3 => if is_space3 c c2 c3 then lstrip t3 else s
                    end
           end
  end.

(** The text without the white space at its end: what is left of the tail
    is stripped first, and the character in front goes as well when nothing
    but one white-space character remains. *)
Fixpoint rstrip (s : string) : string :=
  match s with
  | EmptyString => EmptyString
  | String c t =>
      let t' := rstrip t in
      if is_space_char (String c t') then EmptyString else String c t'
  end.

(** [str.strip()] *)
Definition strip (s : string) : string := rstrip (lstrip s).

(** Whether a path ends with the separator. *)
Fixpoint ends_with_sep (path : string) : bool :=
  match path with
  | EmptyString => false
  | String c EmptyString => Ascii.eqb c "/"
  | String _ t => ends_with_sep t
  end.

(** [os.path.join(a, b)] of [posixpath]: an absolute [b] replaces [a]; the
    separator is put in between unless [a] is empty or ends with it. *)
Definition path_join (a b : string) : string :=
  if String.prefix "/" b then b
  else if String.eqb a "" || ends_with_sep a then (a ++ b)%string
  else (a ++ "/" ++ b)%string.

(** [", ".join] with an arbitrary separator *)
Fixpoint join (sep : string) (l : list string) : string :=
  match l with
  | [] => EmptyString
  | [x] => x
  | x :: rest => (x ++ sep ++ join sep rest)%string
  end.

(** [str(n)] for an [int] *)
Definition str_int (z : Z) : string := pretty z.

(** ** Data model of the session manager ([rist_manager.py]) *)

Inductive BondingMethod := BROADCAST | ROUND_ROBIN.
Inductive AudioCodec := AAC | OPUS.
Inductive VideoCodec := H264 | H265.

Definition BondingMethod_value (b : BondingMethod) : string :=
  match b with BROADCAST => "broadcast" | ROUND_ROBIN => "round-robin" end.
Definition AudioCodec_value (c : AudioCodec) : string :=
  match c with AAC => "aac" | OPUS => "opus" end.
Definition VideoCodec_value (c : VideoCodec) : string :=
  match c with H264 => "h264" | H265 => "h265" end.

Module AudioConfig.
Record t := mk
  { codec : AudioCodec; bitrate : Z; sample_rate : Z; channels : Z }.
End AudioConfig.

Module VideoConfig.
Record t := mk
  { codec : VideoCodec; width : Z; height : Z; framerate : Z;
    bitrate : Z; keyframe_interval : Z }.
End VideoConfig.

Module RISTLink.
Record t := mk
  { address : string; port : Z; enabled : bool; weight : Z }.
(** [RISTLink(address=a, port=p, enabled=e)]: the weight takes its
    default. *)
Definition make (a : string) (p : Z) (e : bool) : t := mk a p e 100.
End RISTLink.

Module RISTConfig.
Record t := mk
  { links : list RISTLink.t; bonding_method : BondingMethod;
    sender_buffer : Z; receiver_buffer : Z; reorder_buffer : Z;
    rtt_min : Z; rtt_max : Z; fec_rows : Z; fec_columns : Z;
    max_retries : Z }.
End RISTConfig.

(** The handle of the launched process. *)
Record Popen := { pid : Z }.

(** The fields of a [RISTManager] object. [stop_monitoring] is the event
    flag of the monitor thread and [monitor_thread] tells whether a thread
    object is stored. *)
Record RISTManager := mkManager
  { gst_launch : string;
    rist_config : option RISTConfig.t;
    video_config : option VideoConfig.t;
    audio_config : option AudioConfig.t;
    process : option Popen;
    is_streaming : bool;
    last_error : option string;
    stop_monitoring : bool;
    monitor_thread : bool }.

Definition set_configs (m : RISTManager) (rc : option RISTConfig.t)
  (vc : option VideoConfig.t) (ac : option AudioConfig.t) : RISTManager :=
  mkManager (gst_launch m) rc vc ac (process m) (is_streaming m)
    (last_error m) (stop_monitoring m) (monitor_thread m).

Definition set_process (m : RISTManager) (p : option Popen) : RISTManager :=
  mkManager (gst_launch m) (rist_config m) (video_config m) (audio_config m)
    p (is_streaming m) (last_error m) (stop_monitoring m) (monitor_thread m).

Definition set_is_streaming (m : RISTManager) (b : bool) : RISTManager :=
  mkManager (gst_launch m) (rist_config m) (video_config m) (audio_config m)
    (process m) b (last_error m) (stop_monitoring m) (monitor_thread m).

Definition set_last_error (m : RISTManager) (e : option string) : RISTManager :=
  mkManager (gst_launch m) (rist_config m) (video_config m) (audio_config m)
    (process m) (is_streaming m) e (stop_monitoring m) (monitor_thread m).

Definition set_stop_monitoring (m : RISTManager) (b : bool) : RISTManager :=
  mkManager (gst_launch m) (rist_config m) (video_config m) (audio_config m)
    (process m) (is_streaming m) (last_error m) b (monitor_thread m).

Definition set_monitor_thread (m : RISTManager) (b : bool) : RISTManager :=
  mkManager (gst_launch m) (rist_config m) (video_config m) (audio_config m)
    (process m) (is_streaming m) (last_error m) (stop_monitoring m) b.

(** [RISTManager.__init__]: [gstreamer_path] joined with [bin] and the
    launcher's name, nothing configured, no process. *)
Definition new_manager (gstreamer_path : string) : RISTManager :=
  mkManager (path_join (path_join gstreamer_path "bin") "gst-launch-1.0")
    None None None None false None false false.

(** ** Error classification: [RISTManager._parse_gst_error] *)

Definition MSG_DISK_FULL : string :=
  "Speicherplatz voll - Stream kann nicht aufgezeichnet werden".
Definition MSG_CONNECTION : string :=
  "RIST-Verbindung fehlgeschlagen - Server nicht erreichbar".
Definition MSG_PIPELINE : string :=
  "Pipeline-Fehler - Video/Audio-Quelle prüfen".
Definition MSG_STREAM_ENDED : string := "RIST Stream unerwartet beendet".
Definition MSG_NOT_NEGOTIATED : string :=
  "Video/Audio-Format nicht unterstützt".
Definition MSG_PLUGIN : string :=
  "GStreamer-Plugin fehlt - Installation prüfen".

Definition _parse_gst_error (line : string) : option string :=
  let line_lower := lower line in
  if contains "no space left on device" line_lower then Some MSG_DISK_FULL
  else if contains "could not open resource" line_lower
          || contains "connection refused" line_lower then Some MSG_CONNECTION
  else if contains "internal data flow error" line_lower then Some MSG_PIPELINE
  else if contains "streaming stopped" line_lower
          || contains "eos" line_lower then Some MSG_STREAM_ENDED
  else if contains "not negotiated" line_lower then Some MSG_NOT_NEGOTIATED
  else if contains "no such element" line_lower
          || contains "failed to create element" line_lower then Some MSG_PLUGIN
  else if contains "error" line_lower
       then Some ("RIST Error: " ++ take_chars 100 line)%string
  else None.

(** ** The error monitor: [RISTManager._monitor_stderr]

    The thread's loop, one iteration per observation of the process. What an
    iteration sees is decided outside the program. *)
Inductive observation :=
| ObsStopRequested          (* the stop flag is set at the loop test *)
| ObsExited (code : Z)      (* [poll()] returns an exit status *)
| ObsEof                    (* [readline()] returns the empty bytes *)
| ObsReadFails (e : exn)    (* [readline()] raises *)
| ObsLine (text : string).  (* a line, decoded with errors ignored *)

(** One iteration: the manager after it, the message handed to the error
    callback if any, and whether the loop goes on. *)
Definition monitor_iteration (m : RISTManager) (o : observation)
  : RISTManager * option string * bool :=
  if stop_monitoring m then (m, None, false)
  else match process m, o with
       | None, _ => (m, None, false)
       | Some _, ObsStopRequested => (m, None, false)
       | Some _, ObsExited _ => (m, None, false)
       | Some _, ObsEof => (m, None, false)
       | Some _, ObsReadFails _ => (m, None, false)
       | Some _, ObsLine text =>
           let line_str := strip text in
           if String.eqb line_str "" then (m, None, true)
           else match _parse_gst_error line_str with
                | Some error_msg =>
                    (set_last_error m (Some error_msg), Some error_msg, true)
                | None => (m, None, true)
                end
       end.

(** The loop over the observations made until it leaves; the second
    component lists the messages reported, oldest first. *)
Fixpoint _monitor_stderr (m : RISTManager) (obs : list observation)
  : RISTManager * list string :=
  match obs with
  | [] => (m, [])
  | o :: rest =>
      match monitor_iteration m o with
      | (m', msg, true) =>
          let '(m'', msgs) := _monitor_stderr m' rest in
          (m'', match msg with Some e => e :: msgs | None => msgs end)
      | (m', msg, false) =>
          (m', match msg with Some e => [e] | None => [] end)
      end
  end.

(** ** [RISTManager.configure] *)
Definition configure (m : RISTManager) (rc : RISTConfig.t)
  (vc : option VideoConfig.t) (ac : option AudioConfig.t)
  : result unit * RISTManager :=
  if is_streaming m
  then (Raise (Exn RuntimeError "Cannot configure while streaming. Stop first."),
        m)
  else (Ret tt, set_configs m (Some rc) vc ac).

(** ** Building the command line *)

Section Pipeline.

(** [_has_plugin]: the answer of [gst-inspect-1.0], an input. *)
Variable _has_plugin : string -> bool.

Definition _build_video_pipeline (vc : VideoConfig.t) : list string :=
  [ "videotestsrc"; "is-live=true"; "!"; "video/x-raw,format=I420";
    "width=" ++ str_int (VideoConfig.width vc)
      ++ ",height=" ++ str_int (VideoConfig.height vc)
      ++ ",framerate=" ++ str_int (VideoConfig.framerate vc) ++ "/1";
    "!"; "videoconvert"; "!" ]%string
  ++ match VideoConfig.codec vc with
     | H264 =>
         [ if _has_plugin "x264enc" then "x264enc" else "avenc_h264";
           "bitrate=" ++ str_int (VideoConfig.bitrate vc / 1000);
           "tune=zerolatency";
           "key-int-max=" ++ str_int (VideoConfig.keyframe_interval vc);
           "!"; "h264parse"; "!"; "rtph264pay" ]%string
     | H265 =>
         [ if _has_plugin "x265enc" then "x265enc" else "avenc_h265";
           "bitrate=" ++ str_int (VideoConfig.bitrate vc / 1000);
           "tune=zerolatency";
           "key-int-max=" ++ str_int (VideoConfig.keyframe_interval vc);
           "!"; "h265parse"; "!"; "rtph265pay" ]%string
     end.

Definition _build_audio_pipeline (ac : AudioConfig.t) : list string :=
  [ "audiotestsrc"; "is-live=true"; "!"; "audioconvert"; "!";
    "audio/x-raw,rate=" ++ str_int (AudioConfig.sample_rate ac)
      ++ ",channels=" ++ str_int (AudioConfig.channels ac);
    "!" ]%string
  ++ match AudioConfig.codec ac with
     | AAC =>
         [ "avenc_aac"; "bitrate=" ++ str_int (AudioConfig.bitrate ac);
           "!"; "aacparse"; "!"; "rtpmp4apay" ]%string
     | OPUS =>
         [ "opusenc"; "bitrate=" ++ str_int (AudioConfig.bitrate ac);
           "!"; "opusparse"; "!"; "rtpopuspay" ]%string
     end.

(** [f"{link.address}:{link.port}"] *)
Definition endpoint (l : RISTLink.t) : string :=
  (RISTLink.address l ++ ":" ++ str_int (RISTLink.port l))%string.

(** The links the multi-link form names. *)
Definition bonded_links (rc : RISTConfig.t) : list RISTLink.t :=
  List.filter RISTLink.enabled (RISTConfig.links rc).

Definition _build_rist_pipeline (rc : RISTConfig.t) : list string :=
  match RISTConfig.links rc with
  | [link] =>
      [ "ristsink";
        "address=" ++ RISTLink.address link;
        "port=" ++ str_int (RISTLink.port link);
        "sender-buffer=" ++ str_int (RISTConfig.sender_buffer rc);
        "stats-update-interval=1000" ]%string
  | _ =>
      let links_str := join "," (List.map endpoint (bonded_links rc)) in
      [ "ristsink";
        "address=" ++ links_str;
        "bonding-method=" ++ BondingMethod_value (RISTConfig.bonding_method rc);
        "sender-buffer=" ++ str_int (RISTConfig.sender_buffer rc);
        "stats-update-interval=1000" ]%string
  end.

Definition _build_pipeline_command (m : RISTManager) : result (list string) :=
  match rist_config m with
  | None => Raise (Exn RuntimeError "RIST not configured")
  | Some rc =>
      let cmd := [gst_launch m] in
      let cmd :=
        match video_config m with
        | Some vc => cmd ++ _build_video_pipeline vc
        | None => cmd
        end in
      let cmd :=
        match audio_config m with
        | Some ac =>
            (match video_config m with
             | Some _ => cmd ++ ["!"%string]
             | None => cmd
             end) ++ _build_audio_pipeline ac
        | None => cmd
        end in
      Ret (cmd ++ ["!"%string] ++ _build_rist_pipeline rc)
  end.

End Pipeline.

(** ** [RISTManager.start] *)

(** What the launch meets once the command is built. *)
Inductive launch :=
| PopenRaises (e : exn)
    (* [subprocess.Popen] raises *)
| DiedEarly (p : Popen) (code : Z) (stderr_text : result string)
    (* after the grace second [poll()] gives an exit status;
       [stderr_text] is the outcome of [stderr.decode()] *)
| Alive (p : Popen) (thread_start : result unit).
    (* the process is still running; [thread_start] is the outcome of
       starting the monitor thread *)

Definition MSG_START_FAILED : string := "Pipeline konnte nicht gestartet werden".

Definition start (has_plugin : string -> bool) (env : launch) (m : RISTManager)
  : result bool * RISTManager :=
  if is_streaming m then (Ret false, m)
  else match rist_config m with
  | None =>
      (Raise (Exn RuntimeError "RIST not configured. Call configure() first."), m)
  | Some _ =>
      match _build_pipeline_command has_plugin m with
      | Raise e => (Ret false, set_last_error m (Some (str_exn e)))
      | Ret cmd =>
          match env with
          | PopenRaises e => (Ret false, set_last_error m (Some (str_exn e)))
          | DiedEarly p _ (Raise e) =>
              (Ret false, set_last_error (set_process m (Some p)) (Some (str_exn e)))
          | DiedEarly p _ (Ret _) =>
              (Ret false,
               set_last_error (set_process m (Some p)) (Some MSG_START_FAILED))
          | Alive p thread_start =>
              let m := set_is_streaming (set_process m (Some p)) true in
              let m := set_monitor_thread (set_stop_monitoring m false) true in
              match thread_start with
              | Ret _ => (Ret true, m)
              | Raise e => (Ret false, set_last_error m (Some (str_exn e)))
              end
          end
      end
  end.

(** ** [RISTManager.stop] *)

(** What the shutdown meets: the outcome of the interrupt, whether the
    monitor thread is alive, whether the process exits within five
    seconds, and the outcome of the kill used otherwise. *)
Record shutdown := mkShutdown
  { sigint : result unit;
    monitor_alive : bool;
    exits_in_time : bool;
    sigkill : result unit }.

Definition stop (env : shutdown) (m : RISTManager) : result bool * RISTManager :=
  if negb (is_streaming m) then (Ret false, m)
  else match process m with
  | None => (Ret false, m)
  | Some _ =>
      match sigint env with
      | Raise _ => (Ret false, m)
      | Ret _ =>
          let m :=
            if monitor_thread m && monitor_alive env
            then set_stop_monitoring m true else m in
          let stopped := set_process (set_is_streaming m false) None in
          if exits_in_time env then (Ret true, stopped)
          else match sigkill env with
               | Raise _ => (Ret false, m)
               | Ret _ => (Ret true, stopped)
               end
      end
  end.

(** ** [RISTManager.get_status] *)

Module VideoStatus.
Record t := mk
  { codec : string; resolution : string; framerate : Z; bitrate : Z }.
End VideoStatus.

Module AudioStatus.
Record t := mk { codec : string; sample_rate : Z; bitrate : Z }.
End AudioStatus.

(** The status dictionary; a key that may be absent is an [option]. The
    key [error] is always present and holds [None] or the last error. *)
Module Status.
Record t := mk
  { is_streaming : bool;
    configured : bool;
    links : option Z;
    bonding_method : option string;
    video : option VideoStatus.t;
    audio : option AudioStatus.t;
    pid : option Z;
    running : option bool;
    error : option string }.
End Status.

(** [poll] is what [process.poll()] returns: [None] while the process
    runs, its exit status afterwards. *)
Definition get_status (poll : option Z) (m : RISTManager) : Status.t :=
  Status.mk
    (is_streaming m)
    (match rist_config m with Some _ => true | None => false end)
    (match rist_config m with
     | Some rc => Some (Z.of_nat (List.length (RISTConfig.links rc)))
     | None => None
     end)
    (match rist_config m with
     | Some rc => Some (BondingMethod_value (RISTConfig.bonding_method rc))
     | None => None
     end)
    (match video_config m with
     | Some vc =>
         Some (VideoStatus.mk
                 (VideoCodec_value (VideoConfig.codec vc))
                 (str_int (VideoConfig.width vc) ++ "x"
                    ++ str_int (VideoConfig.height vc))%string
                 (VideoConfig.framerate vc)
                 (VideoConfig.bitrate vc))
     | None => None
     end)
    (match audio_config m with
     | Some ac =>
         Some (AudioStatus.mk
                 (AudioCodec_value (AudioConfig.codec ac))
                 (AudioConfig.sample_rate ac)
                 (AudioConfig.bitrate ac))
     | None => None
     end)
    (match process m with Some p => Some (pid p) | None => None end)
    (match process m with
     | Some _ => Some (match poll with None => true | Some _ => false end)
     | None => None
     end)
    (last_error m).

(** ** Data model of the adaptive controller ([adaptive_controller.py]) *)

Record AdaptiveConfig := mkConfig
  { enabled : bool;
    adaptive_bitrate_enabled : bool;
    adaptive_links_enabled : bool;
    packet_loss_threshold_high : float;
    packet_loss_threshold_low : float;
    rtt_threshold_high : Z;
    bitrate_step_down : float;
    bitrate_step_up : float;
    min_video_bitrate : Z;
    max_video_bitrate : Z;
    link_disable_signal_threshold : Z;
    link_enable_signal_threshold : Z;
    stats_check_interval : Z;
    config_save_interval : Z;
    stable_periods_before_increase : Z;
    immediate_decrease : bool }.

(** [AdaptiveConfig()] with the defaults of the dataclass. *)
Definition default_config : AdaptiveConfig :=
  mkConfig true true true (flit 5) (flit 1) 200 (dec 15 2) (dec 10 2)
    500000 10000000 20 40 2 10 5 true.

Record AdaptiveState := mkState
  { current_packet_loss : float;
    current_rtt : Z;
    current_retransmissions : Z;
    current_video_bitrate : Z;
    current_audio_bitrate : Z;
    active_links : list string;
    disabled_links : list string;
    stable_periods : Z;
    last_adjustment_time : float;
    total_bitrate_increases : Z;
    total_bitrate_decreases : Z;
    total_link_disables : Z;
    total_link_enables : Z }.


(** [AdaptiveState()] *)
Definition initial_state : AdaptiveState :=
  mkState (S754_zero false) 0 0 0 0 [] [] 0 (S754_zero false) 0 0 0 0.

Definition set_current_packet_loss (s : AdaptiveState) (v : float) : AdaptiveState :=
  mkState v (current_rtt s) (current_retransmissions s)
    (current_video_bitrate s) (current_audio_bitrate s) (active_links s)
    (disabled_links s) (stable_periods s) (last_adjustment_time s)
    (total_bitrate_increases s) (total_bitrate_decreases s)
    (total_link_disables s) (total_link_enables s).

Definition set_current_retransmissions (s : AdaptiveState) (v : Z) : AdaptiveState :=
  mkState (current_packet_loss s) (current_rtt s) v (current_video_bitrate
    s) (current_audio_bitrate s) (active_links s) (disabled_links s)
    (stable_periods s) (last_adjustment_time s) (total_bitrate_increases s)
    (total_bitrate_decreases s) (total_link_disables s) (total_link_enables
    s).

Definition set_current_video_bitrate (s : AdaptiveState) (v : Z) : AdaptiveState :=
  mkState (current_packet_loss s) (current_rtt s) (current_retransmissions
    s) v (current_audio_bitrate s) (active_links s) (disabled_links s)
    (stable_periods s) (last_adjustment_time s) (total_bitrate_increases s)
    (total_bitrate_decreases s) (total_link_disables s) (total_link_enables
    s).

Definition set_current_audio_bitrate (s : AdaptiveState) (v : Z) : AdaptiveState :=
  mkState (current_packet_loss s) (current_rtt s) (current_retransmissions
    s) (current_video_bitrate s) v (active_links s) (disabled_links s)
    (stable_periods s) (last_adjustment_time s) (total_bitrate_increases s)
    (total_bitrate_decreases s) (total_link_disables s) (total_link_enables
    s).

Definition set_active_links (s : AdaptiveState) (v : list string) : AdaptiveState :=
  mkState (current_packet_loss s) (current_rtt s) (current_retransmissions
    s) (current_video_bitrate s) (current_audio_bitrate s) v (disabled_links
    s) (stable_periods s) (last_adjustment_time s) (total_bitrate_increases
    s) (total_bitrate_decreases s) (total_link_disables s)
    (total_link_enables s).

Definition set_disabled_links (s : AdaptiveState) (v : list string) : AdaptiveState :=
  mkState (current_packet_loss s) (current_rtt s) (current_retransmissions
    s) (current_video_bitrate s) (current_audio_bitrate s) (active_links s)
    v (stable_periods s) (last_adjustment_time s) (total_bitrate_increases
    s) (total_bitrate_decreases s) (total_link_disables s)
    (total_link_enables s).

Definition set_stable_periods (s : AdaptiveState) (v : Z) : AdaptiveState :=
  mkState (current_packet_loss s) (current_rtt s) (current_retransmissions
    s) (current_video_bitrate s) (current_audio_bitrate s) (active_links s)
    (disabled_links s) v (last_adjustment_time s) (total_bitrate_increases
    s) (total_bitrate_decreases s) (total_link_disables s)
    (total_link_enables s).

Definition set_last_adjustment_time (s : AdaptiveState) (v : float) : AdaptiveState :=
  mkState (current_packet_loss s) (current_rtt s) (current_retransmissions
    s) (current_video_bitrate s) (current_audio_bitrate s) (active_links s)
    (disabled_links s) (stable_periods s) v (total_bitrate_increases s)
    (total_bitrate_decreases s) (total_link_disables s) (total_link_enables
    s).

Definition set_total_bitrate_increases (s : AdaptiveState) (v : Z) : AdaptiveState :=
  mkState (current_packet_loss s) (current_rtt s) (current_retransmissions
    s) (current_video_bitrate s) (current_audio_bitrate s) (active_links s)
    (disabled_links s) (stable_periods s) (last_adjustment_time s) v
    (total_bitrate_decreases s) (total_link_disables s) (total_link_enables
    s).

Definition set_total_bitrate_decreases (s : AdaptiveState) (v : Z) : AdaptiveState :=
  mkState (current_packet_loss s) (current_rtt s) (current_retransmissions
    s) (current_video_bitrate s) (current_audio_bitrate s) (active_links s)
    (disabled_links s) (stable_periods s) (last_adjustment_time s)
    (total_bitrate_increases s) v (total_link_disables s)
    (total_link_enables s).

Definition set_total_link_disables (s : AdaptiveState) (v : Z) : AdaptiveState :=
  mkState (current_packet_loss s) (current_rtt s) (current_retransmissions
    s) (current_video_bitrate s) (current_audio_bitrate s) (active_links s)
    (disabled_links s) (stable_periods s) (last_adjustment_time s)
    (total_bitrate_increases s) (total_bitrate_decreases s) v
    (total_link_enables s).

Definition set_total_link_enables (s : AdaptiveState) (v : Z) : AdaptiveState :=
  mkState (current_packet_loss s) (current_rtt s) (current_retransmissions
    s) (current_video_bitrate s) (current_audio_bitrate s) (active_links s)
    (disabled_links s) (stable_periods s) (last_adjustment_time s)
    (total_bitrate_increases s) (total_bitrate_decreases s)
    (total_link_disables s) v.

(** A live reconfiguration the controller asks of the session manager. *)
Inductive request :=
| PushVideoBitrate (bps : Z)
| PushLinks (new_links : list RISTLink.t).

(** The fields of an [AdaptiveController] object that the loop changes,
    and [requests], the history of the reconfigurations it has asked for
    (oldest first), kept to state what a tick applies. *)
Record controller := mkController
  { config : AdaptiveConfig;
    state : AdaptiveState;
    _config_dirty : bool;
    _last_config_save : float;
    requests : list request }.

(** [AdaptiveController.__init__] *)
Definition new_controller (cfg : AdaptiveConfig) : controller :=
  mkController cfg initial_state false (S754_zero false) [].

Definition with_state (c : controller) (s : AdaptiveState) : controller :=
  mkController (config c) s (_config_dirty c) (_last_config_save c) (requests c).

Definition with_dirty (c : controller) (b : bool) : controller :=
  mkController (config c) (state c) b (_last_config_save c) (requests c).

Definition with_last_save (c : controller) (t : float) : controller :=
  mkController (config c) (state c) (_config_dirty c) t (requests c).

Definition with_request (c : controller) (r : request) : controller :=
  mkController (config c) (state c) (_config_dirty c) (_last_config_save c)
    (requests c ++ [r]).

(** [AdaptiveController.update_config] *)
Definition update_config (c : controller) (new_config : AdaptiveConfig)
  : controller :=
  mkController new_config (state c) (_config_dirty c) (_last_config_save c)
    (requests c).

(** ** Methods as state transformers that may raise

    A method body runs on the controller and either returns or raises; the
    fields written before a raise stay written. *)
Definition M (A : Type) : Type := controller -> result A * controller.

Definition ret {A} (a : A) : M A := fun c => (Ret a, c).
Definition raise {A} (e : exn) : M A := fun c => (Raise e, c).
Definition and_then {A B} (x : M A) (k : A -> M B) : M B :=
  fun c => match x c with
           | (Ret a, c') => k a c'
           | (Raise e, c') => (Raise e, c')
           end.
Definition lift {A} (r : result A) : M A := fun c => (r, c).
Definition modify (f : AdaptiveState -> AdaptiveState) : M unit :=
  fun c => (Ret tt, with_state c (f (state c))).
Definition update (f : controller -> controller) : M unit :=
  fun c => (Ret tt, f c).
Definition read {A} (f : controller -> A) : M A := fun c => (Ret (f c), c).
(** [try: body except Exception: pass] *)
Definition try_ (body : M unit) : M unit :=
  fun c => match body c with
           | (Ret _, c') => (Ret tt, c')
           | (Raise _, c') => (Ret tt, c')
           end.
Definition when (b : bool) (body : M unit) : M unit :=
  if b then body else ret tt.

Declare Scope py_scope.
Delimit Scope py_scope with py.
Notation "x <- c1 ;; c2" := (and_then c1 (fun x => c2))
  (at level 100, c1 at next level, right associativity) : py_scope.
Notation "c1 ;; c2" := (and_then c1 (fun _ => c2))
  (at level 100, right associativity) : py_scope.

(** ** Collaborators of the controller *)

(** Modelled from the spec: the status record of the link-quality monitor
    ([modem_monitor.ModemStatus], not part of the sources), of which the
    controller reads [connected] and [signal_strength]
    ("mapping link_id -> {connected: bool, signal_strength: 0..100}"). *)
Record ModemStatus := mkModem { connected : bool; signal_strength : Z }.

(** One answer of [get_all_modem_status()]: a dictionary in its iteration
    order. *)
Definition snapshot : Type := list (string * ModemStatus).

(** [stats.get(key, 0)] *)
Definition stats_get (stats : gmap string Z) (key : string) : Z :=
  default 0 (stats !! key).

(** ** [AdaptiveController._update_rist_stats]

    [get_stats] is the outcome of [rist_manager.get_stats()] (a method the
    session manager of the sources does not define, so the call raises
    there); [mgr] is the manager as read by this method. *)
Definition _update_rist_stats (get_stats : result (option (gmap string Z)))
  (mgr : RISTManager) : M unit :=
  (stats <- lift get_stats ;;
   match stats with
   | None => ret tt
   | Some stats =>
       if bool_decide (stats = ∅) then ret tt
       else
         let sent_original := stats_get stats "sent_original_packets" in
         let sent_retransmitted := stats_get stats "sent_retransmitted_packets" in
         loss <- (if 0 <? sent_original
                  then q <- lift (truediv sent_retransmitted sent_original) ;;
                       ret (fmul q (flit 100))
                  else ret (S754_zero false)) ;;
         modify (fun s => set_current_packet_loss s loss) ;;
         modify (fun s => set_current_retransmissions s sent_retransmitted) ;;
         match video_config mgr with
         | Some vc =>
             modify (fun s => set_current_video_bitrate s (VideoConfig.bitrate vc))
         | None => ret tt
         end ;;
         match audio_config mgr with
         | Some ac =>
             modify (fun s => set_current_audio_bitrate s (AudioConfig.bitrate ac))
         | None => ret tt
         end
   end)%py.

(** ** [AdaptiveController._update_modem_stats] *)

Definition should_be_active (cfg : AdaptiveConfig) (status : ModemStatus) : bool :=
  connected status && (link_enable_signal_threshold cfg <=? signal_strength status).

Definition should_be_disabled (cfg : AdaptiveConfig) (status : ModemStatus) : bool :=
  negb (should_be_active cfg status)
  && (signal_strength status <? link_disable_signal_threshold cfg).

(** [set(a) != set(b)] *)
Definition set_differs (a b : list string) : bool :=
  negb (bool_decide ((list_to_set a : gset string) = list_to_set b)).

Definition _update_modem_stats (modem_status : snapshot) : M unit :=
  (cfg <- read config ;;
   let active :=
     List.map fst (List.filter (fun e => should_be_active cfg (snd e)) modem_status) in
   let disabled :=
     List.map fst (List.filter (fun e => should_be_disabled cfg (snd e)) modem_status) in
   old_active <- read (fun c => active_links (state c)) ;;
   when (set_differs active old_active)
     (modify (fun s => set_active_links s active)) ;;
   old_disabled <- read (fun c => disabled_links (state c)) ;;
   when (set_differs disabled old_disabled)
     (modify (fun s => set_disabled_links s disabled)))%py.

(** ** [AdaptiveController._apply_video_bitrate]

    [push] is the outcome of the body of the [try]: building the new
    [VideoConfig] and calling [rist_manager.hot_reload]. [Ret true] is a
    reconfiguration that succeeded, [Ret false] one that was refused, and
    [Raise e] an exception, which the method catches. Against the classes of
    [rist_manager.py] the body always raises: [VideoConfig] has no attribute
    [profile] and [RISTManager] no method [hot_reload]. *)
Definition _apply_video_bitrate (new_bitrate : Z) (push : result bool) : M unit :=
  (update (fun c => with_request c (PushVideoBitrate new_bitrate)) ;;
   try_ (success <- lift push ;;
         if (success : bool)
         then modify (fun s => set_current_video_bitrate s new_bitrate) ;;
              update (fun c => with_dirty c true)
         else ret tt))%py.

(** ** [AdaptiveController._apply_link_config] *)
Definition _apply_link_config (new_links : list RISTLink.t) (push : result bool)
  : M unit :=
  (update (fun c => with_request c (PushLinks new_links)) ;;
   try_ (success <- lift push ;;
         if (success : bool)
         then update (fun c => with_dirty c true)
         else ret tt))%py.

(** ** [AdaptiveController._adaptive_bitrate_control]

    [now] is the value of [time.time()] at an adjustment. *)
Definition should_decrease (c : controller) : bool :=
  flt (packet_loss_threshold_high (config c)) (current_packet_loss (state c))
  || ((rtt_threshold_high (config c) <? current_rtt (state c))
      && (0 <? current_rtt (state c))).

Definition can_increase (c : controller) : bool :=
  flt (current_packet_loss (state c)) (packet_loss_threshold_low (config c))
  && (current_video_bitrate (state c) <? max_video_bitrate (config c)).

(** [int(current_bitrate * factor)] *)
Definition scaled (current_bitrate : Z) (factor : float) : result Z :=
  bind (float_of_int current_bitrate) (fun f => int_of_float (fmul f factor)).

Definition _adaptive_bitrate_control (push : result bool) (now : float) : M unit :=
  (c <- read id ;;
   let packet_loss := current_packet_loss (state c) in
   let current_bitrate := current_video_bitrate (state c) in
   if current_bitrate =? 0 then ret tt
   else if should_decrease c && immediate_decrease (config c) then
     new_bitrate <- lift (scaled current_bitrate
                            (fsub (flit 1) (bitrate_step_down (config c)))) ;;
     let new_bitrate := Z.max new_bitrate (min_video_bitrate (config c)) in
     when (new_bitrate <? current_bitrate)
       (_apply_video_bitrate new_bitrate push ;;
        modify (fun s => set_stable_periods s 0) ;;
        modify (fun s => set_total_bitrate_decreases s (total_bitrate_decreases s + 1)) ;;
        modify (fun s => set_last_adjustment_time s now))
   else if can_increase c then
     modify (fun s => set_stable_periods s (stable_periods s + 1)) ;;
     periods <- read (fun c => stable_periods (state c)) ;;
     when (stable_periods_before_increase (config c) <=? periods)
       (new_bitrate <- lift (scaled current_bitrate
                               (fadd (flit 1) (bitrate_step_up (config c)))) ;;
        let new_bitrate := Z.min new_bitrate (max_video_bitrate (config c)) in
        when (current_bitrate <? new_bitrate)
          (_apply_video_bitrate new_bitrate push ;;
           modify (fun s => set_stable_periods s 0) ;;
           modify (fun s => set_total_bitrate_increases s (total_bitrate_increases s + 1)) ;;
           modify (fun s => set_last_adjustment_time s now)))
   else
     when (fle (packet_loss_threshold_low (config c)) packet_loss)
       (modify (fun s => set_stable_periods s 0)))%py.

(** ** [AdaptiveController._adaptive_link_control] *)

(** The body of the inner loop, for one entry of the monitor's answer:
    the flag [should_be_enabled], the flag [needs_update] and the state
    with its counters. *)
Definition judge_modem (cfg : AdaptiveConfig) (link : RISTLink.t)
  (acc : bool * bool * AdaptiveState) (entry : string * ModemStatus)
  : bool * bool * AdaptiveState :=
  let '(should_be_enabled, needs_update, s) := acc in
  let status := snd entry in
  if signal_strength status <? link_disable_signal_threshold cfg then
    if RISTLink.enabled link
    then (false, true, set_total_link_disables s (total_link_disables s + 1))
    else (false, needs_update, s)
  else if link_enable_signal_threshold cfg <=? signal_strength status then
    if negb (RISTLink.enabled link)
    then (true, true, set_total_link_enables s (total_link_enables s + 1))
    else (true, needs_update, s)
  else acc.

(** The body of the outer loop, for the link at position [i]. [monitor] is
    [None] without a modem monitor; otherwise it gives the answer of the
    call of [get_all_modem_status()] made for the link at each position. *)
Definition judge_link (cfg : AdaptiveConfig) (monitor : option (nat -> snapshot))
  (acc : nat * bool * list RISTLink.t * AdaptiveState) (link : RISTLink.t)
  : nat * bool * list RISTLink.t * AdaptiveState :=
  let '(i, needs_update, new_links, s) := acc in
  let '(should_be_enabled, needs_update, s) :=
    match monitor with
    | Some answers =>
        fold_left (judge_modem cfg link) (answers i) (true, needs_update, s)
    | None => (true, needs_update, s)
    end in
  (S i, needs_update,
   new_links ++ [RISTLink.make (RISTLink.address link) (RISTLink.port link)
                   should_be_enabled],
   s).

Definition _adaptive_link_control (mgr : RISTManager)
  (monitor : option (nat -> snapshot)) (push : result bool) : M unit :=
  match rist_config mgr with
  | None => ret tt
  | Some rc =>
      (c <- read id ;;
       let '(_, needs_update, new_links, s) :=
         fold_left (judge_link (config c) monitor) (RISTConfig.links rc)
           (O, false, [], state c) in
       modify (fun _ => s) ;;
       when needs_update (_apply_link_config new_links push))%py
  end.

(** ** The durable configuration document *)

(** A JSON value as [json.load] returns it. *)
Inductive json :=
| JNull
| JBool (b : bool)
| JInt (z : Z)
| JFloat (f : float)
| JStr (s : string)
| JArr (items : list json)
| JObj (fields : gmap string json).

(** The entry written for a link. *)
Definition link_entry (l : RISTLink.t) : json :=
  JObj (<["address" := JStr (RISTLink.address l)]>
       (<["port" := JInt (RISTLink.port l)]>
       (<["enabled" := JBool (RISTLink.enabled l)]> ∅))).

Definition type_error : exn := Exn TypeError "object does not support item assignment".

(** ['rist' not in config], which raises on a value that is no container. *)
Definition rist_missing (config : json) : result bool :=
  match config with
  | JObj fields => Ret (bool_decide (fields !! "rist" = None))
  | JArr items =>
      Ret (negb (existsb (fun x => match x with
                                   | JStr s => String.eqb s "rist"
                                   | _ => false
                                   end) items))
  | JStr s => Ret (negb (contains "rist" s))
  | _ => Raise (Exn TypeError "argument is not iterable")
  end.

(** [config[key] = value] *)
Definition setitem (config : json) (key : string) (value : json) : result json :=
  match config with
  | JObj fields => Ret (JObj (<[key := value]> fields))
  | _ => Raise type_error
  end.

(** [config['rist'][key] = value]: the object stored under ['rist'] is
    updated in place. *)
Definition set_rist_item (config : json) (key : string) (value : json)
  : result json :=
  match config with
  | JObj fields =>
      match fields !! "rist" with
      | Some sub => bind (setitem sub key value)
                      (fun sub' => Ret (JObj (<["rist" := sub']> fields)))
      | None => Raise (Exn RuntimeError "KeyError: 'rist'")
      end
  | _ => Raise type_error
  end.

(** The document [_save_config] builds from the one it read. *)
Definition updated_document (mgr : RISTManager) (config : json) : result json :=
  bind (rist_missing config) (fun missing =>
  bind (if missing then setitem config "rist" (JObj ∅) else Ret config)
    (fun config =>
  bind (match video_config mgr with
        | Some vc => set_rist_item config "video_bitrate"
                       (JInt (VideoConfig.bitrate vc))
        | None => Ret config
        end) (fun config =>
  bind (match audio_config mgr with
        | Some ac => set_rist_item config "audio_bitrate"
                       (JInt (AudioConfig.bitrate ac))
        | None => Ret config
        end) (fun config =>
  match rist_config mgr with
  | Some rc => set_rist_item config "links"
                 (JArr (List.map link_entry (RISTConfig.links rc)))
  | None => Ret config
  end)))).

(** What the persistence step meets: [stored] is [None] when the file does
    not exist and otherwise the outcome of opening and parsing it;
    [open_for_writing] is the outcome of opening the file for writing, which
    empties it; [dump] the outcome of writing the document into it;
    [saved_at] the clock afterwards. *)
Record store := mkStore
  { stored : option (result json);
    open_for_writing : result unit;
    dump : result unit;
    saved_at : float }.

(** What the persistence step leaves in the store. *)
Inductive saved :=
| Untouched                    (* the file is as it was *)
| Written (document : json)    (* the file holds this document *)
| Truncated.                   (* the file was emptied and not written in full *)

(** ** [AdaptiveController._save_config] *)
Definition _save_config (mgr : RISTManager) (disk : store)
  : controller -> saved * controller :=
  fun c =>
    match stored disk with
    | None => (Untouched, c)
    | Some loaded =>
        match bind loaded (updated_document mgr) with
        | Raise _ => (Untouched, c)
        | Ret document =>
            match open_for_writing disk, dump disk with
            | Raise _, _ => (Untouched, c)
            | Ret _, Raise _ => (Truncated, c)
            | Ret _, Ret _ =>
                (Written document,
                 with_last_save (with_dirty c false) (saved_at disk))
            end
        end
    end.

(** ** One pass of [AdaptiveController._control_loop]

    Everything a pass obtains from outside. The session manager is shared
    with the threads that serve the API, so each method reads it as it is at
    that moment: [manager] when the statistics are taken, [manager_links]
    in the link policy and [manager_saved] in the persistence step. *)
Record tick_env := mkEnv
  { manager : RISTManager;
    get_stats : result (option (gmap string Z));
    modem_monitor : option (nat -> snapshot);
        (* answer 0 is read by [_update_modem_stats], answer [i + 1] for
           the link at position [i] *)
    push_video : result bool;
    now : float;
    manager_links : RISTManager;
    push_links : result bool;
    current_time : float;
    manager_saved : RISTManager;
    disk : store;
    state_callback : option (result unit) }.

(** [current_time - self._last_config_save >= self.config.config_save_interval],
    the comparison of a float with an [int] being exact. *)
Definition ge_int (x : float) (z : Z) : bool :=
  match x with
  | S754_nan => false
  | S754_infinity s => negb s
  | S754_zero _ => z <=? 0
  | S754_finite s m e =>
      let v := cond_Zopp s (Zpos m) in
      match e with
      | Zneg k => z * 2 ^ Zpos k <=? v
      | _ => z <=? v * 2 ^ e
      end
  end.

Definition save_due (c : controller) (current_time : float) : bool :=
  ge_int (fsub current_time (_last_config_save c)) (config_save_interval (config c)).

(** "Update state from RIST stats" and "Update state from modem monitor" *)
Definition take_samples (env : tick_env) : M unit :=
  (_update_rist_stats (get_stats env) (manager env) ;;
   match modem_monitor env with
   | Some answers => _update_modem_stats (answers O)
   | None => ret tt
   end)%py.

(** "Make adaptive decisions" *)
Definition make_decisions (env : tick_env) : M unit :=
  (cfg <- read config ;;
   when (adaptive_bitrate_enabled cfg)
     (_adaptive_bitrate_control (push_video env) (now env)) ;;
   when (adaptive_links_enabled cfg
         && bool_decide (is_Some (modem_monitor env)))
     (_adaptive_link_control (manager_links env)
        (option_map (fun answers i => answers (S i)) (modem_monitor env))
        (push_links env)))%py.

(** "Save config periodically if dirty" *)
Definition save_if_due (env : tick_env) : M saved :=
  fun c =>
    if _config_dirty c && save_due c (current_time env)
    then let '(written, c') := _save_config (manager_saved env) (disk env) c in
         (Ret written, c')
    else (Ret Untouched, c).

(** "Notify state callback" *)
Definition notify (env : tick_env) : M unit :=
  match state_callback env with
  | Some outcome => lift outcome
  | None => ret tt
  end.

(** The body of the [try] in the loop. Its value is what the pass leaves
    in the store. *)
Definition loop_body (env : tick_env) : M saved :=
  (take_samples env ;;
   make_decisions env ;;
   written <- save_if_due env ;;
   notify env ;;
   ret written)%py.

(** A pass with the [except Exception] of the loop: the controller after
    it, whatever happened inside. *)
Definition control_tick (env : tick_env) (c : controller) : controller :=
  snd (loop_body env c).

(** The controller after a sequence of passes. *)
Definition control_loop (envs : list tick_env) (c : controller) : controller :=
  fold_left (fun c env => control_tick env c) envs c.


(** ** Sample inputs used in the examples below *)

Definition sample_path : string := "/opt/gstreamer-1.24".
Definition sample_process : Popen := {| pid := 4242 |}.
Definition all_plugins : string -> bool := fun _ => true.

Definition link_a (on : bool) : RISTLink.t :=
  RISTLink.mk "192.168.1.100" 5004 on 100.
Definition link_b (on : bool) : RISTLink.t :=
  RISTLink.mk "192.168.2.100" 5004 on 100.

(** [RISTConfig(links=ls)] with the defaults of the dataclass. *)
Definition rist_config_of (ls : list RISTLink.t) : RISTConfig.t :=
  RISTConfig.mk ls BROADCAST 1200 1200 25 50 500 4 5 10.

Definition sample_video : VideoConfig.t :=
  VideoConfig.mk H264 1280 720 30 2000000 60.

(** A manager configured with one link that is switched off. *)
Definition manager_one_link_off : RISTManager :=
  snd (configure (new_manager sample_path) (rist_config_of [link_a false])
         (Some sample_video) None).

(** A manager that streams: configured with two links and started, the
    process alive after the grace second. *)
Definition manager_streaming : RISTManager :=
  snd (start all_plugins (Alive sample_process (Ret tt))
         (snd (configure (new_manager sample_path)
                 (rist_config_of [link_a true; link_b true])
                 (Some sample_video) None))).

(** A statistics sample: 100 packets sent, 7 of them retransmitted. *)
Definition sample_stats : gmap string Z :=
  <["sent_original_packets" := 100]> (<["sent_retransmitted_packets" := 7]> ∅).

(** ** Auxiliary definitions for the statements below *)

(** The three assignments that follow a requested decrease:
    [stable_periods = 0], [total_bitrate_decreases += 1],
    [last_adjustment_time = time.time()]. *)
Definition note_decrease (now : float) (s : AdaptiveState) : AdaptiveState :=
  set_last_adjustment_time
    (set_total_bitrate_decreases (set_stable_periods s 0)
       (total_bitrate_decreases s + 1))
    now.

(** The same after a requested increase. *)
Definition note_increase (now : float) (s : AdaptiveState) : AdaptiveState :=
  set_last_adjustment_time
    (set_total_bitrate_increases (set_stable_periods s 0)
       (total_bitrate_increases s + 1))
    now.

(** The controller once [stable_periods += 1] has run. *)
Definition counted (c : controller) : controller :=
  with_state c (set_stable_periods (state c) (stable_periods (state c) + 1)).

(** The bitrate the decrease branch aims at, and the one the increase
    branch aims at, given the truncated product. *)
Definition decrease_target (c : controller) (product : Z) : Z :=
  Z.max product (min_video_bitrate (config c)).
Definition increase_target (c : controller) (product : Z) : Z :=
  Z.min product (max_video_bitrate (config c)).

(** The controller of the example scenario: default thresholds (high loss
    above 5.0 %, step down 0.15, floor 500000, immediate decrease), a
    current bitrate of 2,000,000 bps and a sampled loss of 7.0 %. *)
Definition example_controller : controller :=
  with_state (new_controller default_config)
    (set_current_packet_loss
       (set_current_video_bitrate initial_state 2000000) (flit 7)).

(** A controller with a step down of 0.3, at 1,400,000 bps and a sampled
    loss of 7.0 %; the other settings are the defaults. *)
Definition steep_config : AdaptiveConfig :=
  mkConfig true true true (flit 5) (flit 1) 200 (dec 3 1) (dec 10 2)
    500000 10000000 20 40 2 10 5 true.

Definition steep_controller : controller :=
  with_state (new_controller steep_config)
    (set_current_packet_loss
       (set_current_video_bitrate initial_state 1400000) (flit 7)).

(** The outcome of a push of a bitrate against the classes of
    [rist_manager.py], and that of a push of links. *)
Definition push_against_sources : result bool :=
  Raise (Exn AttributeError "'VideoConfig' object has no attribute 'profile'").
Definition push_links_against_sources : result bool :=
  Raise (Exn AttributeError "'RISTConfig' object has no attribute 'reorder_section'").

(** The bitrates asked for so far, in order. *)
Definition video_requests (c : controller) : list Z :=
  omap (fun r => match r with
                 | PushVideoBitrate bps => Some bps
                 | PushLinks _ => None
                 end) (requests c).

(** The controller as the bitrate policy finds it in a pass. *)
Definition sampled (env : tick_env) (c : controller) : controller :=
  snd (take_samples env c).

(** A pass counts towards stability as the code has it: the samples are
    taken without an exception, the bitrate policy is enabled and finds a
    non-zero bitrate, it does not take the decrease branch, and the loss is
    below [packet_loss_threshold_low] with the bitrate below
    [max_video_bitrate]. *)
Definition counts_as_stable (env : tick_env) (c : controller) : Prop :=
  fst (take_samples env c) = Ret tt
  /\ adaptive_bitrate_enabled (config c) = true
  /\ current_video_bitrate (state (sampled env c)) <> 0
  /\ should_decrease (sampled env c) && immediate_decrease (config c) = false
  /\ can_increase (sampled env c) = true.

(** Every pass of the run counts, each taken from the controller the
    passes before it leave. *)
Fixpoint stable_run (envs : list tick_env) (c : controller) : Prop :=
  match envs with
  | [] => True
  | env :: rest => counts_as_stable env c /\ stable_run rest (control_tick env c)
  end.

(** What the steps of a pass other than the bitrate policy leave alone:
    the configuration, the stability counter and the bitrates asked for. *)
Definition keeps_policy (c c' : controller) : Prop :=
  config c' = config c
  /\ stable_periods (state c') = stable_periods (state c)
  /\ video_requests c' = video_requests c.

(** ** Sample passes *)

Definition stats_of (original retransmitted : Z) : gmap string Z :=
  <["sent_original_packets" := original]>
    (<["sent_retransmitted_packets" := retransmitted]> ∅).

(** A manager configured with one link and a video bitrate. *)
Definition manager_at (bps : Z) : RISTManager :=
  snd (configure (new_manager sample_path) (rist_config_of [link_a true])
         (Some (VideoConfig.mk H264 1280 720 30 bps 60)) None).

(** A pass without a modem monitor in which the manager reports the given
    bitrate and packet counts, and every push meets the classes of the
    sources. *)
Definition pass (bps original retransmitted : Z) : tick_env :=
  mkEnv (manager_at bps) (Ret (Some (stats_of original retransmitted))) None
    push_against_sources (flit 1000) (manager_at bps) push_links_against_sources
    (flit 1000) (manager_at bps) (mkStore None (Ret tt) (Ret tt) (flit 1000)) None.

(** The default configuration with the high-loss threshold lowered to
    0.5 %, below the low-loss threshold of 1.0 %. *)
Definition overlapping_config : AdaptiveConfig :=
  mkConfig true true true (dec 5 1) (flit 1) 200 (dec 15 2) (dec 10 2)
    500000 10000000 20 40 2 10 5 true.

(** ** Auxiliary definitions for the link policy *)

(** A reading in the dead band: not below the disable threshold and below
    the enable threshold. *)
Definition in_dead_band (cfg : AdaptiveConfig) (status : ModemStatus) : Prop :=
  link_disable_signal_threshold cfg <= signal_strength status
  /\ signal_strength status < link_enable_signal_threshold cfg.

(** The flag a link gets from one answer of the monitor: the last reading
    outside the dead band decides, and the flag is set without one. *)
Definition decided (cfg : AdaptiveConfig) (answer : snapshot) : bool :=
  fold_left
    (fun should entry =>
       if signal_strength (snd entry) <? link_disable_signal_threshold cfg
       then false
       else if link_enable_signal_threshold cfg <=? signal_strength (snd entry)
            then true
            else should)
    answer true.

(** Two modems, the first with a signal of 30 % and the second of 10 %. *)
Definition two_modems : snapshot :=
  [("modem0"%string, mkModem true 30); ("modem1"%string, mkModem true 10)].

(** A manager configured with two enabled links. *)
Definition manager_two_links : RISTManager :=
  snd (configure (new_manager sample_path)
         (rist_config_of [link_a true; link_b true]) (Some sample_video) None).

(** The link list the policy builds: every link with the flag decided by
    the answer read for its position. *)
Definition rebuilt_links (cfg : AdaptiveConfig) (answers : nat -> snapshot)
  (links : list RISTLink.t) : list RISTLink.t :=
  imap (fun i link =>
          RISTLink.make (RISTLink.address link) (RISTLink.port link)
            (decided cfg (answers i)))
    links.

(** ** Auxiliary definitions for the persistence step *)

(** The keys of the [rist] object the controller writes. *)
Definition own_key (k : string) : Prop :=
  k = "video_bitrate"%string \/ k = "audio_bitrate"%string \/ k = "links"%string.

(** The fields of the object stored under [rist]; none if there is no
    such object. *)
Definition rist_fields (top : gmap string json) : gmap string json :=
  match top !! "rist"%string with
  | Some (JObj sub) => sub
  | _ => ∅
  end.

(** [written] differs from [document] in the controller's keys only. A
    document that is no object is written back as it is. In an object every
    top-level field other than [rist] is kept; [rist] is either kept as it
    is, or it was an object (or absent) and is an object afterwards whose
    fields other than [video_bitrate], [audio_bitrate] and [links] are
    those it had before. *)
Definition only_own_keys_changed (document written : json) : Prop :=
  match document with
  | JObj top =>
      exists top',
        written = JObj top'
        /\ (forall k, k <> "rist"%string -> top' !! k = top !! k)
        /\ (top' !! "rist"%string = top !! "rist"%string
            \/ (top !! "rist"%string = None
                \/ exists sub, top !! "rist"%string = Some (JObj sub))
               /\ exists sub',
                    top' !! "rist"%string = Some (JObj sub')
                    /\ forall k, ~ own_key k -> sub' !! k = rist_fields top !! k)
  | _ => written = document
  end.

(** A stored document with fields of the device next to the [rist]
    object. *)
Definition sample_document : json :=
  JObj (<["max_br" := JInt 6000]>
       (<["srt_latency" := JInt 2000]>
       (<["rist" := JObj (<["profile" := JStr "high_1080p30"]>
                         (<["video_bitrate" := JInt 2500000]> ∅))]> ∅))).

(** * Further parts of the session manager *)

(** ** [RISTManager.update_bitrate]

    The stored video configuration gets the new bitrate; a streaming
    manager is then stopped and started again, and the outcome of [start]
    is the result. [down] and [up] are what the shutdown and the launch
    meet. *)
Definition with_bitrate (vc : VideoConfig.t) (new_bitrate : Z) : VideoConfig.t :=
  VideoConfig.mk (VideoConfig.codec vc) (VideoConfig.width vc)
    (VideoConfig.height vc) (VideoConfig.framerate vc) new_bitrate
    (VideoConfig.keyframe_interval vc).

Definition update_bitrate (has_plugin : string -> bool) (down : shutdown)
  (up : launch) (new_bitrate : Z) (m : RISTManager)
  : result bool * RISTManager :=
  match video_config m with
  | None => (Ret false, m)
  | Some vc =>
      let m := set_configs m (rist_config m) (Some (with_bitrate vc new_bitrate))
                 (audio_config m) in
      if is_streaming m
      then start has_plugin up (snd (stop down m))
      else (Ret true, m)
  end.

(** ** Sequences of operations on a manager

    A call of the API, or a run of the monitor thread over the
    observations it makes. *)
Inductive call :=
| CallConfigure (rc : RISTConfig.t) (vc : option VideoConfig.t)
    (ac : option AudioConfig.t)
| CallStart (has_plugin : string -> bool) (env : launch)
| CallStop (env : shutdown)
| CallUpdateBitrate (has_plugin : string -> bool) (down : shutdown)
    (up : launch) (new_bitrate : Z)
| MonitorRuns (obs : list observation).

(** The manager after a call, whether it returned or raised. *)
Definition perform (m : RISTManager) (c : call) : RISTManager :=
  match c with
  | CallConfigure rc vc ac => snd (configure m rc vc ac)
  | CallStart has_plugin env => snd (start has_plugin env m)
  | CallStop env => snd (stop env m)
  | CallUpdateBitrate has_plugin down up new_bitrate =>
      snd (update_bitrate has_plugin down up new_bitrate m)
  | MonitorRuns obs => fst (_monitor_stderr m obs)
  end.

Definition perform_all (calls : list call) (m : RISTManager) : RISTManager :=
  fold_left perform calls m.

(** A streaming manager holds a configuration and a process handle. *)
Definition streaming_is_backed (m : RISTManager) : Prop :=
  is_streaming m = true -> rist_config m <> None /\ process m <> None.

(** An observation on which the monitor loop leaves. *)
Definition ends_monitor (o : observation) : Prop :=
  match o with
  | ObsLine _ => False
  | _ => True
  end.

(** The messages of the classifier that name a known failure. *)
Definition known_messages : list string :=
  [MSG_DISK_FULL; MSG_CONNECTION; MSG_PIPELINE; MSG_STREAM_ENDED;
   MSG_NOT_NEGOTIATED; MSG_PLUGIN].

(** The signatures the classifier looks for, in its order, and the marker
    of an unclassified error. *)
Definition signatures : list string :=
  ["no space left on device"; "could not open resource"; "connection refused";
   "internal data flow error"; "streaming stopped"; "eos"; "not negotiated";
   "no such element"; "failed to create element"; "error"]%string.

(** A shutdown in which everything goes well, and a launch that stays
    alive. *)
Definition clean_shutdown : shutdown := mkShutdown (Ret tt) true true (Ret tt).
Definition alive_launch : launch := Alive sample_process (Ret tt).

(** * Further definitions for the controller *)

(** The readings of the example of the specification: modem A at 15 %,
    modem B at 60 %, both connected. *)
Definition readings_a_b : snapshot :=
  [("A"%string, mkModem true 15); ("B"%string, mkModem true 60)].

(** The bitrate adjustments counted so far. *)
Definition adjustments (c : controller) : Z :=
  total_bitrate_increases (state c) + total_bitrate_decreases (state c).

(** What a pass does to the books of the controller: the configuration is
    kept, the history of requests is only extended, no counter goes down,
    and the bitrate adjustments counted grow by the number of bitrates
    asked for. *)
Definition keeps_books (c c' : controller) : Prop :=
  config c' = config c
  /\ (exists more, requests c' = requests c ++ more)
  /\ total_bitrate_increases (state c) <= total_bitrate_increases (state c')
  /\ total_bitrate_decreases (state c) <= total_bitrate_decreases (state c')
  /\ total_link_disables (state c) <= total_link_disables (state c')
  /\ total_link_enables (state c) <= total_link_enables (state c')
  /\ adjustments c' - Z.of_nat (length (video_requests c'))
     = adjustments c - Z.of_nat (length (video_requests c)).

(** The persistence bookkeeping is as it was. *)
Definition same_persistence (c c' : controller) : Prop :=
  _config_dirty c' = _config_dirty c
  /\ _last_config_save c' = _last_config_save c.

(** A controller that is clean stays clean, with the time of its last save. *)
Definition clean_stays (c c' : controller) : Prop :=
  _config_dirty c = false -> same_persistence c c'.

(** The document is an object whose [rist] object holds [value] under
    [key]. *)
Definition has_rist_field (document : json) (key : string) (value : json) : Prop :=
  exists top sub,
    document = JObj top
    /\ top !! "rist"%string = Some (JObj sub)
    /\ sub !! key = Some value.

(** [n] times the letter u-umlaut (two bytes each). *)
Fixpoint umlauts (n : nat) : string :=
  match n with
  | O => EmptyString
  | S n' => String "195" (String "188" (umlauts n'))
  end.

(** An error line with letters outside ASCII: ["errors "] and 120 times
    u-umlaut. *)
Definition umlaut_line : string := ("errors " ++ umlauts 120)%string.

(** * The stream profiles ([rist_profiles.py]) *)

Inductive Platform := TWITCH | YOUTUBE | GENERIC.

Inductive ProfileCategory :=
| TWITCH_1080P | TWITCH_1440P_BETA | YOUTUBE_1080P | YOUTUBE_1440P
| YOUTUBE_4K | AUDIO.

Module VideoProfile.
Record t := mk
  { id : string; name : string; description : string;
    platform : Platform; category : ProfileCategory; codec : VideoCodec;
    width : Z; height : Z; framerate : Z; bitrate : Z;
    keyframe_interval : Z }.
End VideoProfile.

Module AudioProfile.
Record t := mk
  { id : string; name : string; description : string;
    codec : AudioCodec; bitrate : Z; sample_rate : Z; channels : Z }.
End AudioProfile.

Definition TWITCH_1080P_30_H264 : VideoProfile.t :=
  VideoProfile.mk "twitch_1080p30_h264"
    "Twitch 1080p30 (H.264)"
    "Twitch 1080p 30fps with H.264 (6 Mbps recommended)"
    TWITCH TWITCH_1080P H264 1920 1080 30 6000000 60.

Definition TWITCH_1080P_30_H265 : VideoProfile.t :=
  VideoProfile.mk "twitch_1080p30_h265"
    "Twitch 1080p30 (H.265)"
    "Twitch 1080p 30fps with H.265 (6 Mbps)"
    TWITCH TWITCH_1080P H265 1920 1080 30 6000000 60.

Definition TWITCH_1080P_60_H264 : VideoProfile.t :=
  VideoProfile.mk "twitch_1080p60_h264"
    "Twitch 1080p60 (H.264)"
    "Twitch 1080p 60fps with H.264 (6 Mbps recommended)"
    TWITCH TWITCH_1080P H264 1920 1080 60 6000000 120.

Definition TWITCH_1080P_60_H265 : VideoProfile.t :=
  VideoProfile.mk "twitch_1080p60_h265"
    "Twitch 1080p60 (H.265)"
    "Twitch 1080p 60fps with H.265 (6 Mbps)"
    TWITCH TWITCH_1080P H265 1920 1080 60 6000000 120.

Definition TWITCH_1440P_30_H264 : VideoProfile.t :=
  VideoProfile.mk "twitch_1440p30_h264"
    "Twitch 1440p30 (H.264) Beta"
    "Twitch 2K 30fps with H.264 - Beta (7.5 Mbps)"
    TWITCH TWITCH_1440P_BETA H264 2560 1440 30 7500000 60.

Definition TWITCH_1440P_30_H265 : VideoProfile.t :=
  VideoProfile.mk "twitch_1440p30_h265"
    "Twitch 1440p30 (H.265) Beta"
    "Twitch 2K 30fps with H.265 HEVC - Beta (9 Mbps)"
    TWITCH TWITCH_1440P_BETA H265 2560 1440 30 9000000 60.

Definition TWITCH_1440P_60_H264 : VideoProfile.t :=
  VideoProfile.mk "twitch_1440p60_h264"
    "Twitch 1440p60 (H.264) Beta"
    "Twitch 2K 60fps with H.264 - Beta (7.5 Mbps)"
    TWITCH TWITCH_1440P_BETA H264 2560 1440 60 7500000 120.

Definition TWITCH_1440P_60_H265 : VideoProfile.t :=
  VideoProfile.mk "twitch_1440p60_h265"
    "Twitch 1440p60 (H.265) Beta"
    "Twitch 2K 60fps with H.265 HEVC - Beta (9 Mbps)"
    TWITCH TWITCH_1440P_BETA H265 2560 1440 60 9000000 120.

Definition YOUTUBE_1080P_30_H264 : VideoProfile.t :=
  VideoProfile.mk "youtube_1080p30_h264"
    "YouTube 1080p30 (H.264)"
    "YouTube 1080p 30fps with H.264 (5 Mbps)"
    YOUTUBE YOUTUBE_1080P H264 1920 1080 30 5000000 60.

Definition YOUTUBE_1080P_30_H265 : VideoProfile.t :=
  VideoProfile.mk "youtube_1080p30_h265"
    "YouTube 1080p30 (H.265)"
    "YouTube 1080p 30fps with H.265 (5 Mbps)"
    YOUTUBE YOUTUBE_1080P H265 1920 1080 30 5000000 60.

Definition YOUTUBE_1080P_60_H264 : VideoProfile.t :=
  VideoProfile.mk "youtube_1080p60_h264"
    "YouTube 1080p60 (H.264)"
    "YouTube 1080p 60fps with H.264 (7 Mbps)"
    YOUTUBE YOUTUBE_1080P H264 1920 1080 60 7000000 120.

Definition YOUTUBE_1080P_60_H265 : VideoProfile.t :=
  VideoProfile.mk "youtube_1080p60_h265"
    "YouTube 1080p60 (H.265)"
    "YouTube 1080p 60fps with H.265 (7 Mbps)"
    YOUTUBE YOUTUBE_1080P H265 1920 1080 60 7000000 120.

Definition YOUTUBE_1440P_30_H264 : VideoProfile.t :=
  VideoProfile.mk "youtube_1440p30_h264"
    "YouTube 1440p30 (H.264)"
    "YouTube 2K 30fps with H.264 (10 Mbps)"
    YOUTUBE YOUTUBE_1440P H264 2560 1440 30 10000000 60.

Definition YOUTUBE_1440P_30_H265 : VideoProfile.t :=
  VideoProfile.mk "youtube_1440p30_h265"
    "YouTube 1440p30 (H.265)"
    "YouTube 2K 30fps with H.265 (10 Mbps)"
    YOUTUBE YOUTUBE_1440P H265 2560 1440 30 10000000 60.

Definition YOUTUBE_1440P_60_H264 : VideoProfile.t :=
  VideoProfile.mk "youtube_1440p60_h264"
    "YouTube 1440p60 (H.264)"
    "YouTube 2K 60fps with H.264 (15 Mbps)"
    YOUTUBE YOUTUBE_1440P H264 2560 1440 60 15000000 120.

Definition YOUTUBE_1440P_60_H265 : VideoProfile.t :=
  VideoProfile.mk "youtube_1440p60_h265"
    "YouTube 1440p60 (H.265)"
    "YouTube 2K 60fps with H.265 (15 Mbps)"
    YOUTUBE YOUTUBE_1440P H265 2560 1440 60 15000000 120.

Definition YOUTUBE_4K_30_H264 : VideoProfile.t :=
  VideoProfile.mk "youtube_4k30_h264"
    "YouTube 4K30 (H.264)"
    "YouTube 4K 30fps with H.264 (20 Mbps)"
    YOUTUBE YOUTUBE_4K H264 3840 2160 30 20000000 60.

Definition YOUTUBE_4K_30_H265 : VideoProfile.t :=
  VideoProfile.mk "youtube_4k30_h265"
    "YouTube 4K30 (H.265)"
    "YouTube 4K 30fps with H.265 (20 Mbps)"
    YOUTUBE YOUTUBE_4K H265 3840 2160 30 20000000 60.

Definition YOUTUBE_4K_60_H264 : VideoProfile.t :=
  VideoProfile.mk "youtube_4k60_h264"
    "YouTube 4K60 (H.264)"
    "YouTube 4K 60fps with H.264 (35 Mbps)"
    YOUTUBE YOUTUBE_4K H264 3840 2160 60 35000000 120.

Definition YOUTUBE_4K_60_H265 : VideoProfile.t :=
  VideoProfile.mk "youtube_4k60_h265"
    "YouTube 4K60 (H.265)"
    "YouTube 4K 60fps with H.265 (35 Mbps)"
    YOUTUBE YOUTUBE_4K H265 3840 2160 60 35000000 120.

Definition AUDIO_AAC_128 : AudioProfile.t :=
  AudioProfile.mk "aac_128k"
    "AAC 128 kbps"
    "AAC audio at 128 kbps (good quality)"
    AAC 128000 48000 2.

Definition AUDIO_AAC_192 : AudioProfile.t :=
  AudioProfile.mk "aac_192k"
    "AAC 192 kbps"
    "AAC audio at 192 kbps (high quality)"
    AAC 192000 48000 2.

Definition AUDIO_AAC_256 : AudioProfile.t :=
  AudioProfile.mk "aac_256k"
    "AAC 256 kbps"
    "AAC audio at 256 kbps (broadcast quality)"
    AAC 256000 48000 2.

Definition AUDIO_OPUS_96 : AudioProfile.t :=
  AudioProfile.mk "opus_96k"
    "Opus 96 kbps"
    "Opus audio at 96 kbps (good quality, low latency)"
    OPUS 96000 48000 2.

Definition AUDIO_OPUS_128 : AudioProfile.t :=
  AudioProfile.mk "opus_128k"
    "Opus 128 kbps"
    "Opus audio at 128 kbps (high quality, low latency)"
    OPUS 128000 48000 2.

Definition AUDIO_OPUS_192 : AudioProfile.t :=
  AudioProfile.mk "opus_192k"
    "Opus 192 kbps"
    "Opus audio at 192 kbps (broadcast quality, low latency)"
    OPUS 192000 48000 2.

Definition ALL_VIDEO_PROFILES : list VideoProfile.t :=
  [ TWITCH_1080P_30_H264;
    TWITCH_1080P_30_H265;
    TWITCH_1080P_60_H264;
    TWITCH_1080P_60_H265;
    TWITCH_1440P_30_H264;
    TWITCH_1440P_30_H265;
    TWITCH_1440P_60_H264;
    TWITCH_1440P_60_H265;
    YOUTUBE_1080P_30_H264;
    YOUTUBE_1080P_30_H265;
    YOUTUBE_1080P_60_H264;
    YOUTUBE_1080P_60_H265;
    YOUTUBE_1440P_30_H264;
    YOUTUBE_1440P_30_H265;
    YOUTUBE_1440P_60_H264;
    YOUTUBE_1440P_60_H265;
    YOUTUBE_4K_30_H264;
    YOUTUBE_4K_30_H265;
    YOUTUBE_4K_60_H264;
    YOUTUBE_4K_60_H265 ].

Definition ALL_AUDIO_PROFILES : list AudioProfile.t :=
  [ AUDIO_AAC_128;
    AUDIO_AAC_192;
    AUDIO_AAC_256;
    AUDIO_OPUS_96;
    AUDIO_OPUS_128;
    AUDIO_OPUS_192 ].

(** [get_video_profile]: the first profile of the list with this id. *)
Definition get_video_profile (profile_id : string) : option VideoProfile.t :=
  List.find (fun profile => String.eqb (VideoProfile.id profile) profile_id)
    ALL_VIDEO_PROFILES.

(** [get_audio_profile] *)
Definition get_audio_profile (profile_id : string) : option AudioProfile.t :=
  List.find (fun profile => String.eqb (AudioProfile.id profile) profile_id)
    ALL_AUDIO_PROFILES.

(** [create_stream_config]: the three configurations of a stream, or three
    times [None] when one of the two ids names no profile. The link list is
    taken as given; the other fields of the RIST configuration take the
    defaults of the dataclass. *)
Definition create_stream_config (video_profile_id audio_profile_id : string)
  (links : list RISTLink.t) (bonding_method : BondingMethod)
  : option RISTConfig.t * option VideoConfig.t * option AudioConfig.t :=
  match get_video_profile video_profile_id, get_audio_profile audio_profile_id with
  | Some video_profile, Some audio_profile =>
      (Some (RISTConfig.mk links bonding_method 1200 1200 25 50 500 4 5 10),
       Some (VideoConfig.mk
               (VideoProfile.codec video_profile)
               (VideoProfile.width video_profile)
               (VideoProfile.height video_profile)
               (VideoProfile.framerate video_profile)
               (VideoProfile.bitrate video_profile)
               (VideoProfile.keyframe_interval video_profile)),
       Some (AudioConfig.mk
               (AudioProfile.codec audio_profile)
               (AudioProfile.bitrate audio_profile)
               (AudioProfile.sample_rate audio_profile)
               (AudioProfile.channels audio_profile)))
  | _, _ => (None, None, None)
  end.
(** * Properties *)

(** ** Substring search *)

Lemma append_cons (a : ascii) (s t : string) :
  (String a s ++ t)%string = String a (s ++ t)%string.
Proof. reflexivity. Qed.

Lemma prefix_app (n h : string) :
  String.prefix n h = true <-> exists q, h = (n ++ q)%string.
Proof.
  revert h. induction n as [|a n IH]; intros h.
  - split; [intros _; exists h; reflexivity | destruct h; reflexivity].
  - destruct h as [|b h]; simpl.
    + split; [discriminate | intros [q Hq]; discriminate].
    + destruct (Ascii.ascii_dec a b) as [->|Hab].
      * split.
        -- intros H. apply IH in H as [q ->]. exists q. reflexivity.
        -- intros [q Hq]. apply IH. exists q.
           rewrite append_cons in Hq. congruence.
      * split; [discriminate |].
        intros [q Hq]. rewrite append_cons in Hq. congruence.
Qed.

Lemma contains_nil (n : string) : contains n "" = String.prefix n "".
Proof. destruct n; reflexivity. Qed.

Lemma contains_cons (n : string) (b : ascii) (h : string) :
  contains n (String b h)
  = if String.prefix n (String b h) then true else contains n h.
Proof. reflexivity. Qed.

(** [contains] is the substring relation of [needle in hay]. *)
Lemma contains_spec (n h : string) :
  contains n h = true <-> exists p q, h = (p ++ n ++ q)%string.
Proof.
  induction h as [|b h IH].
  - rewrite contains_nil, prefix_app. split.
    + intros [q Hq]. exists ""%string, q. exact Hq.
    + intros (p & q & Hpq). destruct p; [eauto | discriminate].
  - rewrite contains_cons.
    destruct (String.prefix n (String b h)) eqn:E.
    + split; [intros _ | reflexivity].
      apply prefix_app in E as [q Hq]. exists ""%string, q. exact Hq.
    + rewrite IH. split.
      * intros (p & q & ->). exists (String b p), q. reflexivity.
      * intros (p & q & Hpq). destruct p as [|a p].
        -- assert (String.prefix n (String b h) = true)
             by (apply prefix_app; eauto).
           congruence.
        -- rewrite append_cons in Hpq. injection Hpq as _ ->. eauto.
Qed.

(** ** The diagnostic-line classifier *)

(** C10. A line whose lowered text has "eos" somewhere inside it (as in
    "videos") and that carries none of the signatures tested before (disk
    full, resource that cannot be opened, refused connection, internal data
    flow error) is classified as an unexpectedly ended stream; the result is
    never [None]. *)
Theorem eos_anywhere_is_stream_end (line : string) :
  (exists before after, lower line = (before ++ "eos" ++ after)%string) ->
  contains "no space left on device" (lower line) = false ->
  contains "could not open resource" (lower line) = false ->
  contains "connection refused" (lower line) = false ->
  contains "internal data flow error" (lower line) = false ->
  _parse_gst_error line = Some MSG_STREAM_ENDED.
Proof.
  intros Heos Hdisk Hopen Hconn Hflow.
  apply contains_spec in Heos.
  unfold _parse_gst_error.
  rewrite Hdisk, Hopen, Hconn, Hflow, Heos.
  simpl. rewrite orb_true_r. reflexivity.
Qed.

Lemma eos_anywhere_is_stream_end_witness :
  _parse_gst_error "Playing 3 videos from the camera roll"
  = Some "RIST Stream unerwartet beendet"%string.
Proof.
  apply eos_anywhere_is_stream_end; try reflexivity.
  exists "playing 3 vid"%string, " from the camera roll"%string. reflexivity.
Defined.

(** ** The session manager: results and exceptions *)

Lemma stop_returns (env : shutdown) (m : RISTManager) :
  exists ok, fst (stop env m) = Ret ok.
Proof.
  unfold stop.
  destruct (is_streaming m); simpl; [|eauto].
  destruct (process m); [|eauto].
  destruct (sigint env); [|eauto].
  destruct (exits_in_time env); [eauto|].
  destruct (sigkill env); eauto.
Qed.

Lemma build_command_returns (hp : string -> bool) (m : RISTManager) :
  rist_config m <> None -> exists cmd, _build_pipeline_command hp m = Ret cmd.
Proof.
  unfold _build_pipeline_command. destruct (rist_config m); [eauto | congruence].
Qed.

Lemma start_configured_returns (hp : string -> bool) (env : launch)
  (m : RISTManager) :
  is_streaming m = true \/ rist_config m <> None ->
  exists ok, fst (start hp env m) = Ret ok.
Proof.
  intros H. unfold start.
  destruct (is_streaming m); [eauto|].
  destruct H as [H|H]; [discriminate|].
  destruct (build_command_returns hp m H) as [cmd Hcmd]. rewrite Hcmd.
  destruct (rist_config m); [|congruence].
  destruct env as [e|p code [text|e]|p [u|e]]; simpl; eauto.
Qed.

Lemma start_failure_sets_last_error (hp : string -> bool) (env : launch)
  (m : RISTManager) :
  is_streaming m = false ->
  fst (start hp env m) = Ret false ->
  last_error (snd (start hp env m)) <> None.
Proof.
  unfold start. intros -> .
  destruct (rist_config m); [|discriminate].
  destruct (_build_pipeline_command hp m); [|discriminate].
  destruct env as [e|p code [text|e]|p [u|e]]; simpl; discriminate.
Qed.

(** C5 (as the code has it). [stop] and [get_status] return in every state;
    [start] returns a boolean whenever the manager streams or holds a
    configuration, a failed launch leaving a [last_error]; but [start]
    without a configuration raises [RuntimeError], and so does [configure]
    while streaming, which otherwise stores the configuration and returns
    no result value. *)
Theorem manager_results_and_raises :
  (forall env m, exists ok, fst (stop env m) = Ret ok)
  /\ (forall poll m, Status.error (get_status poll m) = last_error m)
  /\ (forall hp env m,
        is_streaming m = true \/ rist_config m <> None ->
        exists ok, fst (start hp env m) = Ret ok)
  /\ (forall hp env m,
        is_streaming m = false -> fst (start hp env m) = Ret false ->
        last_error (snd (start hp env m)) <> None)
  /\ (forall hp env m,
        is_streaming m = false -> rist_config m = None ->
        start hp env m
        = (Raise (Exn RuntimeError "RIST not configured. Call configure() first."),
           m))
  /\ (forall m rc vc ac,
        is_streaming m = true ->
        configure m rc vc ac
        = (Raise (Exn RuntimeError "Cannot configure while streaming. Stop first."),
           m))
  /\ (forall m rc vc ac,
        is_streaming m = false ->
        configure m rc vc ac = (Ret tt, set_configs m (Some rc) vc ac)).
Proof.
  split; [exact stop_returns|].
  split; [reflexivity|].
  split; [exact start_configured_returns|].
  split; [exact start_failure_sets_last_error|].
  split.
  { intros hp env m Hs Hc. unfold start. rewrite Hs, Hc. reflexivity. }
  split; intros m rc vc ac Hs; unfold configure; rewrite Hs; reflexivity.
Qed.

Lemma manager_results_and_raises_witness :
  start all_plugins (Alive sample_process (Ret tt)) (new_manager sample_path)
  = (Raise (Exn RuntimeError "RIST not configured. Call configure() first."),
     new_manager sample_path)
  /\ (exists ok,
        fst (start all_plugins (PopenRaises (Exn OSError "No such file"))
               manager_one_link_off) = Ret ok).
Proof.
  destruct manager_results_and_raises as (_ & _ & Hret & _ & Hraise & _).
  split.
  - apply Hraise; reflexivity.
  - apply Hret. right. discriminate.
Defined.

(** C5, the claim as stated fails: [start] on a manager that was never
    configured raises, and [configure] on a streaming manager raises. *)
Lemma start_and_configure_raise :
  fst (start all_plugins (Alive sample_process (Ret tt)) (new_manager sample_path))
  = Raise (Exn RuntimeError "RIST not configured. Call configure() first.")
  /\ is_streaming manager_streaming = true
  /\ fst (configure manager_streaming (rist_config_of [link_a true]) None None)
     = Raise (Exn RuntimeError "Cannot configure while streaming. Stop first.").
Proof. repeat split. Qed.

(** ** The session manager: links of a running session *)

(** C9 (as the code has it). [start] does not look at the [enabled] flags:
    a configured manager that is not streaming and whose process survives
    the grace second becomes streaming with its configuration untouched,
    whatever the flags are. The command built for several links lists the
    enabled ones, which may be none. *)
Theorem start_ignores_enabled_flags (hp : string -> bool) (p : Popen)
  (m : RISTManager) (rc : RISTConfig.t) :
  is_streaming m = false ->
  rist_config m = Some rc ->
  start hp (Alive p (Ret tt)) m
  = (Ret true,
     set_monitor_thread
       (set_stop_monitoring (set_is_streaming (set_process m (Some p)) true) false)
       true)
  /\ is_streaming (snd (start hp (Alive p (Ret tt)) m)) = true
  /\ rist_config (snd (start hp (Alive p (Ret tt)) m)) = Some rc
  /\ (length (RISTConfig.links rc) <> 1%nat ->
        nth_error (_build_rist_pipeline rc) 1
        = Some ("address="
                ++ join "," (List.map endpoint
                               (List.filter RISTLink.enabled (RISTConfig.links rc))))%string).
Proof.
  intros Hs Hc.
  assert (Hstart : start hp (Alive p (Ret tt)) m
    = (Ret true,
       set_monitor_thread
         (set_stop_monitoring (set_is_streaming (set_process m (Some p)) true) false)
         true)).
  { unfold start. rewrite Hs, Hc.
    unfold _build_pipeline_command. rewrite Hc. reflexivity. }
  rewrite Hstart. simpl.
  repeat split; try assumption.
  intros Hlen. unfold _build_rist_pipeline, bonded_links.
  destruct (RISTConfig.links rc) as [|l [|l' ls]]; simpl in *;
    [reflexivity | congruence | reflexivity].
Qed.

Lemma start_ignores_enabled_flags_witness :
  is_streaming (snd (start all_plugins (Alive sample_process (Ret tt))
                       manager_one_link_off)) = true
  /\ rist_config (snd (start all_plugins (Alive sample_process (Ret tt))
                         manager_one_link_off))
     = Some (rist_config_of [link_a false]).
Proof.
  destruct (start_ignores_enabled_flags all_plugins sample_process
              manager_one_link_off (rist_config_of [link_a false])
              eq_refl eq_refl) as (_ & Hrun & Hcfg & _).
  split; [exact Hrun | exact Hcfg].
Defined.

(** C9, the claim as stated fails: a manager configured with a single
    link that is switched off starts and streams, and no link of its
    configuration is enabled. *)
Lemma streaming_without_enabled_link :
  fst (start all_plugins (Alive sample_process (Ret tt)) manager_one_link_off)
  = Ret true
  /\ is_streaming
       (snd (start all_plugins (Alive sample_process (Ret tt)) manager_one_link_off))
     = true
  /\ option_map (fun rc => existsb RISTLink.enabled (RISTConfig.links rc))
       (rist_config
          (snd (start all_plugins (Alive sample_process (Ret tt))
                  manager_one_link_off)))
     = Some false.
Proof. repeat split. Qed.

(** ** The session manager: exit of the process *)

Lemma monitor_iteration_frame (m : RISTManager) (o : observation) :
  let m' := fst (fst (monitor_iteration m o)) in
  is_streaming m' = is_streaming m /\ process m' = process m
  /\ rist_config m' = rist_config m /\ video_config m' = video_config m
  /\ audio_config m' = audio_config m.
Proof.
  unfold monitor_iteration.
  destruct (stop_monitoring m); [simpl; auto|].
  destruct (process m) eqn:Hp; [|simpl; auto].
  destruct o; simpl; auto.
  destruct (String.eqb (strip text) ""); [simpl; auto|].
  destruct (_parse_gst_error (strip text)); simpl; auto.
Qed.

Lemma monitor_frame (obs : list observation) : forall m : RISTManager,
  let m' := fst (_monitor_stderr m obs) in
  is_streaming m' = is_streaming m /\ process m' = process m
  /\ rist_config m' = rist_config m /\ video_config m' = video_config m
  /\ audio_config m' = audio_config m.
Proof.
  induction obs as [|o obs IH]; intros m; [simpl; auto|].
  pose proof (monitor_iteration_frame m o) as Hstep.
  cbn [_monitor_stderr].
  destruct (monitor_iteration m o) as [[m1 msg] [|]]; cbn [fst] in Hstep.
  - specialize (IH m1). destruct (_monitor_stderr m1 obs) as [m2 msgs].
    cbn [fst] in *. cbv zeta in *.
    destruct Hstep as (? & ? & ? & ? & ?), IH as (? & ? & ? & ? & ?).
    repeat split; congruence.
  - cbn [fst]. exact Hstep.
Qed.

(** The loop leaves at once when it sees that the process has exited. *)
Lemma monitor_sees_exit (m : RISTManager) (code : Z) (obs : list observation) :
  _monitor_stderr m (ObsExited code :: obs) = (m, []).
Proof.
  cbn [_monitor_stderr]. unfold monitor_iteration.
  destruct (stop_monitoring m); [reflexivity|].
  destruct (process m); reflexivity.
Qed.

(** C6 (as the code has it). The exit of the process changes no field of
    the manager. Whatever the monitor thread observes, it leaves
    [is_streaming], the process handle and the configuration as they were,
    so after the exit a status query still reports [is_streaming = true];
    only its [running] entry is false. There is no crashed phase, and
    [configure] stays refused with [RuntimeError]. *)
Theorem process_exit_keeps_streaming (m : RISTManager) (p : Popen)
  (obs : list observation) (code : Z) :
  is_streaming m = true ->
  process m = Some p ->
  let m' := fst (_monitor_stderr m obs) in
  is_streaming m' = true
  /\ process m' = Some p
  /\ rist_config m' = rist_config m
  /\ Status.is_streaming (get_status (Some code) m') = true
  /\ Status.running (get_status (Some code) m') = Some false
  /\ (forall rc vc ac, exists e, fst (configure m' rc vc ac) = Raise e).
Proof.
  intros Hs Hp m'.
  destruct (monitor_frame obs m) as (Hs' & Hp' & Hc' & _).
  fold m' in Hs', Hp', Hc'.
  rewrite Hs in Hs'. rewrite Hp in Hp'.
  repeat split; try assumption.
  - unfold get_status. simpl. rewrite Hp'. reflexivity.
  - intros rc vc ac. unfold configure. rewrite Hs'. eauto.
Qed.

Lemma process_exit_keeps_streaming_witness :
  Status.is_streaming
    (get_status (Some 1)
       (fst (_monitor_stderr manager_streaming
               [ObsLine "ERROR: Internal data flow error."; ObsExited 1])))
  = true.
Proof.
  destruct (process_exit_keeps_streaming manager_streaming sample_process
              [ObsLine "ERROR: Internal data flow error."; ObsExited 1] 1
              eq_refl eq_refl) as (_ & _ & _ & H & _).
  exact H.
Defined.

(** C6, the claim as stated fails: the process of a streaming manager
    exits with status 1, the monitor sees it and leaves, and the status
    still reports the session as streaming. *)
Lemma exited_process_still_streaming :
  Status.is_streaming
    (get_status (Some 1) (fst (_monitor_stderr manager_streaming [ObsExited 1])))
  = true
  /\ Status.running
       (get_status (Some 1) (fst (_monitor_stderr manager_streaming [ObsExited 1])))
     = Some false
  /\ fst (_monitor_stderr manager_streaming [ObsExited 1]) = manager_streaming.
Proof. repeat split. Qed.

(** ** The controller: sampling *)

(** C7. A statistics sample (a non-empty dictionary) sets the packet-loss
    percentage to [retransmitted / original * 100], computed as Python
    does (the correctly rounded quotient of the two counts, times 100),
    when [original > 0], and to [0.0] when [original = 0]. The only sample
    with [original > 0] that sets nothing is one whose quotient is too
    large for a float: the division raises and the controller is as it
    was. *)
Theorem packet_loss_percentage (stats : gmap string Z) (mgr : RISTManager)
  (c : controller) :
  stats <> ∅ ->
  let original := stats_get stats "sent_original_packets" in
  let retransmitted := stats_get stats "sent_retransmitted_packets" in
  let c' := snd (_update_rist_stats (Ret (Some stats)) mgr c) in
  (0 < original ->
   match truediv retransmitted original with
   | Ret q =>
       q = fdiv (exact retransmitted) (exact original)
       /\ current_packet_loss (state c') = fmul q (flit 100)
   | Raise _ => c' = c
   end)
  /\ (original = 0 -> current_packet_loss (state c') = S754_zero false).
Proof.
  intros Hne original retransmitted c'.
  subst c'. unfold _update_rist_stats, and_then, lift.
  rewrite bool_decide_false by exact Hne.
  fold original retransmitted.
  split.
  - intros Hpos.
    assert (Hlt : (0 <? original) = true) by (apply Z.ltb_lt; exact Hpos).
    rewrite Hlt. cbn beta iota.
    destruct (truediv retransmitted original) as [q|e] eqn:Hq; [|reflexivity].
    split.
    + unfold truediv in Hq.
      destruct (original =? 0); [discriminate|].
      destruct (fdiv (exact retransmitted) (exact original));
        congruence.
    + unfold ret, modify.
      destruct (video_config mgr); destruct (audio_config mgr); reflexivity.
  - intros H0. rewrite H0. cbn beta iota.
    unfold ret, modify.
    destruct (video_config mgr); destruct (audio_config mgr); reflexivity.
Qed.

Lemma packet_loss_percentage_witness :
  current_packet_loss
    (state (snd (_update_rist_stats (Ret (Some sample_stats))
                   manager_streaming (new_controller default_config))))
  = fmul (fdiv (exact 7) (exact 100)) (flit 100).
Proof.
  assert (Hne : sample_stats <> ∅) by (vm_compute; discriminate).
  destruct (packet_loss_percentage sample_stats manager_streaming
              (new_controller default_config) Hne) as [Hpos _].
  exact (proj2 (Hpos ltac:(vm_compute; reflexivity))).
Defined.

(** ** The controller: bitrate policy, branch by branch *)

Lemma apply_video_result (nb : Z) (push : result bool) (c : controller) :
  _apply_video_bitrate nb push c
  = (Ret tt,
     match push with
     | Ret true =>
         with_dirty
           (with_state (with_request c (PushVideoBitrate nb))
              (set_current_video_bitrate (state c) nb))
           true
     | _ => with_request c (PushVideoBitrate nb)
     end).
Proof.
  unfold _apply_video_bitrate, and_then, update, try_, lift, modify, ret.
  destruct push as [[|]|e]; reflexivity.
Qed.

Lemma bitrate_control_unset (push : result bool) (now : float) (c : controller) :
  current_video_bitrate (state c) = 0 ->
  _adaptive_bitrate_control push now c = (Ret tt, c).
Proof.
  intros Hcur. unfold _adaptive_bitrate_control, and_then, read, id.
  rewrite Hcur. reflexivity.
Qed.

Lemma bitrate_control_decrease (push : result bool) (now : float)
  (c : controller) (product : Z) :
  current_video_bitrate (state c) <> 0 ->
  should_decrease c = true ->
  immediate_decrease (config c) = true ->
  scaled (current_video_bitrate (state c))
    (fsub (flit 1) (bitrate_step_down (config c))) = Ret product ->
  _adaptive_bitrate_control push now c
  = (Ret tt,
     if decrease_target c product <? current_video_bitrate (state c)
     then let c1 := snd (_apply_video_bitrate (decrease_target c product) push c) in
          with_state c1 (note_decrease now (state c1))
     else c).
Proof.
  intros Hcur Hdec Himm Hnb.
  unfold _adaptive_bitrate_control.
  unfold and_then at 1. unfold read at 1. cbn beta iota. unfold id.
  apply Z.eqb_neq in Hcur. rewrite Hcur, Hdec, Himm. cbn [andb].
  unfold and_then at 1. unfold lift at 1. rewrite Hnb.
  unfold when, decrease_target.
  destruct (Z.max product (min_video_bitrate (config c))
            <? current_video_bitrate (state c)); [|reflexivity].
  unfold and_then. rewrite apply_video_result. reflexivity.
Qed.

Lemma bitrate_control_increase (push : result bool) (now : float)
  (c : controller) :
  current_video_bitrate (state c) <> 0 ->
  should_decrease c && immediate_decrease (config c) = false ->
  can_increase c = true ->
  _adaptive_bitrate_control push now c
  = if stable_periods_before_increase (config c) <=? stable_periods (state c) + 1
    then match scaled (current_video_bitrate (state c))
                 (fadd (flit 1) (bitrate_step_up (config c))) with
         | Raise e => (Raise e, counted c)
         | Ret product =>
             (Ret tt,
              if current_video_bitrate (state c) <? increase_target c product
              then let c1 := snd (_apply_video_bitrate (increase_target c product)
                                    push (counted c)) in
                   with_state c1 (note_increase now (state c1))
              else counted c)
         end
    else (Ret tt, counted c).
Proof.
  intros Hcur Hdec Hinc.
  unfold _adaptive_bitrate_control.
  unfold and_then at 1. unfold read at 1. cbn beta iota. unfold id.
  apply Z.eqb_neq in Hcur. rewrite Hcur, Hdec, Hinc.
  unfold and_then at 1. unfold modify at 1. cbn beta iota.
  unfold and_then at 1. unfold read at 1. cbn beta iota.
  change (stable_periods (state (with_state c
            (set_stable_periods (state c) (stable_periods (state c) + 1)))))
    with (stable_periods (state c) + 1).
  change (with_state c (set_stable_periods (state c) (stable_periods (state c) + 1)))
    with (counted c).
  unfold when, increase_target.
  destruct (stable_periods_before_increase (config c) <=? stable_periods (state c) + 1);
    [|reflexivity].
  unfold and_then at 1. unfold lift at 1.
  destruct (scaled (current_video_bitrate (state c))
              (fadd (flit 1) (bitrate_step_up (config c)))) as [product|e];
    [|reflexivity].
  destruct (current_video_bitrate (state c)
            <? Z.min product (max_video_bitrate (config c))); [|reflexivity].
  unfold and_then. rewrite apply_video_result. reflexivity.
Qed.

Lemma bitrate_control_hold (push : result bool) (now : float) (c : controller) :
  current_video_bitrate (state c) <> 0 ->
  should_decrease c && immediate_decrease (config c) = false ->
  can_increase c = false ->
  _adaptive_bitrate_control push now c
  = (Ret tt,
     if fle (packet_loss_threshold_low (config c)) (current_packet_loss (state c))
     then with_state c (set_stable_periods (state c) 0)
     else c).
Proof.
  intros Hcur Hdec Hinc.
  unfold _adaptive_bitrate_control.
  unfold and_then at 1. unfold read at 1. cbn beta iota. unfold id.
  apply Z.eqb_neq in Hcur. rewrite Hcur, Hdec, Hinc.
  unfold when.
  destruct (fle (packet_loss_threshold_low (config c))
              (current_packet_loss (state c))); reflexivity.
Qed.

(** ** The controller: the decrease branch *)

(** [int(x)] of a positive finite float [m * 2^e] is its floor. *)
Lemma int_of_float_floor (m : positive) (e : Z) :
  int_of_float (S754_finite false m e)
  = Ret (if e <? 0 then Zpos m / 2 ^ (- e) else Zpos m * 2 ^ e).
Proof.
  unfold int_of_float, cond_Zopp. f_equal.
  destruct (e <? 0) eqn:E.
  - apply Z.ltb_lt in E. apply Z.shiftl_div_pow2. lia.
  - apply Z.ltb_ge in E. apply Z.shiftl_mul_pow2. exact E.
Qed.

Lemma requests_after_apply (nb : Z) (push : result bool) (c : controller) :
  requests (snd (_apply_video_bitrate nb push c))
  = requests c ++ [PushVideoBitrate nb].
Proof. rewrite apply_video_result. destruct push as [[|]|e]; reflexivity. Qed.

Lemma decrease_branch_general (push : result bool) (now : float)
  (c : controller) (product : Z) :
  current_video_bitrate (state c) <> 0 ->
  should_decrease c = true ->
  immediate_decrease (config c) = true ->
  scaled (current_video_bitrate (state c))
    (fsub (flit 1) (bitrate_step_down (config c))) = Ret product ->
  let target := Z.max product (min_video_bitrate (config c)) in
  let c' := snd (_adaptive_bitrate_control push now c) in
  (target < current_video_bitrate (state c) ->
   requests c' = requests c ++ [PushVideoBitrate target]
   /\ (push = Ret true -> current_video_bitrate (state c') = target))
  /\ (current_video_bitrate (state c) <= target -> c' = c).
Proof.
  intros Hcur Hdec Himm Hprod target c'. subst c'.
  rewrite (bitrate_control_decrease push now c product Hcur Hdec Himm Hprod).
  unfold decrease_target. fold target. cbn [snd].
  split.
  - intros Hlt. apply Z.ltb_lt in Hlt. rewrite Hlt. cbv zeta.
    split.
    + apply requests_after_apply.
    + intros ->. rewrite apply_video_result. reflexivity.
  - intros Hge. apply Z.ltb_ge in Hge. rewrite Hge. reflexivity.
Qed.

Lemma scaled_floor (current : Z) (factor f : float) (m : positive) (e : Z) :
  float_of_int current = Ret f ->
  fmul f factor = S754_finite false m e ->
  scaled current factor
  = Ret (if e <? 0 then Zpos m / 2 ^ (- e) else Zpos m * 2 ^ e).
Proof.
  intros Hf Hm. unfold scaled. rewrite Hf. cbn [bind]. rewrite Hm.
  apply int_of_float_floor.
Qed.

(** C1 (as the code has it). With a high-loss threshold of 5.0 %, a step
    down of 0.15, a floor of 500,000 bps and immediate decrease set, a pass
    of the bitrate policy at 2,000,000 bps and 7.0 % loss asks for exactly
    1,700,000 bps, which becomes the current bitrate when the push
    succeeds. In general the decrease branch works in binary64: the bitrate
    is converted to a float [f], multiplied by the float [1 - step_down],
    and the rounded product, a positive float [m * 2^e], is cut to its
    floor; the branch raises that integer to [min_video_bitrate] if it is
    below, asks for the result only if it is strictly lower than the
    current bitrate, and changes nothing otherwise. *)
Theorem decrease_branch_value :
  (forall (push : result bool) (now : float) (c : controller),
     packet_loss_threshold_high (config c) = flit 5 ->
     bitrate_step_down (config c) = dec 15 2 ->
     min_video_bitrate (config c) = 500000 ->
     immediate_decrease (config c) = true ->
     current_video_bitrate (state c) = 2000000 ->
     current_packet_loss (state c) = flit 7 ->
     let c' := snd (_adaptive_bitrate_control push now c) in
     requests c' = requests c ++ [PushVideoBitrate 1700000]
     /\ (push = Ret true -> current_video_bitrate (state c') = 1700000))
  /\ (forall (push : result bool) (now : float) (c : controller)
             (f : float) (m : positive) (e : Z),
        current_video_bitrate (state c) <> 0 ->
        should_decrease c = true ->
        immediate_decrease (config c) = true ->
        float_of_int (current_video_bitrate (state c)) = Ret f ->
        fmul f (fsub (flit 1) (bitrate_step_down (config c)))
        = S754_finite false m e ->
        let product := if e <? 0 then Zpos m / 2 ^ (- e) else Zpos m * 2 ^ e in
        let target := Z.max product (min_video_bitrate (config c)) in
        let c' := snd (_adaptive_bitrate_control push now c) in
        (target < current_video_bitrate (state c) ->
         requests c' = requests c ++ [PushVideoBitrate target]
         /\ (push = Ret true -> current_video_bitrate (state c') = target))
        /\ (current_video_bitrate (state c) <= target -> c' = c)).
Proof.
  split.
  - intros push now c Hhigh Hstep Hmin Himm Hcur Hloss c'.
    assert (Hdec : should_decrease c = true).
    { unfold should_decrease. rewrite Hhigh, Hloss. reflexivity. }
    assert (Hprod : scaled (current_video_bitrate (state c))
                      (fsub (flit 1) (bitrate_step_down (config c))) = Ret 1700000).
    { rewrite Hcur, Hstep. vm_compute. reflexivity. }
    assert (Hne : current_video_bitrate (state c) <> 0)
      by (rewrite Hcur; discriminate).
    destruct (decrease_branch_general push now c 1700000 Hne Hdec Himm Hprod)
      as [Hlow _].
    rewrite Hmin, Hcur in Hlow.
    apply Hlow. reflexivity.
  - intros push now c f m e Hne Hdec Himm Hf Hm product target c'.
    exact (decrease_branch_general push now c product Hne Hdec Himm
             (scaled_floor _ _ f m e Hf Hm)).
Qed.

Lemma decrease_branch_value_witness :
  (requests (snd (_adaptive_bitrate_control (Ret true) (flit 1000) example_controller))
   = [PushVideoBitrate 1700000]
   /\ current_video_bitrate
        (state (snd (_adaptive_bitrate_control (Ret true) (flit 1000)
                       example_controller)))
      = 1700000)
  /\ requests (snd (_adaptive_bitrate_control (Ret true) (flit 1000) steep_controller))
     = [PushVideoBitrate
          (Z.max (8418135900159999 / 2 ^ 33) 500000)].
Proof.
  destruct decrease_branch_value as [Hexample Hgeneral].
  split.
  - destruct (Hexample (Ret true) (flit 1000) example_controller
                eq_refl eq_refl eq_refl eq_refl eq_refl eq_refl) as [Hreq Hcur].
    split; [exact Hreq | exact (Hcur eq_refl)].
  - pose proof (Hgeneral (Ret true) (flit 1000) steep_controller
                  (S754_finite false 6012954214400000 (-32))
                  8418135900159999%positive (-33)
                  ltac:(discriminate) eq_refl eq_refl eq_refl eq_refl) as H.
    cbv zeta in H. destruct H as [Hlow _].
    exact (proj1 (Hlow ltac:(vm_compute; reflexivity))).
Defined.

(** C1, the claim as stated fails: the branch does not compute the floor of
    the exact product. With a step down of 0.3 at 1,400,000 bps the exact
    product is 980,000, and the pass asks for 979,999 bps: the float
    [1 - 0.3] is below 0.7 and the rounded product is below 980,000. *)
Lemma decrease_below_exact_floor :
  bitrate_step_down (config steep_controller) = dec 3 1
  /\ current_video_bitrate (state steep_controller) = 1400000
  /\ 1400000 * (10 - 3) / 10 = 980000
  /\ requests (snd (_adaptive_bitrate_control (Ret true) (flit 1000)
                      steep_controller))
     = [PushVideoBitrate 979999]
  /\ current_video_bitrate
       (state (snd (_adaptive_bitrate_control (Ret true) (flit 1000)
                      steep_controller)))
     = 979999.
Proof. repeat split. Qed.

(** ** The controller: a push that fails *)

Lemma failed_push_apply (nb : Z) (push : result bool) (c : controller) :
  push <> Ret true ->
  snd (_apply_video_bitrate nb push c) = with_request c (PushVideoBitrate nb).
Proof.
  intros Hfail. rewrite apply_video_result.
  destruct push as [[|]|e]; [congruence | reflexivity | reflexivity].
Qed.

(** C4 (as the code has it). When the push of a new bitrate is refused or
    raises, the apply step itself changes nothing of the controller but the
    history of requests: the current bitrate keeps its value and the
    configuration is not marked dirty. The policy branch that asked for the
    push then runs its bookkeeping all the same: [stable_periods] is set to
    0, the counter of the branch ([total_bitrate_decreases] or
    [total_bitrate_increases]) grows by one and [last_adjustment_time] is
    set to the clock. No other field of the state changes. *)
Theorem failed_push_still_counted :
  (forall (nb : Z) (push : result bool) (c : controller),
     push <> Ret true ->
     snd (_apply_video_bitrate nb push c) = with_request c (PushVideoBitrate nb))
  /\ (forall (push : result bool) (now : float) (c : controller) (product : Z),
        push <> Ret true ->
        current_video_bitrate (state c) <> 0 ->
        should_decrease c = true ->
        immediate_decrease (config c) = true ->
        scaled (current_video_bitrate (state c))
          (fsub (flit 1) (bitrate_step_down (config c))) = Ret product ->
        Z.max product (min_video_bitrate (config c)) < current_video_bitrate (state c) ->
        let c' := snd (_adaptive_bitrate_control push now c) in
        state c' = note_decrease now (state c)
        /\ _config_dirty c' = _config_dirty c)
  /\ (forall (push : result bool) (now : float) (c : controller) (product : Z),
        push <> Ret true ->
        current_video_bitrate (state c) <> 0 ->
        should_decrease c && immediate_decrease (config c) = false ->
        can_increase c = true ->
        stable_periods_before_increase (config c) <= stable_periods (state c) + 1 ->
        scaled (current_video_bitrate (state c))
          (fadd (flit 1) (bitrate_step_up (config c))) = Ret product ->
        current_video_bitrate (state c) < Z.min product (max_video_bitrate (config c)) ->
        let c' := snd (_adaptive_bitrate_control push now c) in
        state c' = note_increase now (state c)
        /\ _config_dirty c' = _config_dirty c).
Proof.
  split; [exact failed_push_apply|]. split.
  - intros push now c product Hfail Hcur Hdec Himm Hprod Hlt c'. subst c'.
    rewrite (bitrate_control_decrease push now c product Hcur Hdec Himm Hprod).
    unfold decrease_target. apply Z.ltb_lt in Hlt. rewrite Hlt.
    cbn [snd]. cbv zeta. rewrite (failed_push_apply _ push c Hfail).
    split; reflexivity.
  - intros push now c product Hfail Hcur Hdec Hinc Hn Hprod Hlt c'. subst c'.
    rewrite (bitrate_control_increase push now c Hcur Hdec Hinc).
    apply Z.leb_le in Hn. rewrite Hn, Hprod.
    unfold increase_target. apply Z.ltb_lt in Hlt. rewrite Hlt.
    cbn [snd]. cbv zeta. rewrite (failed_push_apply _ push (counted c) Hfail).
    split; reflexivity.
Qed.

Lemma failed_push_still_counted_witness :
  state (snd (_adaptive_bitrate_control push_against_sources (flit 1000)
                example_controller))
  = note_decrease (flit 1000) (state example_controller).
Proof.
  destruct failed_push_still_counted as (_ & Hdown & _).
  pose proof (Hdown push_against_sources (flit 1000) example_controller 1700000
                ltac:(discriminate) ltac:(discriminate)
                eq_refl eq_refl eq_refl eq_refl) as H.
  exact (proj1 H).
Defined.

(** C4, the claim as stated fails: the push raises, and after the pass the
    counter of decreases and the time of the last adjustment differ from
    what they were, while the bitrate is the one before. *)
Lemma failed_push_changes_counters :
  total_bitrate_decreases (state example_controller) = 0
  /\ total_bitrate_decreases
       (state (snd (_adaptive_bitrate_control push_against_sources (flit 1000)
                      example_controller))) = 1
  /\ last_adjustment_time (state example_controller) = S754_zero false
  /\ last_adjustment_time
       (state (snd (_adaptive_bitrate_control push_against_sources (flit 1000)
                      example_controller))) = flit 1000
  /\ current_video_bitrate
       (state (snd (_adaptive_bitrate_control push_against_sources (flit 1000)
                      example_controller))) = 2000000.
Proof. repeat split. Qed.

(** ** The controller: what the other steps of a pass leave alone *)

Lemma keeps_policy_refl (c : controller) : keeps_policy c c.
Proof. repeat split. Qed.

Lemma keeps_policy_trans (a b c : controller) :
  keeps_policy a b -> keeps_policy b c -> keeps_policy a c.
Proof.
  intros (? & ? & ?) (? & ? & ?). repeat split; congruence.
Qed.

Lemma keeps_policy_state (c : controller) (s : AdaptiveState) :
  stable_periods s = stable_periods (state c) ->
  keeps_policy c (with_state c s).
Proof. intros H. repeat split. exact H. Qed.

Lemma update_rist_stats_keeps (get : result (option (gmap string Z)))
  (mgr : RISTManager) (c : controller) :
  keeps_policy c (snd (_update_rist_stats get mgr c)).
Proof.
  unfold _update_rist_stats, and_then, lift.
  destruct get as [[stats|]|e]; try apply keeps_policy_refl.
  destruct (bool_decide (stats = ∅)); [apply keeps_policy_refl|].
  destruct (0 <? stats_get stats "sent_original_packets").
  - destruct (truediv _ _); [|apply keeps_policy_refl].
    unfold ret, modify.
    destruct (video_config mgr); destruct (audio_config mgr); repeat split.
  - unfold ret, modify.
    destruct (video_config mgr); destruct (audio_config mgr); repeat split.
Qed.

Lemma update_modem_stats_keeps (answer : snapshot) (c : controller) :
  keeps_policy c (snd (_update_modem_stats answer c)).
Proof.
  unfold _update_modem_stats, and_then, read, when, modify, ret. cbn beta iota.
  repeat match goal with |- context [set_differs ?a ?b] =>
    destruct (set_differs a b); cbn beta iota zeta end;
    repeat split.
Qed.

Lemma take_samples_keeps (env : tick_env) (c : controller) :
  keeps_policy c (sampled env c).
Proof.
  unfold sampled, take_samples, and_then.
  pose proof (update_rist_stats_keeps (get_stats env) (manager env) c) as H1.
  destruct (_update_rist_stats (get_stats env) (manager env) c) as [[u|e] c1];
    cbn [snd] in *; [|exact H1].
  destruct (modem_monitor env) as [answers|]; [|exact H1].
  eapply keeps_policy_trans; [exact H1|]. apply update_modem_stats_keeps.
Qed.

Lemma judge_modem_periods (cfg : AdaptiveConfig) (link : RISTLink.t)
  (answer : snapshot) : forall acc : bool * bool * AdaptiveState,
  stable_periods (snd (fold_left (judge_modem cfg link) answer acc))
  = stable_periods (snd acc).
Proof.
  induction answer as [|entry answer IH]; intros acc; [reflexivity|].
  cbn [fold_left]. rewrite IH.
  destruct acc as [[should needs] s]. unfold judge_modem.
  destruct (signal_strength (snd entry) <? link_disable_signal_threshold cfg).
  - destruct (RISTLink.enabled link); reflexivity.
  - destruct (link_enable_signal_threshold cfg <=? signal_strength (snd entry));
      [|reflexivity].
    destruct (negb (RISTLink.enabled link)); reflexivity.
Qed.

Lemma judge_link_periods (cfg : AdaptiveConfig) (monitor : option (nat -> snapshot))
  (links : list RISTLink.t) : forall acc : nat * bool * list RISTLink.t * AdaptiveState,
  stable_periods (snd (fold_left (judge_link cfg monitor) links acc))
  = stable_periods (snd acc).
Proof.
  induction links as [|link links IH]; intros acc; [reflexivity|].
  cbn [fold_left]. rewrite IH.
  destruct acc as [[[i needs] new_links] s]. unfold judge_link.
  destruct monitor as [answers|]; [|reflexivity].
  pose proof (judge_modem_periods cfg link (answers i) (true, needs, s)) as H.
  destruct (fold_left (judge_modem cfg link) (answers i) (true, needs, s))
    as [[should needs'] s'].
  exact H.
Qed.

Lemma video_requests_links (c : controller) (new_links : list RISTLink.t) :
  video_requests (with_request c (PushLinks new_links)) = video_requests c.
Proof.
  unfold video_requests, with_request. cbn [requests].
  rewrite omap_app. cbn. apply app_nil_r.
Qed.

Lemma link_control_keeps (mgr : RISTManager) (monitor : option (nat -> snapshot))
  (push : result bool) (c : controller) :
  keeps_policy c (snd (_adaptive_link_control mgr monitor push c))
  /\ fst (_adaptive_link_control mgr monitor push c) = Ret tt.
Proof.
  unfold _adaptive_link_control.
  destruct (rist_config mgr) as [rc|]; [|split; [apply keeps_policy_refl | reflexivity]].
  unfold and_then, read, id. cbn beta iota.
  pose proof (judge_link_periods (config c) monitor (RISTConfig.links rc)
                (O, false, [], state c)) as H.
  destruct (fold_left (judge_link (config c) monitor) (RISTConfig.links rc)
              (O, false, [], state c)) as [[[i needs] new_links] s].
  cbn [snd] in H. unfold modify, when. cbn beta iota.
  destruct needs; [|split; [apply keeps_policy_state; exact H | reflexivity]].
  unfold _apply_link_config, and_then, update, try_, lift, ret.
  destruct push as [[|]|e]; cbn beta iota;
    (split; [|reflexivity]);
    (eapply keeps_policy_trans; [apply keeps_policy_state; exact H|]);
    (split; [reflexivity | split; [reflexivity | apply video_requests_links]]).
Qed.

Lemma save_config_keeps (mgr : RISTManager) (d : store) (c : controller) :
  keeps_policy c (snd (_save_config mgr d c)).
Proof.
  unfold _save_config.
  destruct (stored d) as [loaded|]; [|apply keeps_policy_refl].
  destruct (bind loaded (updated_document mgr)); [|apply keeps_policy_refl].
  destruct (open_for_writing d); [|apply keeps_policy_refl].
  destruct (dump d); [repeat split | apply keeps_policy_refl].
Qed.

Lemma save_if_due_keeps (env : tick_env) (c : controller) :
  keeps_policy c (snd (save_if_due env c)).
Proof.
  unfold save_if_due.
  destruct (_config_dirty c && save_due c (current_time env));
    [|apply keeps_policy_refl].
  pose proof (save_config_keeps (manager_saved env) (disk env) c) as H.
  destruct (_save_config (manager_saved env) (disk env) c) as [w c'].
  exact H.
Qed.

Lemma notify_keeps (env : tick_env) (c : controller) :
  snd (notify env c) = c.
Proof. unfold notify, lift, ret. destruct (state_callback env); reflexivity. Qed.

(** ** The controller: stability gating *)

Lemma tick_keeps_after_policy (env : tick_env) (c : controller) :
  counts_as_stable env c ->
  keeps_policy
    (snd (_adaptive_bitrate_control (push_video env) (now env) (sampled env c)))
    (control_tick env c).
Proof.
  intros (Hret & Hen & _).
  pose proof (take_samples_keeps env c) as (Hcfg & _).
  unfold control_tick, loop_body, sampled in *.
  unfold and_then at 1.
  destruct (take_samples env c) as [r c1]. cbn [fst snd] in *. subst r.
  unfold and_then at 1. unfold make_decisions at 1.
  unfold and_then at 1. unfold read at 1. cbn beta iota.
  rewrite Hcfg, Hen. unfold when at 1.
  unfold and_then at 1.
  destruct (_adaptive_bitrate_control (push_video env) (now env) c1)
    as [[u|e] c2]; cbn [snd]; [|apply keeps_policy_refl].
  set (links_step := when _ _).
  assert (Hl : keeps_policy c2 (snd (links_step c2)) /\ fst (links_step c2) = Ret tt).
  { subst links_step. unfold when.
    destruct (adaptive_links_enabled (config c) && _);
      [apply link_control_keeps | split; [apply keeps_policy_refl | reflexivity]]. }
  destruct (links_step c2) as [r3 c3]. cbn [fst snd] in Hl.
  destruct Hl as [Hl ->].
  unfold and_then at 1.
  pose proof (save_if_due_keeps env c3) as Hs.
  assert (Hsr : exists w, fst (save_if_due env c3) = Ret w).
  { unfold save_if_due.
    destruct (_config_dirty c3 && save_due c3 (current_time env)); [|eauto].
    destruct (_save_config (manager_saved env) (disk env) c3); eauto. }
  destruct (save_if_due env c3) as [r4 c4]. cbn [fst snd] in *.
  destruct Hsr as [w ->].
  unfold and_then at 1.
  pose proof (notify_keeps env c4) as Hn.
  destruct (notify env c4) as [[u'|e'] c5]; cbn [snd] in *; subst c5;
    (eapply keeps_policy_trans; [exact Hl | exact Hs]).
Qed.

(** A pass that counts and leaves the counter below the bound asks for no
    bitrate and advances the counter by one. *)
Lemma stable_tick_below (env : tick_env) (c : controller) :
  counts_as_stable env c ->
  stable_periods (state c) + 1 < stable_periods_before_increase (config c) ->
  config (control_tick env c) = config c
  /\ video_requests (control_tick env c) = video_requests c
  /\ stable_periods (state (control_tick env c)) = stable_periods (state c) + 1.
Proof.
  intros Hcount Hlt.
  pose proof (tick_keeps_after_policy env c Hcount) as (Hc & Hp & Hr).
  destruct Hcount as (_ & _ & Hcur & Hdec & Hinc).
  pose proof (take_samples_keeps env c) as (Hcfg & Hper & Hreq).
  rewrite <- Hcfg in Hdec.
  rewrite (bitrate_control_increase _ _ _ Hcur Hdec Hinc) in Hc, Hp, Hr.
  rewrite Hcfg, Hper in Hc, Hp, Hr.
  assert (Hn : (stable_periods_before_increase (config c)
                <=? stable_periods (state c) + 1) = false)
    by (apply Z.leb_gt; exact Hlt).
  rewrite Hn in Hc, Hp, Hr. cbn [snd] in Hc, Hp, Hr.
  rewrite Hc, Hp, Hr. cbn. rewrite Hper. repeat split; assumption.
Qed.

(** A pass that counts and brings the counter to the bound asks for the
    raised bitrate if it is higher, and then clears the counter. *)
Lemma stable_tick_reaching (env : tick_env) (c : controller) (product : Z) :
  counts_as_stable env c ->
  stable_periods_before_increase (config c) <= stable_periods (state c) + 1 ->
  scaled (current_video_bitrate (state (sampled env c)))
    (fadd (flit 1) (bitrate_step_up (config c))) = Ret product ->
  let current := current_video_bitrate (state (sampled env c)) in
  let target := Z.min product (max_video_bitrate (config c)) in
  (current < target ->
   video_requests (control_tick env c) = video_requests c ++ [target]
   /\ stable_periods (state (control_tick env c)) = 0)
  /\ (target <= current ->
      video_requests (control_tick env c) = video_requests c
      /\ stable_periods (state (control_tick env c)) = stable_periods (state c) + 1).
Proof.
  intros Hcount Hn Hprod current target.
  pose proof (tick_keeps_after_policy env c Hcount) as (Hc & Hp & Hr).
  destruct Hcount as (_ & _ & Hcur & Hdec & Hinc).
  pose proof (take_samples_keeps env c) as (Hcfg & Hper & Hreq).
  rewrite <- Hcfg in Hdec.
  rewrite (bitrate_control_increase _ _ _ Hcur Hdec Hinc) in Hp, Hr.
  rewrite Hcfg, Hper in Hp, Hr.
  apply Z.leb_le in Hn. rewrite Hn, Hprod in Hp, Hr.
  unfold increase_target in Hp, Hr. rewrite Hcfg in Hp, Hr.
  fold current target in Hp, Hr. cbn [snd] in Hp, Hr.
  split; intros Hcmp.
  - apply Z.ltb_lt in Hcmp. rewrite Hcmp in Hp, Hr. cbv zeta in Hp, Hr.
    rewrite Hp, Hr. split; [|reflexivity].
    unfold video_requests at 1. cbn [requests with_state].
    rewrite requests_after_apply. cbn [requests counted with_state].
    rewrite omap_app. cbn. fold (video_requests (sampled env c)).
    rewrite Hreq. reflexivity.
  - apply Z.ltb_ge in Hcmp. rewrite Hcmp in Hp, Hr.
    rewrite Hp, Hr. cbn. rewrite Hper. split; [exact Hreq | reflexivity].
Qed.

Lemma stable_run_below (envs : list tick_env) : forall c : controller,
  stable_run envs c ->
  stable_periods (state c) + Z.of_nat (length envs)
  < stable_periods_before_increase (config c) ->
  config (control_loop envs c) = config c
  /\ video_requests (control_loop envs c) = video_requests c
  /\ stable_periods (state (control_loop envs c))
     = stable_periods (state c) + Z.of_nat (length envs).
Proof.
  induction envs as [|env envs IH]; intros c Hrun Hlt.
  - cbn. repeat split. lia.
  - destruct Hrun as [Hcount Hrun].
    cbn [length] in Hlt. rewrite Nat2Z.inj_succ in Hlt.
    destruct (stable_tick_below env c Hcount ltac:(lia)) as (Hc & Hr & Hp).
    unfold control_loop. cbn [fold_left].
    fold (control_loop envs (control_tick env c)).
    destruct (IH (control_tick env c) Hrun) as (Hc' & Hr' & Hp').
    { rewrite Hc, Hp. lia. }
    rewrite Hc', Hr', Hp', Hc, Hr, Hp.
    cbn [length]. rewrite Nat2Z.inj_succ. repeat split. lia.
Qed.

(** A pass whose statistics cannot be taken ends there: the exception is
    caught by the loop and the controller is as before. This is every pass
    against the [RISTManager] of the sources, which has no [get_stats]. *)
Lemma pass_without_statistics (env : tick_env) (c : controller) (e : exn) :
  get_stats env = Raise e -> control_tick env c = c.
Proof.
  intros H. unfold control_tick, loop_body, take_samples, _update_rist_stats.
  rewrite H. reflexivity.
Qed.

Lemma control_loop_app (a b : list tick_env) (c : controller) :
  control_loop (a ++ b) c = control_loop b (control_loop a c).
Proof. unfold control_loop. apply fold_left_app. Qed.

Lemma stable_run_app (a b : list tick_env) : forall c : controller,
  stable_run (a ++ b) c <-> stable_run a c /\ stable_run b (control_loop a c).
Proof.
  induction a as [|env a IH]; intros c; cbn [app stable_run].
  - unfold control_loop. cbn. tauto.
  - rewrite IH. unfold control_loop. cbn [fold_left]. tauto.
Qed.

(** C2 (as the code has it). A pass counts towards stability when the
    bitrate policy runs on a non-zero bitrate, does not take the decrease
    branch and finds the loss below the low threshold and the bitrate below
    the maximum. Each such pass advances the stability counter by one, and
    as long as the counter stays below [stable_periods_before_increase] no
    bitrate is asked for. The pass that brings the counter to the bound,
    which is the N-th pass of a run that starts with the counter at 0, asks
    for [min(int(current * (1 + bitrate_step_up)), max_video_bitrate)] if
    that is strictly higher than the current bitrate, and then sets the
    counter to 0; otherwise it asks for nothing and the counter stays. *)
Theorem stability_gating :
  (forall (envs : list tick_env) (c : controller),
     stable_run envs c ->
     stable_periods (state c) + Z.of_nat (length envs)
     < stable_periods_before_increase (config c) ->
     video_requests (control_loop envs c) = video_requests c
     /\ stable_periods (state (control_loop envs c))
        = stable_periods (state c) + Z.of_nat (length envs))
  /\ (forall (env : tick_env) (c : controller) (product : Z),
        counts_as_stable env c ->
        stable_periods_before_increase (config c) <= stable_periods (state c) + 1 ->
        scaled (current_video_bitrate (state (sampled env c)))
          (fadd (flit 1) (bitrate_step_up (config c))) = Ret product ->
        let current := current_video_bitrate (state (sampled env c)) in
        let target := Z.min product (max_video_bitrate (config c)) in
        (current < target ->
         video_requests (control_tick env c) = video_requests c ++ [target]
         /\ stable_periods (state (control_tick env c)) = 0)
        /\ (target <= current ->
            video_requests (control_tick env c) = video_requests c
            /\ stable_periods (state (control_tick env c))
               = stable_periods (state c) + 1))
  /\ (forall (envs : list tick_env) (env : tick_env) (c : controller) (product : Z),
        stable_periods (state c) = 0 ->
        Z.of_nat (length envs) + 1 = stable_periods_before_increase (config c) ->
        stable_run (envs ++ [env]) c ->
        let before := control_loop envs c in
        let current := current_video_bitrate (state (sampled env before)) in
        let target := Z.min product (max_video_bitrate (config c)) in
        scaled current (fadd (flit 1) (bitrate_step_up (config c))) = Ret product ->
        current < target ->
        video_requests before = video_requests c
        /\ video_requests (control_loop (envs ++ [env]) c)
           = video_requests c ++ [target]
        /\ stable_periods (state (control_loop (envs ++ [env]) c)) = 0).
Proof.
  split; [|split].
  - intros envs c Hrun Hlt.
    destruct (stable_run_below envs c Hrun Hlt) as (_ & Hr & Hp). auto.
  - exact stable_tick_reaching.
  - intros envs env c product H0 Hlen Hrun before current target Hprod Hcmp.
    apply stable_run_app in Hrun as [Hrun [Hcount _]].
    destruct (stable_run_below envs c Hrun ltac:(lia)) as (Hc & Hr & Hp).
    fold before in Hc, Hr, Hp, Hcount.
    rewrite control_loop_app. fold before.
    change (control_loop [env] before) with (control_tick env before).
    subst current target. rewrite <- Hc in Hprod, Hcmp |- *.
    destruct (stable_tick_reaching env before product Hcount) as [Hup _];
      [rewrite Hc, Hp; lia | exact Hprod |].
    destruct (Hup Hcmp) as [Hreq Hzero].
    rewrite Hreq, Hr. auto.
Qed.

Lemma stability_gating_witness :
  video_requests
    (control_loop (List.repeat (pass 2000000 1000 0) 4)
       (new_controller default_config)) = []
  /\ video_requests
       (control_loop (List.repeat (pass 2000000 1000 0) 4 ++ [pass 2000000 1000 0])
          (new_controller default_config)) = [2200000]
  /\ stable_periods
       (state (control_loop
                 (List.repeat (pass 2000000 1000 0) 4 ++ [pass 2000000 1000 0])
                 (new_controller default_config))) = 0.
Proof.
  destruct stability_gating as (_ & _ & Hnth).
  apply (Hnth (List.repeat (pass 2000000 1000 0) 4) (pass 2000000 1000 0)
           (new_controller default_config) 2200000).
  - reflexivity.
  - reflexivity.
  - vm_compute. repeat split; discriminate.
  - vm_compute. reflexivity.
  - vm_compute. reflexivity.
Defined.

(** C2, the claim as stated fails. With the high-loss threshold at 0.5 %
    and the low-loss threshold at 1.0 %, five consecutive passes sample a
    loss of 0.7 % at 2,000,000 bps, below the low threshold and below the
    maximum bitrate in each pass. The fifth pass
    ([stable_periods_before_increase] is 5) asks for a lower bitrate, as
    every pass before it did, and no increase is asked for. *)
Lemma stable_looking_run_decreases :
  Forall (fun k =>
            can_increase
              (sampled (pass 2000000 1000 7)
                 (control_loop (List.repeat (pass 2000000 1000 7) k)
                    (new_controller overlapping_config))) = true)
    [0; 1; 2; 3; 4]%nat
  /\ stable_periods_before_increase overlapping_config = 5
  /\ video_requests
       (control_loop (List.repeat (pass 2000000 1000 7) 5)
          (new_controller overlapping_config))
     = [1700000; 1700000; 1700000; 1700000; 1700000].
Proof.
  split; [|split]; [| reflexivity | vm_compute; reflexivity].
  repeat constructor; vm_compute; reflexivity.
Qed.

(** The counter is not cleared by a pass that meets high loss at the
    floor bitrate: after four passes without loss at 500,000 bps, a pass
    with 7 % loss asks for nothing, and the very next pass without loss
    asks for an increase. *)
Example increase_one_pass_after_loss_at_floor :
  video_requests
    (control_loop (List.repeat (pass 500000 1000 0) 4 ++ [pass 500000 100 7])
       (new_controller default_config)) = []
  /\ stable_periods
       (state (control_loop
                 (List.repeat (pass 500000 1000 0) 4 ++ [pass 500000 100 7])
                 (new_controller default_config))) = 4
  /\ video_requests
       (control_loop
          (List.repeat (pass 500000 1000 0) 4
             ++ [pass 500000 100 7; pass 500000 1000 0])
          (new_controller default_config)) = [550000].
Proof. vm_compute. repeat split. Qed.

(** ** The controller: link policy *)

Lemma judge_modem_in_band (cfg : AdaptiveConfig) (link : RISTLink.t)
  (answer : snapshot) : forall acc : bool * bool * AdaptiveState,
  (forall id status, In (id, status) answer -> in_dead_band cfg status) ->
  fold_left (judge_modem cfg link) answer acc = acc.
Proof.
  induction answer as [|[id status] answer IH]; intros acc Hband; [reflexivity|].
  cbn [fold_left].
  assert (Hstep : judge_modem cfg link acc (id, status) = acc).
  { destruct (Hband id status (or_introl eq_refl)) as [Hlo Hhi].
    destruct acc as [[should needs] s]. unfold judge_modem. cbn [snd].
    apply Z.ltb_ge in Hlo. rewrite Hlo.
    apply Z.leb_gt in Hhi. rewrite Hhi. reflexivity. }
  rewrite Hstep. apply IH.
  intros id' status' Hin. apply (Hband id' status'). right. exact Hin.
Qed.

Lemma judge_link_in_band (cfg : AdaptiveConfig) (answers : nat -> snapshot)
  (links : list RISTLink.t) :
  (forall i id status, In (id, status) (answers i) -> in_dead_band cfg status) ->
  forall (i : nat) (needs : bool) (new_links : list RISTLink.t) (s : AdaptiveState),
  snd (fold_left (judge_link cfg (Some answers)) links (i, needs, new_links, s)) = s
  /\ snd (fst (fst (fold_left (judge_link cfg (Some answers)) links
                      (i, needs, new_links, s)))) = needs.
Proof.
  intros Hband.
  induction links as [|link links IH]; intros i needs new_links s; [split; reflexivity|].
  cbn [fold_left]. unfold judge_link at 2 4.
  rewrite (judge_modem_in_band cfg link (answers i) (true, needs, s) (Hband i)).
  apply IH.
Qed.

Lemma judge_link_no_monitor (cfg : AdaptiveConfig) (links : list RISTLink.t) :
  forall (i : nat) (needs : bool) (new_links : list RISTLink.t) (s : AdaptiveState),
  snd (fold_left (judge_link cfg None) links (i, needs, new_links, s)) = s
  /\ snd (fst (fst (fold_left (judge_link cfg None) links
                      (i, needs, new_links, s)))) = needs.
Proof.
  induction links as [|link links IH]; intros i needs new_links s; [split; reflexivity|].
  cbn [fold_left]. unfold judge_link at 2 4. apply IH.
Qed.

Lemma with_state_same (c : controller) : with_state c (state c) = c.
Proof. destruct c; reflexivity. Qed.

Lemma link_control_in_band (mgr : RISTManager) (monitor : option (nat -> snapshot))
  (push : result bool) (c : controller) :
  (forall answers i id status,
     monitor = Some answers -> In (id, status) (answers i) ->
     in_dead_band (config c) status) ->
  _adaptive_link_control mgr monitor push c = (Ret tt, c).
Proof.
  intros Hband. unfold _adaptive_link_control.
  destruct (rist_config mgr) as [rc|]; [|reflexivity].
  unfold and_then, read, id. cbn beta iota.
  assert (H : snd (fold_left (judge_link (config c) monitor) (RISTConfig.links rc)
                     (O, false, [], state c)) = state c
              /\ snd (fst (fst (fold_left (judge_link (config c) monitor)
                                  (RISTConfig.links rc) (O, false, [], state c))))
                 = false).
  { destruct monitor as [answers|].
    - apply judge_link_in_band. intros i id status. apply (Hband answers i id status eq_refl).
    - apply judge_link_no_monitor. }
  destruct (fold_left (judge_link (config c) monitor) (RISTConfig.links rc)
              (O, false, [], state c)) as [[[i needs] new_links] s].
  cbn [fst snd] in H. destruct H as [-> ->].
  unfold modify, when. cbn beta iota. rewrite with_state_same. reflexivity.
Qed.

Lemma judge_modem_decided (cfg : AdaptiveConfig) (link : RISTLink.t)
  (answer : snapshot) : forall (should needs : bool) (s : AdaptiveState),
  fst (fst (fold_left (judge_modem cfg link) answer (should, needs, s)))
  = fold_left
      (fun should entry =>
         if signal_strength (snd entry) <? link_disable_signal_threshold cfg
         then false
         else if link_enable_signal_threshold cfg <=? signal_strength (snd entry)
              then true
              else should)
      answer should.
Proof.
  induction answer as [|entry answer IH]; intros should needs s; [reflexivity|].
  cbn [fold_left]. unfold judge_modem at 2.
  destruct (signal_strength (snd entry) <? link_disable_signal_threshold cfg).
  - destruct (RISTLink.enabled link); apply IH.
  - destruct (link_enable_signal_threshold cfg <=? signal_strength (snd entry));
      [|apply IH].
    destruct (negb (RISTLink.enabled link)); apply IH.
Qed.

Lemma judge_link_rebuilds (cfg : AdaptiveConfig) (answers : nat -> snapshot)
  (links : list RISTLink.t) :
  forall (i : nat) (needs : bool) (acc : list RISTLink.t) (s : AdaptiveState),
  snd (fst (fold_left (judge_link cfg (Some answers)) links (i, needs, acc, s)))
  = acc ++ rebuilt_links cfg (fun j => answers (i + j)%nat) links.
Proof.
  induction links as [|link links IH]; intros i needs acc s.
  - cbn. symmetry. apply app_nil_r.
  - cbn [fold_left]. unfold judge_link at 2.
    pose proof (judge_modem_decided cfg link (answers i) true needs s) as Hd.
    destruct (fold_left (judge_modem cfg link) (answers i) (true, needs, s))
      as [[should needs'] s'].
    cbn [fst] in Hd. rewrite IH. rewrite <- app_assoc. f_equal.
    unfold rebuilt_links. cbn [imap app]. f_equal.
    + unfold decided. rewrite Nat.add_0_r. rewrite Hd. reflexivity.
    + apply imap_ext. intros j link' _. cbn.
      replace (i + S j)%nat with (S i + j)%nat by lia. reflexivity.
Qed.

Lemma link_control_requests (mgr : RISTManager) (answers : nat -> snapshot)
  (push : result bool) (c : controller) (rc : RISTConfig.t) :
  rist_config mgr = Some rc ->
  requests (snd (_adaptive_link_control mgr (Some answers) push c)) = requests c
  \/ requests (snd (_adaptive_link_control mgr (Some answers) push c))
     = requests c ++ [PushLinks (rebuilt_links (config c) answers (RISTConfig.links rc))].
Proof.
  intros Hrc. unfold _adaptive_link_control. rewrite Hrc.
  unfold and_then, read, id. cbn beta iota.
  pose proof (judge_link_rebuilds (config c) answers (RISTConfig.links rc)
                O false [] (state c)) as Hl.
  destruct (fold_left (judge_link (config c) (Some answers)) (RISTConfig.links rc)
              (O, false, [], state c)) as [[[i needs] new_links] s].
  cbn [fst snd app] in Hl. subst new_links.
  unfold modify, when. cbn beta iota.
  destruct needs; [right | left; reflexivity].
  unfold _apply_link_config, and_then, update, try_, lift, ret.
  destruct push as [[|]|e]; reflexivity.
Qed.

Lemma decided_off (cfg : AdaptiveConfig) (answer : snapshot) :
  decided cfg answer = false ->
  exists id status,
    In (id, status) answer
    /\ signal_strength status < link_disable_signal_threshold cfg.
Proof.
  unfold decided.
  assert (H : forall should,
    fold_left
      (fun should entry =>
         if signal_strength (snd entry) <? link_disable_signal_threshold cfg
         then false
         else if link_enable_signal_threshold cfg <=? signal_strength (snd entry)
              then true
              else should)
      answer should = false ->
    should = false
    \/ exists id status,
         In (id, status) answer
         /\ signal_strength status < link_disable_signal_threshold cfg).
  { induction answer as [|[id status] answer IH]; intros should Hf; [left; exact Hf|].
    cbn [fold_left snd] in Hf. apply IH in Hf as [Hf|(id' & status' & Hin & Hlow)].
    - destruct (signal_strength status <? link_disable_signal_threshold cfg) eqn:E.
      + right. exists id, status. split; [left; reflexivity | apply Z.ltb_lt; exact E].
      + destruct (link_enable_signal_threshold cfg <=? signal_strength status);
          [discriminate | left; exact Hf].
    - right. exists id', status'. split; [right; exact Hin | exact Hlow]. }
  intros Hf. apply H in Hf as [Hf|Hf]; [discriminate | exact Hf].
Qed.

(** C3 (as the code has it). In a pass in which every reading of the
    monitor lies in the dead band (at or above the disable threshold and
    below the enable threshold, so in particular strictly between the two),
    the link policy changes nothing: no link reconfiguration is asked for
    and the controller is as before. Readings are not matched to links:
    when the policy does ask for a reconfiguration, each link gets the flag
    decided by the whole answer of the monitor, and a link is switched off
    only if some modem reads below the disable threshold. *)
Theorem dead_band_keeps_links :
  (forall (mgr : RISTManager) (monitor : option (nat -> snapshot))
          (push : result bool) (c : controller),
     (forall answers i id status,
        monitor = Some answers -> In (id, status) (answers i) ->
        in_dead_band (config c) status) ->
     _adaptive_link_control mgr monitor push c = (Ret tt, c))
  /\ (forall (mgr : RISTManager) (answers : nat -> snapshot) (push : result bool)
             (c : controller) (rc : RISTConfig.t),
        rist_config mgr = Some rc ->
        requests (snd (_adaptive_link_control mgr (Some answers) push c)) = requests c
        \/ requests (snd (_adaptive_link_control mgr (Some answers) push c))
           = requests c
             ++ [PushLinks (rebuilt_links (config c) answers (RISTConfig.links rc))])
  /\ (forall (cfg : AdaptiveConfig) (answer : snapshot),
        decided cfg answer = false ->
        exists id status,
          In (id, status) answer
          /\ signal_strength status < link_disable_signal_threshold cfg).
Proof.
  split; [exact link_control_in_band|].
  split; [exact link_control_requests | exact decided_off].
Qed.

Lemma dead_band_keeps_links_witness :
  _adaptive_link_control manager_two_links
    (Some (fun _ => [("modem0"%string, mkModem true 30);
                     ("modem1"%string, mkModem true 25)]))
    (Ret true) (new_controller default_config)
  = (Ret tt, new_controller default_config).
Proof.
  destruct dead_band_keeps_links as [Hband _].
  apply Hband.
  intros answers i id status [= <-] [[= <- <-]|[[= <- <-]|[]]];
    split; vm_compute; congruence.
Defined.

(** C3, the claim as stated fails. Two enabled links, two modems: one
    reads 30 %, strictly between the thresholds of 20 % and 40 %, the other
    10 %. The policy counts two disabled links and asks for a configuration
    in which both links are switched off, so whichever link the first modem
    serves is switched off while its reading is in the dead band. *)
Lemma in_band_reading_switches_link_off :
  in_dead_band default_config (mkModem true 30)
  /\ option_map (fun rc => List.map RISTLink.enabled (RISTConfig.links rc))
       (rist_config manager_two_links) = Some [true; true]
  /\ requests
       (snd (_adaptive_link_control manager_two_links (Some (fun _ => two_modems))
               push_links_against_sources (new_controller default_config)))
     = [PushLinks [RISTLink.make "192.168.1.100" 5004 false;
                   RISTLink.make "192.168.2.100" 5004 false]]
  /\ total_link_disables
       (state (snd (_adaptive_link_control manager_two_links
                      (Some (fun _ => two_modems))
                      push_links_against_sources (new_controller default_config))))
     = 2.
Proof. repeat split; vm_compute; congruence. Qed.

(** ** The controller: persistence *)

Lemma only_own_keys_refl (document : json) :
  only_own_keys_changed document document.
Proof.
  destruct document; try reflexivity.
  exists fields. repeat split. left. reflexivity.
Qed.

Lemma rist_fields_same (top top' : gmap string json) :
  top' !! "rist"%string = top !! "rist"%string -> rist_fields top' = rist_fields top.
Proof. unfold rist_fields. intros ->. reflexivity. Qed.

Lemma only_own_keys_trans (a b c : json) :
  only_own_keys_changed a b -> only_own_keys_changed b c ->
  only_own_keys_changed a c.
Proof.
  destruct a as [| | | | | |top]; cbn; try (intros -> ; cbn; auto; fail).
  intros (top1 & -> & Hk1 & Hr1). cbn.
  intros (top2 & -> & Hk2 & Hr2).
  exists top2. split; [reflexivity|]. split.
  - intros k Hk. rewrite Hk2, Hk1 by exact Hk. reflexivity.
  - destruct Hr2 as [Hsame2|(Hold2 & sub2 & Hsub2 & Hf2)].
    + rewrite Hsame2. destruct Hr1 as [Hsame1|(Hold1 & sub1 & Hsub1 & Hf1)].
      * left. exact Hsame1.
      * right. split; [exact Hold1|]. exists sub1. split; assumption.
    + right. destruct Hr1 as [Hsame1|(Hold1 & sub1 & Hsub1 & Hf1)].
      * rewrite Hsame1 in Hold2. split; [exact Hold2|].
        exists sub2. split; [exact Hsub2|].
        intros k Hk. rewrite (Hf2 k Hk). rewrite (rist_fields_same _ _ Hsame1).
        reflexivity.
      * split; [exact Hold1|]. exists sub2. split; [exact Hsub2|].
        intros k Hk. rewrite (Hf2 k Hk). unfold rist_fields at 1.
        rewrite Hsub1. apply Hf1. exact Hk.
Qed.

Lemma add_rist_object (document written : json) :
  rist_missing document = Ret true ->
  setitem document "rist" (JObj ∅) = Ret written ->
  only_own_keys_changed document written.
Proof.
  destruct document as [| | | | | |top]; cbn; try discriminate.
  intros [= Hmiss] [= <-].
  apply bool_decide_eq_true in Hmiss.
  exists (<["rist"%string := JObj ∅]> top). split; [reflexivity|]. split.
  - intros k Hk. apply lookup_insert_ne. congruence.
  - right. split; [left; exact Hmiss|].
    exists ∅. split; [apply lookup_insert_eq|].
    intros k _. unfold rist_fields. rewrite Hmiss. reflexivity.
Qed.

Lemma set_own_key (document written : json) (key : string) (value : json) :
  own_key key ->
  set_rist_item document key value = Ret written ->
  only_own_keys_changed document written.
Proof.
  intros Hown.
  destruct document as [| | | | | |top]; cbn; try discriminate.
  destruct (top !! "rist"%string) as [sub|] eqn:Hrist; [|discriminate].
  destruct sub as [| | | | | |sub]; cbn; try discriminate.
  intros [= <-].
  exists (<["rist"%string := JObj (<[key := value]> sub)]> top).
  split; [reflexivity|]. split.
  - intros k Hk. apply lookup_insert_ne. congruence.
  - right. split; [right; exists sub; reflexivity|].
    exists (<[key := value]> sub). split; [apply lookup_insert_eq|].
    intros k Hk. unfold rist_fields. rewrite Hrist.
    apply lookup_insert_ne. intros ->. exact (Hk Hown).
Qed.

Lemma updated_document_frame (mgr : RISTManager) (document written : json) :
  updated_document mgr document = Ret written ->
  only_own_keys_changed document written.
Proof.
  unfold updated_document.
  destruct (rist_missing document) as [missing|e] eqn:Hmiss; [|discriminate].
  cbn [bind].
  destruct (if missing then setitem document "rist" (JObj ∅) else Ret document)
    as [d1|e] eqn:H1; [|discriminate].
  assert (F1 : only_own_keys_changed document d1).
  { destruct missing.
    - apply add_rist_object; assumption.
    - injection H1 as <-. apply only_own_keys_refl. }
  cbn [bind].
  destruct (match video_config mgr with
            | Some vc => set_rist_item d1 "video_bitrate" (JInt (VideoConfig.bitrate vc))
            | None => Ret d1
            end) as [d2|e] eqn:H2; [|discriminate].
  assert (F2 : only_own_keys_changed d1 d2).
  { destruct (video_config mgr).
    - eapply set_own_key; [|exact H2]. left. reflexivity.
    - injection H2 as <-. apply only_own_keys_refl. }
  cbn [bind].
  destruct (match audio_config mgr with
            | Some ac => set_rist_item d2 "audio_bitrate" (JInt (AudioConfig.bitrate ac))
            | None => Ret d2
            end) as [d3|e] eqn:H3; [|discriminate].
  assert (F3 : only_own_keys_changed d2 d3).
  { destruct (audio_config mgr).
    - eapply set_own_key; [|exact H3]. right. left. reflexivity.
    - injection H3 as <-. apply only_own_keys_refl. }
  cbn [bind]. intros H4.
  assert (F4 : only_own_keys_changed d3 written).
  { destruct (rist_config mgr).
    - eapply set_own_key; [|exact H4]. right. right. reflexivity.
    - injection H4 as <-. apply only_own_keys_refl. }
  eauto using only_own_keys_trans.
Qed.

(** C8. Whatever JSON document the store holds, the document the
    persistence step writes back differs from it in the controller's own
    keys only: every top-level field other than [rist] is unchanged, and
    within the [rist] object every key other than [video_bitrate],
    [audio_bitrate] and [links] is unchanged. The step reads the whole
    document and writes the whole document; when it cannot build the new
    document (the exception is caught) the file is not opened for writing
    and keeps what it had. *)
Theorem save_changes_only_own_keys (mgr : RISTManager) (d : store)
  (c : controller) (document : json) :
  stored d = Some (Ret document) ->
  match fst (_save_config mgr d c) with
  | Written written =>
      updated_document mgr document = Ret written
      /\ only_own_keys_changed document written
  | Untouched => True
  | Truncated => dump d <> Ret tt
  end
  /\ (forall e, updated_document mgr document = Raise e ->
       _save_config mgr d c = (Untouched, c)).
Proof.
  intros Hstored. unfold _save_config. rewrite Hstored. cbn [bind].
  destruct (updated_document mgr document) as [doc'|e] eqn:Hdoc.
  - split; [|discriminate].
    destruct (open_for_writing d); [|exact I].
    destruct (dump d) as [[]|e']; cbn.
    + split; [reflexivity|]. apply updated_document_frame with mgr. exact Hdoc.
    + discriminate.
  - split; [exact I|]. reflexivity.
Qed.

Lemma save_changes_only_own_keys_witness :
  only_own_keys_changed sample_document
    (JObj (<["max_br" := JInt 6000]>
          (<["srt_latency" := JInt 2000]>
          (<["rist" := JObj (<["profile" := JStr "high_1080p30"]>
                            (<["video_bitrate" := JInt 2000000]>
                            (<["links" := JArr [link_entry (link_a true);
                                                link_entry (link_b true)]]> ∅)))]>
             ∅)))).
Proof.
  exact (proj2 (proj1 (save_changes_only_own_keys manager_streaming
                         (mkStore (Some (Ret sample_document)) (Ret tt) (Ret tt)
                            (flit 1000))
                         (new_controller default_config) sample_document eq_refl))).
Defined.

(** * Further properties *)

(** ** The classifier *)

(** X1. A line is ignored by the classifier exactly when its lowered text
    contains none of the nine known signatures and not the word "error". *)
Theorem unclassified_iff_no_signature (line : string) :
  _parse_gst_error line = None
  <-> Forall (fun signature => contains signature (lower line) = false) signatures.
Proof.
  unfold _parse_gst_error, signatures. split.
  - intros H.
    repeat match type of H with
           | context [contains ?s (lower line)] =>
               destruct (contains s (lower line)) eqn:?; cbn in H
           end; try discriminate.
    repeat constructor; assumption.
  - intros H.
    repeat match goal with
           | H : Forall _ (_ :: _) |- _ => inversion H; subst; clear H
           end.
    repeat match goal with H : contains _ _ = false |- _ => rewrite H; clear H end.
    reflexivity.
Qed.

Lemma lower_ascii_idempotent (c : ascii) : lower_ascii (lower_ascii c) = lower_ascii c.
Proof.
  destruct c as [[] [] [] [] [] [] [] []]; reflexivity.
Qed.

Lemma lower_idempotent (s : string) : lower (lower s) = lower s.
Proof.
  induction s as [|c s IH]; cbn; [reflexivity|].
  rewrite lower_ascii_idempotent, IH. reflexivity.
Qed.

Lemma same_lowered_same_class (a b : string) :
  lower a = lower b ->
  _parse_gst_error a = _parse_gst_error b
  \/ (_parse_gst_error a = Some ("RIST Error: " ++ take_chars 100 a)%string
      /\ _parse_gst_error b = Some ("RIST Error: " ++ take_chars 100 b)%string).
Proof.
  intros H. unfold _parse_gst_error. rewrite H.
  repeat match goal with
         | |- context [contains ?s (lower b)] =>
             destruct (contains s (lower b)); cbn
         end; auto.
Qed.

(** X2. The classifier does not see the case of letters: two lines with
    the same lowered text get the same result, except that an unclassified
    error is reported with the text of its own line; in particular a line
    in capitals and in small letters name the same known failure. *)
Theorem classifier_ignores_case :
  (forall a b : string,
     lower a = lower b ->
     _parse_gst_error a = _parse_gst_error b
     \/ (_parse_gst_error a = Some ("RIST Error: " ++ take_chars 100 a)%string
         /\ _parse_gst_error b = Some ("RIST Error: " ++ take_chars 100 b)%string))
  /\ (forall (line message : string),
        In message known_messages ->
        (_parse_gst_error line = Some message
         <-> _parse_gst_error (lower line) = Some message)).
Proof.
  split; [exact same_lowered_same_class|].
  intros line message Hknown.
  destruct (same_lowered_same_class (lower line) line (lower_idempotent line))
    as [Heq|[Ha Hb]].
  - rewrite Heq. tauto.
  - rewrite Ha, Hb.
    split; intros [= <-]; exfalso;
      repeat (destruct Hknown as [Hknown|Hknown]; [discriminate|]);
      exact Hknown.
Qed.

Lemma classifier_ignores_case_witness :
  _parse_gst_error "ERROR: CONNECTION REFUSED" = Some MSG_CONNECTION
  <-> _parse_gst_error (lower "ERROR: CONNECTION REFUSED") = Some MSG_CONNECTION.
Proof.
  apply (proj2 classifier_ignores_case). right. left. reflexivity.
Defined.

Lemma take_chars_length (s : string) : forall n : nat,
  (char_length (take_chars n s) <= n)%nat.
Proof.
  induction s as [|c s IH]; intros n; cbn; [lia|].
  destruct (is_continuation c) eqn:E; cbn; rewrite ?E.
  - apply IH.
  - destruct n as [|n]; cbn; rewrite ?E; [lia|]. specialize (IH n). lia.
Qed.

Lemma char_length_append (a b : string) :
  char_length (a ++ b)%string = (char_length a + char_length b)%nat.
Proof.
  induction a as [|c a IH]; [reflexivity|].
  rewrite append_cons. cbn. rewrite IH.
  destruct (is_continuation c); reflexivity.
Qed.

(** X3. Whatever the line, the message of the classifier is short: one of
    the six fixed messages, or "RIST Error: " followed by the first 100
    characters of the line (the whole line if it has fewer), at most 112
    characters in all. Characters are counted as [len] counts them, so a
    line with letters outside ASCII is cut after 100 letters, not after 100
    bytes. *)
Theorem classifier_message_bounded (line message : string) :
  _parse_gst_error line = Some message ->
  (In message known_messages
   \/ message = ("RIST Error: " ++ take_chars 100 line)%string)
  /\ (char_length message <= 112)%nat.
Proof.
  intros H.
  assert (Hcases : In message known_messages
                   \/ message = ("RIST Error: " ++ take_chars 100 line)%string).
  { unfold _parse_gst_error in H.
    repeat match type of H with
           | context [contains ?s (lower line)] =>
               destruct (contains s (lower line)); cbn in H
           end; try discriminate; injection H as <-;
      unfold known_messages; cbn; tauto. }
  split; [exact Hcases|].
  destruct Hcases as [Hknown| ->].
  - repeat (destruct Hknown as [<-|Hknown]; [vm_compute; lia|]).
    destruct Hknown.
  - rewrite char_length_append. pose proof (take_chars_length line 100).
    change (char_length "RIST Error: ") with 12%nat. lia.
Qed.

Lemma classifier_message_bounded_witness :
  (char_length ("RIST Error: " ++ take_chars 100 umlaut_line)%string <= 112)%nat.
Proof.
  apply (classifier_message_bounded umlaut_line).
  vm_compute. reflexivity.
Defined.

(** On that line, seven letters and 120 times u-umlaut, the message is cut
    after the 93rd umlaut: 112 characters in 205 bytes. *)
Example umlaut_line_message :
  _parse_gst_error umlaut_line
  = Some ("RIST Error: errors " ++ umlauts 93)%string
  /\ char_length ("RIST Error: errors " ++ umlauts 93)%string = 112%nat
  /\ String.length ("RIST Error: errors " ++ umlauts 93)%string = 205%nat.
Proof. vm_compute. repeat split. Qed.

(** ** The error monitor *)

Lemma monitor_iteration_last_error (m : RISTManager) (o : observation) :
  last_error (fst (fst (monitor_iteration m o)))
  = match snd (fst (monitor_iteration m o)) with
    | Some e => Some e
    | None => last_error m
    end.
Proof.
  unfold monitor_iteration.
  destruct (stop_monitoring m); [reflexivity|].
  destruct (process m); [|reflexivity].
  destruct o; try reflexivity.
  destruct (String.eqb (strip text) ""); [reflexivity|].
  destruct (_parse_gst_error (strip text)); reflexivity.
Qed.

(** X4. Errors are sticky and the latest one wins: after a run of the
    monitor, [last_error] is the last message it reported, and it is what
    it was before if the run reported none. *)
Theorem monitor_keeps_latest_error (obs : list observation) :
  forall m : RISTManager,
  last_error (fst (_monitor_stderr m obs))
  = match last (snd (_monitor_stderr m obs)) with
    | Some e => Some e
    | None => last_error m
    end.
Proof.
  induction obs as [|o obs IH]; intros m; [reflexivity|].
  cbn [_monitor_stderr].
  pose proof (monitor_iteration_last_error m o) as Hstep.
  destruct (monitor_iteration m o) as [[m1 msg] [|]]; cbn [fst snd] in Hstep.
  - specialize (IH m1).
    destruct (_monitor_stderr m1 obs) as [m2 msgs]. cbn [fst snd] in *.
    rewrite IH, Hstep.
    destruct msg as [e|]; [|reflexivity].
    rewrite last_cons. destruct (last msgs); reflexivity.
  - cbn [fst snd]. rewrite Hstep. destruct msg; reflexivity.
Qed.

Lemma monitor_iteration_ends (m : RISTManager) (o : observation) :
  ends_monitor o -> monitor_iteration m o = (m, None, false).
Proof.
  intros H. unfold monitor_iteration.
  destruct (stop_monitoring m); [reflexivity|].
  destruct (process m); [|reflexivity].
  destruct o; try reflexivity. destruct H.
Qed.

Lemma monitor_idle (m : RISTManager) (obs : list observation) :
  stop_monitoring m = true \/ process m = None ->
  _monitor_stderr m obs = (m, []).
Proof.
  intros H. destruct obs as [|o obs]; [reflexivity|].
  cbn [_monitor_stderr]. unfold monitor_iteration.
  destruct H as [->| ->]; [reflexivity|].
  destruct (stop_monitoring m); reflexivity.
Qed.

(** X5. The monitor reads nothing once it has to leave: with the stop
    flag set, or without a process, it changes nothing and reports nothing;
    and whatever follows the exit of the process, the end of the stream, a
    failed read or a stop request is never looked at. *)
Theorem monitor_leaves_for_good :
  (forall (m : RISTManager) (obs : list observation),
     stop_monitoring m = true \/ process m = None ->
     _monitor_stderr m obs = (m, []))
  /\ (forall (before after : list observation) (o : observation) (m : RISTManager),
        ends_monitor o ->
        _monitor_stderr m (before ++ o :: after)
        = _monitor_stderr m (before ++ [o])).
Proof.
  split; [exact monitor_idle|].
  intros before after o. induction before as [|b before IH]; intros m Hend.
  - cbn [app _monitor_stderr].
    rewrite (monitor_iteration_ends m o Hend). reflexivity.
  - cbn [app _monitor_stderr].
    destruct (monitor_iteration m b) as [[m1 msg] [|]]; [|reflexivity].
    rewrite (IH m1 Hend). reflexivity.
Qed.

Lemma monitor_leaves_for_good_witness :
  _monitor_stderr manager_streaming
    ([ObsLine "WARN: late buffer"] ++ ObsEof :: [ObsLine "ERROR: EOS"])
  = _monitor_stderr manager_streaming ([ObsLine "WARN: late buffer"] ++ [ObsEof]).
Proof.
  apply (proj2 monitor_leaves_for_good). exact I.
Defined.

(** ** The session manager: what the operations keep *)

Lemma start_keeps_configuration (hp : string -> bool) (env : launch)
  (m : RISTManager) :
  rist_config (snd (start hp env m)) = rist_config m
  /\ video_config (snd (start hp env m)) = video_config m
  /\ audio_config (snd (start hp env m)) = audio_config m
  /\ gst_launch (snd (start hp env m)) = gst_launch m.
Proof.
  unfold start.
  destruct (is_streaming m); [auto|].
  destruct (rist_config m) eqn:Hrc; [|auto].
  destruct (_build_pipeline_command hp m); [|cbn; auto].
  destruct env as [e|p code [text|e]|p [u|e]]; cbn; auto.
Qed.

Lemma stop_keeps_configuration (env : shutdown) (m : RISTManager) :
  rist_config (snd (stop env m)) = rist_config m
  /\ video_config (snd (stop env m)) = video_config m
  /\ audio_config (snd (stop env m)) = audio_config m
  /\ gst_launch (snd (stop env m)) = gst_launch m
  /\ last_error (snd (stop env m)) = last_error m.
Proof.
  unfold stop.
  destruct (is_streaming m); cbn; [|auto].
  destruct (process m); [|auto].
  destruct (sigint env); [|auto].
  destruct (monitor_thread m && monitor_alive env);
    destruct (exits_in_time env); cbn; auto;
    destruct (sigkill env); cbn; auto.
Qed.

Ltac backed Hm :=
  let Hx := fresh "Hx" in
  let Hb := fresh "Hb" in
  cbn; intros Hx;
  try (assert (Hb := Hm ltac:(congruence)); destruct Hb);
  first [ congruence | split; congruence ].

Lemma start_backed (hp : string -> bool) (env : launch) (m : RISTManager) :
  streaming_is_backed m -> streaming_is_backed (snd (start hp env m)).
Proof.
  unfold streaming_is_backed, start. intros Hm.
  destruct (is_streaming m) eqn:Hs; [backed Hm|].
  destruct (rist_config m) eqn:Hrc; [|backed Hm].
  destruct (_build_pipeline_command hp m); [|backed Hm].
  destruct env as [e|p code [text|e]|p [u|e]]; backed Hm.
Qed.

Lemma stop_backed (env : shutdown) (m : RISTManager) :
  streaming_is_backed m -> streaming_is_backed (snd (stop env m)).
Proof.
  unfold streaming_is_backed, stop. intros Hm.
  destruct (is_streaming m) eqn:Hs; [|backed Hm].
  destruct (process m) eqn:Hp; [|backed Hm].
  destruct (sigint env); [|backed Hm].
  destruct (monitor_thread m && monitor_alive env);
    destruct (exits_in_time env); try (backed Hm);
    destruct (sigkill env); backed Hm.
Qed.

Lemma configure_backed (m : RISTManager) (rc : RISTConfig.t)
  (vc : option VideoConfig.t) (ac : option AudioConfig.t) :
  streaming_is_backed m -> streaming_is_backed (snd (configure m rc vc ac)).
Proof.
  unfold streaming_is_backed, configure. intros Hm.
  destruct (is_streaming m) eqn:Hs; backed Hm.
Qed.

Lemma monitor_backed (obs : list observation) (m : RISTManager) :
  streaming_is_backed m -> streaming_is_backed (fst (_monitor_stderr m obs)).
Proof.
  unfold streaming_is_backed. intros Hm.
  destruct (monitor_frame obs m) as (Hs & Hp & Hc & _).
  cbv zeta in Hs, Hp, Hc. rewrite Hs, Hp, Hc. exact Hm.
Qed.

Lemma update_bitrate_backed (hp : string -> bool) (down : shutdown)
  (up : launch) (new_bitrate : Z) (m : RISTManager) :
  streaming_is_backed m ->
  streaming_is_backed (snd (update_bitrate hp down up new_bitrate m)).
Proof.
  intros Hm. unfold update_bitrate.
  destruct (video_config m) as [vc|]; [|exact Hm].
  set (m1 := set_configs m (rist_config m) (Some (with_bitrate vc new_bitrate))
               (audio_config m)).
  assert (H1 : streaming_is_backed m1) by exact Hm.
  destruct (is_streaming m1); [|exact H1].
  apply start_backed, stop_backed, H1.
Qed.

Lemma perform_backed (m : RISTManager) (c : call) :
  streaming_is_backed m -> streaming_is_backed (perform m c).
Proof.
  destruct c; cbn [perform].
  - apply configure_backed.
  - apply start_backed.
  - apply stop_backed.
  - apply update_bitrate_backed.
  - apply monitor_backed.
Qed.

(** X6. Whatever sequence of calls and monitor runs a new manager goes
    through, and whether they return or raise, a manager that is streaming
    holds a configuration and a process handle. *)
Theorem streaming_manager_is_backed (calls : list call) (gstreamer_path : string) :
  streaming_is_backed (perform_all calls (new_manager gstreamer_path)).
Proof.
  unfold perform_all.
  assert (H : forall m, streaming_is_backed m ->
                        streaming_is_backed (fold_left perform calls m)).
  { induction calls as [|c calls IH]; intros m Hm; [exact Hm|].
    cbn [fold_left]. apply IH, perform_backed, Hm. }
  apply H. unfold streaming_is_backed. cbn. discriminate.
Qed.

Lemma start_keeps_error (hp : string -> bool) (env : launch) (m : RISTManager) :
  last_error m <> None -> last_error (snd (start hp env m)) <> None.
Proof.
  unfold start. intros Hm.
  destruct (is_streaming m); [exact Hm|].
  destruct (rist_config m); [|exact Hm].
  destruct (_build_pipeline_command hp m); [|cbn; discriminate].
  destruct env as [e|p code [text|e]|p [u|e]]; cbn; try discriminate; exact Hm.
Qed.

Lemma perform_keeps_error (m : RISTManager) (c : call) :
  last_error m <> None -> last_error (perform m c) <> None.
Proof.
  intros Hm. destruct c; cbn [perform].
  - unfold configure. destruct (is_streaming m); exact Hm.
  - apply start_keeps_error, Hm.
  - destruct (stop_keeps_configuration env m) as (_ & _ & _ & _ & ->). exact Hm.
  - unfold update_bitrate.
    destruct (video_config m) as [vc|]; [|exact Hm].
    set (m1 := set_configs m (rist_config m) (Some (with_bitrate vc new_bitrate))
                 (audio_config m)).
    destruct (is_streaming m1); [|exact Hm].
    apply start_keeps_error.
    destruct (stop_keeps_configuration down m1) as (_ & _ & _ & _ & ->). exact Hm.
  - rewrite monitor_keeps_latest_error.
    destruct (last (snd (_monitor_stderr m obs))); [discriminate | exact Hm].
Qed.

(** X7. No operation clears [last_error]: once an error has been stored,
    every later status reports some error, whatever calls follow (a new
    configuration and a successful start included). *)
Theorem last_error_is_never_cleared (calls : list call) (m : RISTManager)
  (poll : option Z) :
  last_error m <> None ->
  Status.error (get_status poll (perform_all calls m)) <> None.
Proof.
  unfold perform_all. revert m.
  induction calls as [|c calls IH]; intros m Hm; [exact Hm|].
  cbn [fold_left]. apply IH, perform_keeps_error, Hm.
Qed.

Lemma last_error_is_never_cleared_witness :
  Status.error
    (get_status None
       (perform_all
          [CallStop clean_shutdown;
           CallConfigure (rist_config_of [link_a true]) (Some sample_video) None;
           CallStart all_plugins alive_launch]
          (fst (_monitor_stderr manager_streaming
                  [ObsLine "ERROR: Internal data flow error."]))))
  <> None.
Proof.
  apply last_error_is_never_cleared. vm_compute. discriminate.
Defined.

(** ** The session manager: how the operations compose *)

Lemma stop_success (env : shutdown) (m : RISTManager) :
  fst (stop env m) = Ret true ->
  is_streaming (snd (stop env m)) = false /\ process (snd (stop env m)) = None.
Proof.
  unfold stop.
  destruct (is_streaming m); cbn; [|discriminate].
  destruct (process m); [|discriminate].
  destruct (sigint env); [|discriminate].
  destruct (exits_in_time env); [auto|].
  destruct (sigkill env); [auto | discriminate].
Qed.

(** X8. [stop] is idempotent after a success: once a stop has returned
    true, every further stop returns false and leaves the manager as it
    is, whatever the process and the signals do. *)
Theorem stop_twice (env again : shutdown) (m : RISTManager) :
  fst (stop env m) = Ret true ->
  stop again (snd (stop env m)) = (Ret false, snd (stop env m)).
Proof.
  intros H. apply stop_success in H as [Hs _].
  unfold stop at 1. rewrite Hs. reflexivity.
Qed.

Lemma stop_twice_witness :
  stop (mkShutdown (Raise (Exn OSError "No such process")) false false (Ret tt))
    (snd (stop clean_shutdown manager_streaming))
  = (Ret false, snd (stop clean_shutdown manager_streaming)).
Proof. apply stop_twice. reflexivity. Defined.

Lemma start_alive (hp : string -> bool) (p : Popen) (m : RISTManager)
  (rc : RISTConfig.t) :
  is_streaming m = false -> rist_config m = Some rc ->
  start hp (Alive p (Ret tt)) m
  = (Ret true,
     set_monitor_thread
       (set_stop_monitoring (set_is_streaming (set_process m (Some p)) true) false)
       true).
Proof.
  intros Hs Hc. unfold start. rewrite Hs, Hc.
  unfold _build_pipeline_command. rewrite Hc. reflexivity.
Qed.

(** X9. A session can be started again after it was stopped: from a
    configured manager that is not streaming, a start whose process stays
    alive followed by a stop that succeeds gives a manager that is not
    streaming, has no process handle, has the same configuration and the
    same [last_error] as before, and on which the next start succeeds
    again. *)
Theorem start_stop_start (hp : string -> bool) (p p' : Popen) (env : shutdown)
  (m : RISTManager) (rc : RISTConfig.t) :
  is_streaming m = false ->
  rist_config m = Some rc ->
  let running := snd (start hp (Alive p (Ret tt)) m) in
  let stopped := snd (stop env running) in
  fst (stop env running) = Ret true ->
  is_streaming stopped = false
  /\ process stopped = None
  /\ rist_config stopped = Some rc
  /\ video_config stopped = video_config m
  /\ audio_config stopped = audio_config m
  /\ last_error stopped = last_error m
  /\ fst (start hp (Alive p' (Ret tt)) stopped) = Ret true.
Proof.
  intros Hs Hc running stopped Hstop.
  destruct (stop_success env running Hstop) as [Hs' Hp'].
  destruct (stop_keeps_configuration env running) as (Hrc & Hvc & Hac & _ & Herr).
  fold stopped in Hs', Hp', Hrc, Hvc, Hac, Herr.
  assert (Hrun : running
    = set_monitor_thread
        (set_stop_monitoring (set_is_streaming (set_process m (Some p)) true) false)
        true).
  { subst running. rewrite (start_alive hp p m rc Hs Hc). reflexivity. }
  rewrite Hrun in Hrc, Hvc, Hac, Herr. cbn in Hrc, Hvc, Hac, Herr.
  repeat split; try assumption; try congruence.
  rewrite (start_alive hp p' stopped rc Hs'); [reflexivity | congruence].
Qed.

Lemma start_stop_start_witness :
  is_streaming
    (snd (stop clean_shutdown
            (snd (start all_plugins alive_launch manager_one_link_off)))) = false
  /\ fst (start all_plugins alive_launch
            (snd (stop clean_shutdown
                    (snd (start all_plugins alive_launch manager_one_link_off)))))
     = Ret true.
Proof.
  pose proof (start_stop_start all_plugins sample_process sample_process
                clean_shutdown manager_one_link_off (rist_config_of [link_a false])
                eq_refl eq_refl eq_refl) as (H1 & _ & _ & _ & _ & _ & H2).
  split; [exact H1 | exact H2].
Defined.

(** X10. [configure] followed by [start]: on a manager that is not
    streaming the pair never raises, and [start]
    answers true exactly when the launched process is alive after the grace
    second and the monitor thread starts; the manager then streams with the
    configuration just given. On a streaming manager [configure] raises and
    the stream goes on with its old configuration. *)
Theorem configure_then_start (hp : string -> bool) (env : launch)
  (m : RISTManager) (rc : RISTConfig.t) (vc : option VideoConfig.t)
  (ac : option AudioConfig.t) :
  (is_streaming m = false ->
   fst (configure m rc vc ac) = Ret tt
   /\ (exists ok, fst (start hp env (snd (configure m rc vc ac))) = Ret ok)
   /\ (fst (start hp env (snd (configure m rc vc ac))) = Ret true
       <-> exists p u, env = Alive p (Ret u))
   /\ (fst (start hp env (snd (configure m rc vc ac))) = Ret true ->
       is_streaming (snd (start hp env (snd (configure m rc vc ac)))) = true
       /\ rist_config (snd (start hp env (snd (configure m rc vc ac)))) = Some rc
       /\ video_config (snd (start hp env (snd (configure m rc vc ac)))) = vc
       /\ audio_config (snd (start hp env (snd (configure m rc vc ac)))) = ac))
  /\ (is_streaming m = true ->
      (exists e, fst (configure m rc vc ac) = Raise e)
      /\ snd (configure m rc vc ac) = m).
Proof.
  split.
  - intros Hs. unfold configure. rewrite Hs. cbn [fst snd].
    set (m1 := set_configs m (Some rc) vc ac).
    assert (Hs1 : is_streaming m1 = false) by exact Hs.
    assert (Hc1 : rist_config m1 = Some rc) by reflexivity.
    assert (Hcmd : exists cmd, _build_pipeline_command hp m1 = Ret cmd).
    { unfold _build_pipeline_command. rewrite Hc1. eauto. }
    destruct Hcmd as [cmd Hcmd].
    unfold start. rewrite Hs1, Hc1, Hcmd.
    split; [reflexivity|].
    destruct env as [e|p code [text|e]|p [u|e]]; cbn;
      (split; [eauto|]); (split; [split|]);
      try discriminate; try (intros (p0 & u0 & [=])); eauto.
  - intros Hs. unfold configure. rewrite Hs. cbn. eauto.
Qed.

Lemma configure_then_start_witness :
  fst (start all_plugins alive_launch
         (snd (configure (new_manager sample_path)
                 (rist_config_of [link_a true; link_b true])
                 (Some sample_video) None))) = Ret true.
Proof.
  destruct (configure_then_start all_plugins alive_launch (new_manager sample_path)
              (rist_config_of [link_a true; link_b true]) (Some sample_video) None)
    as [Hidle _].
  destruct (Hidle eq_refl) as (_ & _ & Hiff & _).
  apply Hiff. exists sample_process, tt. reflexivity.
Defined.

(** ** The session manager: [update_bitrate] *)

Lemma video_pipeline_bitrate (hp : string -> bool) (vc : VideoConfig.t) :
  In ("bitrate=" ++ str_int (VideoConfig.bitrate vc / 1000))%string
    (_build_video_pipeline hp vc).
Proof.
  unfold _build_video_pipeline. apply in_or_app. right.
  destruct (VideoConfig.codec vc); right; left; reflexivity.
Qed.

Lemma command_has_bitrate (hp : string -> bool) (m : RISTManager)
  (vc : VideoConfig.t) :
  rist_config m <> None -> video_config m = Some vc ->
  exists cmd,
    _build_pipeline_command hp m = Ret cmd
    /\ In ("bitrate=" ++ str_int (VideoConfig.bitrate vc / 1000))%string cmd.
Proof.
  intros Hrc Hvc. unfold _build_pipeline_command.
  destruct (rist_config m) as [rc|]; [|congruence]. rewrite Hvc.
  eexists. split; [reflexivity|].
  apply in_or_app. left.
  destruct (audio_config m).
  - apply in_or_app. left. apply in_or_app. left. apply in_or_app. right.
    apply video_pipeline_bitrate.
  - apply in_or_app. right. apply video_pipeline_bitrate.
Qed.

Lemma update_bitrate_configuration (hp : string -> bool) (down : shutdown)
  (up : launch) (new_bitrate : Z) (m : RISTManager) (vc : VideoConfig.t) :
  video_config m = Some vc ->
  video_config (snd (update_bitrate hp down up new_bitrate m))
  = Some (with_bitrate vc new_bitrate)
  /\ rist_config (snd (update_bitrate hp down up new_bitrate m)) = rist_config m
  /\ audio_config (snd (update_bitrate hp down up new_bitrate m)) = audio_config m.
Proof.
  intros Hvc. unfold update_bitrate. rewrite Hvc.
  set (m1 := set_configs m (rist_config m) (Some (with_bitrate vc new_bitrate))
               (audio_config m)).
  destruct (is_streaming m1); [|auto].
  destruct (start_keeps_configuration hp up (snd (stop down m1))) as (-> & -> & -> & _).
  destruct (stop_keeps_configuration down m1) as (-> & -> & -> & _).
  auto.
Qed.

(** X11. [update_bitrate] answers false and does nothing without a video
    configuration. With one, the stored configuration carries the new
    bitrate afterwards whatever the result is, and its other fields, the
    transport and the audio configuration are kept. A manager that is not
    streaming answers true without touching a process. On a manager reached
    by calls from a new one the operation never raises. If the process
    cannot be interrupted the answer is false and the old process streams
    on, while the stored configuration already has the new bitrate. The
    command line of the next launch asks the encoder for the new bitrate
    in whole kbit/s. *)
Theorem update_bitrate_effects (hp : string -> bool) (down : shutdown)
  (up : launch) (new_bitrate : Z) (m : RISTManager) :
  (video_config m = None ->
   update_bitrate hp down up new_bitrate m = (Ret false, m))
  /\ (forall vc, video_config m = Some vc ->
        video_config (snd (update_bitrate hp down up new_bitrate m))
        = Some (with_bitrate vc new_bitrate)
        /\ rist_config (snd (update_bitrate hp down up new_bitrate m)) = rist_config m
        /\ audio_config (snd (update_bitrate hp down up new_bitrate m))
           = audio_config m)
  /\ (forall vc, video_config m = Some vc -> is_streaming m = false ->
        update_bitrate hp down up new_bitrate m
        = (Ret true,
           set_configs m (rist_config m) (Some (with_bitrate vc new_bitrate))
             (audio_config m)))
  /\ (streaming_is_backed m ->
      exists ok, fst (update_bitrate hp down up new_bitrate m) = Ret ok)
  /\ (forall vc e, video_config m = Some vc -> is_streaming m = true ->
        sigint down = Raise e ->
        update_bitrate hp down up new_bitrate m
        = (Ret false,
           set_configs m (rist_config m) (Some (with_bitrate vc new_bitrate))
             (audio_config m)))
  /\ (forall vc, video_config m = Some vc -> rist_config m <> None ->
        exists cmd,
          _build_pipeline_command hp (snd (update_bitrate hp down up new_bitrate m))
          = Ret cmd
          /\ In ("bitrate=" ++ str_int (new_bitrate / 1000))%string cmd).
Proof.
  split; [|split; [|split; [|split; [|split]]]].
  - intros Hvc. unfold update_bitrate. rewrite Hvc. reflexivity.
  - intros vc. apply update_bitrate_configuration.
  - intros vc Hvc Hs. unfold update_bitrate. rewrite Hvc.
    cbn [is_streaming set_configs]. rewrite Hs. reflexivity.
  - intros Hm. unfold update_bitrate.
    destruct (video_config m) as [vc|]; [|eauto].
    set (m1 := set_configs m (rist_config m) (Some (with_bitrate vc new_bitrate))
                 (audio_config m)).
    assert (H1 : streaming_is_backed m1) by exact Hm.
    destruct (is_streaming m1) eqn:Hs1; [|eauto].
    apply start_configured_returns.
    right. destruct (stop_keeps_configuration down m1) as (-> & _).
    apply H1. exact Hs1.
  - intros vc e Hvc Hs Hsig. unfold update_bitrate. rewrite Hvc.
    set (m1 := set_configs m (rist_config m) (Some (with_bitrate vc new_bitrate))
                 (audio_config m)).
    assert (Hs1 : is_streaming m1 = true) by exact Hs.
    rewrite Hs1.
    assert (Hstop : stop down m1 = (Ret false, m1)).
    { unfold stop. rewrite Hs1. cbn [negb].
      destruct (process m1); [|reflexivity]. rewrite Hsig. reflexivity. }
    rewrite Hstop. cbn [snd]. unfold start. rewrite Hs1. reflexivity.
  - intros vc Hvc Hrc.
    destruct (update_bitrate_configuration hp down up new_bitrate m vc Hvc)
      as (Hv & Hr & _).
    destruct (command_has_bitrate hp (snd (update_bitrate hp down up new_bitrate m))
                (with_bitrate vc new_bitrate)) as (cmd & Hcmd & Hin).
    + rewrite Hr. exact Hrc.
    + exact Hv.
    + exists cmd. split; [exact Hcmd | exact Hin].
Qed.

Lemma update_bitrate_effects_witness :
  video_config
    (snd (update_bitrate all_plugins
            (mkShutdown (Raise (Exn OSError "No such process")) false false (Ret tt))
            alive_launch 1700000 manager_streaming))
  = Some (with_bitrate sample_video 1700000)
  /\ fst (update_bitrate all_plugins
            (mkShutdown (Raise (Exn OSError "No such process")) false false (Ret tt))
            alive_launch 1700000 manager_streaming) = Ret false.
Proof.
  destruct (update_bitrate_effects all_plugins
              (mkShutdown (Raise (Exn OSError "No such process")) false false (Ret tt))
              alive_launch 1700000 manager_streaming)
    as (_ & Hcfg & _ & _ & Hfail & _).
  split.
  - exact (proj1 (Hcfg sample_video eq_refl)).
  - rewrite (Hfail sample_video (Exn OSError "No such process") eq_refl eq_refl eq_refl).
    reflexivity.
Defined.

(** ** The controller: link-quality sampling *)

Lemma set_differs_false (a b : list string) :
  set_differs a b = false -> forall x, In x a <-> In x b.
Proof.
  unfold set_differs. intros H x.
  apply negb_false_iff, bool_decide_eq_true in H.
  rewrite <- !list_elem_of_In.
  rewrite <- !(elem_of_list_to_set (C := gset string)). rewrite H. reflexivity.
Qed.

Lemma in_filtered_ids (f : string * ModemStatus -> bool) (answer : snapshot)
  (id : string) :
  In id (List.map fst (List.filter f answer))
  <-> exists status, In (id, status) answer /\ f (id, status) = true.
Proof.
  rewrite in_map_iff. split.
  - intros ([id' status] & <- & Hin). apply filter_In in Hin as [Hin Hf].
    exists status. split; assumption.
  - intros (status & Hin & Hf). exists (id, status). split; [reflexivity|].
    apply filter_In. split; assumption.
Qed.

Lemma unique_reading (answer : snapshot) (id : string) (s1 s2 : ModemStatus) :
  List.NoDup (List.map fst answer) ->
  In (id, s1) answer -> In (id, s2) answer -> s1 = s2.
Proof.
  induction answer as [|[id' s'] answer IH]; cbn; [tauto|].
  intros Hnd H1 H2. inversion Hnd as [|? ? Hnot Hnd']; subst.
  destruct H1 as [H1|H1], H2 as [H2|H2].
  - congruence.
  - exfalso. apply Hnot. apply in_map_iff. exists (id, s2).
    split; [cbn; congruence | exact H2].
  - exfalso. apply Hnot. apply in_map_iff. exists (id, s1).
    split; [cbn; congruence | exact H1].
  - apply IH; assumption.
Qed.

(** X12. After the link-quality sample, the active links are exactly the
    modems that are connected and read at or above the enable threshold,
    and the disabled links exactly the others that read below the disable
    threshold, whatever the two lists held before; a modem in between is in
    neither. No identifier is in both (the answer being a dictionary, with
    one reading per identifier), and nothing else of the controller
    changes. *)
Theorem modem_sample_sets (answer : snapshot) (c : controller) :
  let c' := snd (_update_modem_stats answer c) in
  (forall id,
     In id (active_links (state c'))
     <-> exists status,
           In (id, status) answer
           /\ connected status = true
           /\ link_enable_signal_threshold (config c) <= signal_strength status)
  /\ (forall id,
        In id (disabled_links (state c'))
        <-> exists status,
              In (id, status) answer
              /\ ~ (connected status = true
                    /\ link_enable_signal_threshold (config c)
                       <= signal_strength status)
              /\ signal_strength status < link_disable_signal_threshold (config c))
  /\ (List.NoDup (List.map fst answer) ->
      forall id, In id (active_links (state c')) ->
                 ~ In id (disabled_links (state c')))
  /\ keeps_policy c c'
  /\ same_persistence c c'
  /\ current_video_bitrate (state c') = current_video_bitrate (state c)
  /\ current_packet_loss (state c') = current_packet_loss (state c).
Proof.
  intros c'.
  set (active := List.map fst
         (List.filter (fun e => should_be_active (config c) (snd e)) answer)).
  set (disabled := List.map fst
         (List.filter (fun e => should_be_disabled (config c) (snd e)) answer)).
  assert (Hc' : c' = with_state c
            (let s1 := if set_differs active (active_links (state c))
                       then set_active_links (state c) active else state c in
             if set_differs disabled (disabled_links s1)
             then set_disabled_links s1 disabled else s1)).
  { subst c'. unfold _update_modem_stats, and_then, read, when, modify, ret.
    cbn beta iota. fold active disabled.
    destruct (set_differs active (active_links (state c))); cbn;
      destruct (set_differs disabled (disabled_links (state c)));
      cbn; rewrite ?with_state_same; reflexivity. }
  assert (Hact : forall id, In id (active_links (state c')) <-> In id active).
  { intros id. rewrite Hc'. cbn.
    destruct (set_differs active (active_links (state c))) eqn:Ea; cbn;
      destruct (set_differs disabled _); cbn; try reflexivity;
      symmetry; apply (set_differs_false _ _ Ea). }
  assert (Hdis : forall id, In id (disabled_links (state c')) <-> In id disabled).
  { intros id. rewrite Hc'. cbn.
    destruct (set_differs active (active_links (state c))); cbn;
      destruct (set_differs disabled _) eqn:Ed; cbn; try reflexivity;
      symmetry; apply (set_differs_false _ _ Ed). }
  assert (Ha : forall id,
    In id active <-> exists status, In (id, status) answer
      /\ connected status = true
      /\ link_enable_signal_threshold (config c) <= signal_strength status).
  { intros id. subst active. rewrite in_filtered_ids. cbn [snd].
    unfold should_be_active.
    split; intros (status & Hin & H); exists status; (split; [exact Hin|]).
    - apply andb_true_iff in H as [H1 H2]. apply Z.leb_le in H2. auto.
    - destruct H as [H1 H2]. apply Z.leb_le in H2. rewrite H1, H2. reflexivity. }
  assert (Hd : forall id,
    In id disabled <-> exists status, In (id, status) answer
      /\ ~ (connected status = true
            /\ link_enable_signal_threshold (config c) <= signal_strength status)
      /\ signal_strength status < link_disable_signal_threshold (config c)).
  { intros id. subst disabled. rewrite in_filtered_ids. cbn [snd].
    unfold should_be_disabled, should_be_active.
    split; intros (status & Hin & H); exists status; (split; [exact Hin|]).
    - apply andb_true_iff in H as [H1 H2]. apply Z.ltb_lt in H2.
      split; [|exact H2]. intros [Hc Hs]. apply Z.leb_le in Hs.
      rewrite Hc, Hs in H1. discriminate.
    - destruct H as [H1 H2]. apply Z.ltb_lt in H2. rewrite H2.
      destruct (connected status) eqn:Hc; [|reflexivity].
      destruct (link_enable_signal_threshold (config c) <=? signal_strength status)
        eqn:Hs; [|reflexivity].
      exfalso. apply H1. apply Z.leb_le in Hs. auto. }
  split; [intros id; rewrite Hact; apply Ha|].
  split; [intros id; rewrite Hdis; apply Hd|].
  split.
  { intros Hnd id Hin Hin'.
    apply Hact, Ha in Hin as (s1 & Hin1 & Hc1 & Hs1).
    apply Hdis, Hd in Hin' as (s2 & Hin2 & Hnot & _).
    rewrite (unique_reading answer id s2 s1 Hnd Hin2 Hin1) in Hnot. auto. }
  split; [apply update_modem_stats_keeps|].
  rewrite Hc'. cbn.
  destruct (set_differs active (active_links (state c))); cbn;
    destruct (set_differs disabled _); cbn; repeat split.
Qed.

Lemma modem_sample_sets_witness :
  ~ In "B"%string
      (disabled_links
         (state (snd (_update_modem_stats readings_a_b
                        (new_controller default_config)))))
  /\ active_links
       (state (snd (_update_modem_stats readings_a_b (new_controller default_config))))
     = ["B"%string]
  /\ disabled_links
       (state (snd (_update_modem_stats readings_a_b (new_controller default_config))))
     = ["A"%string].
Proof.
  split; [|split; reflexivity].
  destruct (modem_sample_sets readings_a_b (new_controller default_config))
    as (_ & _ & Hdisjoint & _).
  apply Hdisjoint.
  - repeat constructor; cbn; intuition discriminate.
  - left. reflexivity.
Defined.

(** ** The controller: what the bitrate policy asks for *)

(** X13. A pass of the bitrate policy asks for at most one bitrate. If it
    asks for one in the decrease branch, the bitrate is at least
    [min_video_bitrate] and strictly below the current one; otherwise the
    increase test has passed and the bitrate is strictly above the current
    one and at most [max_video_bitrate]. So a current bitrate within the
    two bounds is answered by a request within the bounds, and a decrease
    and an increase never happen in the same pass. *)
Theorem requested_bitrate_in_bounds (push : result bool) (now : float)
  (c : controller) :
  let c' := snd (_adaptive_bitrate_control push now c) in
  let current := current_video_bitrate (state c) in
  requests c' = requests c
  \/ exists target,
       requests c' = requests c ++ [PushVideoBitrate target]
       /\ ((should_decrease c = true
            /\ min_video_bitrate (config c) <= target < current)
           \/ (should_decrease c && immediate_decrease (config c) = false
               /\ can_increase c = true
               /\ current < target <= max_video_bitrate (config c)))
       /\ (min_video_bitrate (config c) <= current <= max_video_bitrate (config c) ->
           min_video_bitrate (config c) <= target <= max_video_bitrate (config c)).
Proof.
  intros c' current. subst c' current.
  destruct (Z.eq_dec (current_video_bitrate (state c)) 0) as [H0|H0].
  { left. rewrite bitrate_control_unset by exact H0. reflexivity. }
  destruct (should_decrease c && immediate_decrease (config c)) eqn:Hdec.
  - apply andb_true_iff in Hdec as [Hd Hi].
    destruct (scaled (current_video_bitrate (state c))
                (fsub (flit 1) (bitrate_step_down (config c))))
      as [product|e] eqn:Hprod.
    + rewrite (bitrate_control_decrease push now c product H0 Hd Hi Hprod).
      unfold decrease_target. cbn [snd].
      destruct (Z.max product (min_video_bitrate (config c))
                <? current_video_bitrate (state c)) eqn:E;
        [|left; reflexivity].
      apply Z.ltb_lt in E. right.
      exists (Z.max product (min_video_bitrate (config c))).
      cbv zeta. cbn [requests with_state]. rewrite requests_after_apply.
      split; [reflexivity|]. split; [left; split; [exact Hd | lia] | lia].
    + left. unfold _adaptive_bitrate_control, and_then, read, id, lift.
      apply Z.eqb_neq in H0. rewrite H0, Hd, Hi. cbn [andb].
      rewrite Hprod. reflexivity.
  - destruct (can_increase c) eqn:Hinc.
    + rewrite (bitrate_control_increase push now c H0 Hdec Hinc).
      destruct (stable_periods_before_increase (config c)
                <=? stable_periods (state c) + 1); [|left; reflexivity].
      destruct (scaled (current_video_bitrate (state c))
                  (fadd (flit 1) (bitrate_step_up (config c))))
        as [product|e]; [|left; reflexivity].
      unfold increase_target. cbn [snd].
      destruct (current_video_bitrate (state c)
                <? Z.min product (max_video_bitrate (config c))) eqn:E;
        [|left; reflexivity].
      apply Z.ltb_lt in E. right.
      exists (Z.min product (max_video_bitrate (config c))).
      cbv zeta. cbn [requests with_state]. rewrite requests_after_apply.
      split; [reflexivity|].
      split; [right; split; [reflexivity|]; split; [reflexivity | lia] | lia].
    + left. rewrite (bitrate_control_hold push now c H0 Hdec Hinc). cbn [snd].
      destruct (fle _ _); reflexivity.
Qed.

Lemma requested_bitrate_in_bounds_witness :
  exists target,
    requests (snd (_adaptive_bitrate_control (Ret true) (flit 1000) example_controller))
    = requests example_controller ++ [PushVideoBitrate target]
    /\ 500000 <= target <= 10000000.
Proof.
  destruct (requested_bitrate_in_bounds (Ret true) (flit 1000) example_controller)
    as [H|(target & Hreq & _ & Hbounds)].
  - vm_compute in H. discriminate.
  - exists target. split; [exact Hreq|].
    apply Hbounds. vm_compute. split; discriminate.
Defined.

(** X14. At the floor nothing moves: with the decrease condition met and
    the current bitrate at or below [min_video_bitrate], a pass of the
    bitrate policy leaves the controller exactly as it was. No bitrate is
    asked for, no decrease is counted, and the stability counter is not
    cleared either. *)
Theorem no_decrease_at_floor (push : result bool) (now : float) (c : controller) :
  should_decrease c = true ->
  immediate_decrease (config c) = true ->
  current_video_bitrate (state c) <= min_video_bitrate (config c) ->
  snd (_adaptive_bitrate_control push now c) = c.
Proof.
  intros Hd Hi Hfloor.
  destruct (Z.eq_dec (current_video_bitrate (state c)) 0) as [H0|H0].
  { rewrite bitrate_control_unset by exact H0. reflexivity. }
  destruct (scaled (current_video_bitrate (state c))
              (fsub (flit 1) (bitrate_step_down (config c))))
    as [product|e] eqn:Hprod.
  - rewrite (bitrate_control_decrease push now c product H0 Hd Hi Hprod).
    unfold decrease_target. cbn [snd].
    assert (E : (Z.max product (min_video_bitrate (config c))
                 <? current_video_bitrate (state c)) = false)
      by (apply Z.ltb_ge; lia).
    rewrite E. reflexivity.
  - unfold _adaptive_bitrate_control, and_then, read, id, lift.
    apply Z.eqb_neq in H0. rewrite H0, Hd, Hi. cbn [andb].
    rewrite Hprod. reflexivity.
Qed.

Lemma no_decrease_at_floor_witness :
  snd (_adaptive_bitrate_control (Ret true) (flit 1000)
         (with_state (new_controller default_config)
            (set_stable_periods
               (set_current_packet_loss
                  (set_current_video_bitrate initial_state 500000) (flit 7))
               4)))
  = with_state (new_controller default_config)
      (set_stable_periods
         (set_current_packet_loss
            (set_current_video_bitrate initial_state 500000) (flit 7))
         4).
Proof.
  apply no_decrease_at_floor; [reflexivity | reflexivity | vm_compute; discriminate].
Defined.

(** ** The controller: a pass, step by step *)

Section PassRelation.

Variable R : controller -> controller -> Prop.
Variable env : tick_env.
Hypothesis R_refl : forall c, R c c.
Hypothesis R_trans : forall a b c, R a b -> R b c -> R a c.
Hypothesis R_stats :
  forall c, R c (snd (_update_rist_stats (get_stats env) (manager env) c)).
Hypothesis R_modem : forall answer c, R c (snd (_update_modem_stats answer c)).
Hypothesis R_bitrate :
  forall c, R c (snd (_adaptive_bitrate_control (push_video env) (now env) c)).
Hypothesis R_links :
  forall monitor c,
    R c (snd (_adaptive_link_control (manager_links env) monitor (push_links env) c)).
Hypothesis R_save :
  forall c, _config_dirty c = true ->
            R c (snd (_save_config (manager_saved env) (disk env) c)).

Lemma take_samples_relates (c : controller) : R c (sampled env c).
Proof.
  unfold sampled, take_samples, and_then.
  pose proof (R_stats c) as H1.
  destruct (_update_rist_stats (get_stats env) (manager env) c) as [[u|e] c1];
    cbn [snd] in *; [|exact H1].
  destruct (modem_monitor env) as [answers|]; [|exact H1].
  eapply R_trans; [exact H1 | apply R_modem].
Qed.

Lemma make_decisions_relates (c : controller) : R c (snd (make_decisions env c)).
Proof.
  unfold make_decisions, and_then, read. cbn beta iota.
  assert (H1 : R c (snd (when (adaptive_bitrate_enabled (config c))
                           (_adaptive_bitrate_control (push_video env) (now env)) c))).
  { unfold when. destruct (adaptive_bitrate_enabled (config c));
      [apply R_bitrate | apply R_refl]. }
  destruct (when (adaptive_bitrate_enabled (config c))
              (_adaptive_bitrate_control (push_video env) (now env)) c)
    as [[u|e] c1]; cbn [snd] in *; [|exact H1].
  eapply R_trans; [exact H1|].
  unfold when.
  destruct (adaptive_links_enabled (config c)
            && bool_decide (is_Some (modem_monitor env)));
    [apply R_links | apply R_refl].
Qed.

Lemma save_if_due_relates (c : controller) : R c (snd (save_if_due env c)).
Proof.
  unfold save_if_due.
  destruct (_config_dirty c) eqn:Hd; cbn [andb]; [|apply R_refl].
  destruct (save_due c (current_time env)); [|apply R_refl].
  pose proof (R_save c Hd) as H.
  destruct (_save_config (manager_saved env) (disk env) c). exact H.
Qed.

Lemma pass_relates (c : controller) : R c (control_tick env c).
Proof.
  unfold control_tick, loop_body.
  unfold and_then at 1.
  pose proof (take_samples_relates c) as H1. unfold sampled in H1.
  destruct (take_samples env c) as [[u|e] c1]; cbn [snd] in *; [|exact H1].
  unfold and_then at 1.
  pose proof (make_decisions_relates c1) as H2.
  destruct (make_decisions env c1) as [[u2|e2] c2]; cbn [snd] in *;
    [|eapply R_trans; eassumption].
  unfold and_then at 1.
  pose proof (save_if_due_relates c2) as H3.
  destruct (save_if_due env c2) as [[w|e3] c3]; cbn [snd] in *;
    [|eapply R_trans; [eapply R_trans|]; eassumption].
  unfold and_then at 1.
  pose proof (notify_keeps env c3) as H4.
  destruct (notify env c3) as [[u4|e4] c4]; cbn [snd] in *; subst c4;
    (eapply R_trans; [eapply R_trans|]; eassumption).
Qed.

End PassRelation.

(** ** The controller: the books of a pass *)

Lemma keeps_books_refl (c : controller) : keeps_books c c.
Proof.
  split; [reflexivity|]. split; [exists []; symmetry; apply app_nil_r|].
  repeat split; lia.
Qed.

Lemma keeps_books_trans (a b c : controller) :
  keeps_books a b -> keeps_books b c -> keeps_books a c.
Proof.
  intros (Hc1 & [m1 Hr1] & ? & ? & ? & ? & Hb1) (Hc2 & [m2 Hr2] & ? & ? & ? & ? & Hb2).
  split; [congruence|].
  split; [exists (m1 ++ m2); rewrite Hr2, Hr1, app_assoc; reflexivity|].
  repeat split; lia.
Qed.

(** A step that changes neither the configuration, the requests nor a
    counter keeps the books. *)
Lemma keeps_books_same (c c' : controller) :
  config c' = config c -> requests c' = requests c ->
  total_bitrate_increases (state c') = total_bitrate_increases (state c) ->
  total_bitrate_decreases (state c') = total_bitrate_decreases (state c) ->
  total_link_disables (state c') = total_link_disables (state c) ->
  total_link_enables (state c') = total_link_enables (state c) ->
  keeps_books c c'.
Proof.
  intros Hc Hr H1 H2 H3 H4.
  split; [exact Hc|]. split; [exists []; rewrite Hr; symmetry; apply app_nil_r|].
  unfold adjustments, video_requests. rewrite Hr, H1, H2, H3, H4.
  repeat split; lia.
Qed.

Lemma update_rist_stats_books (get : result (option (gmap string Z)))
  (mgr : RISTManager) (c : controller) :
  keeps_books c (snd (_update_rist_stats get mgr c)).
Proof.
  unfold _update_rist_stats, and_then, lift.
  destruct get as [[stats|]|e]; try apply keeps_books_refl.
  destruct (bool_decide (stats = ∅)); [apply keeps_books_refl|].
  destruct (0 <? stats_get stats "sent_original_packets").
  - destruct (truediv _ _); [|apply keeps_books_refl].
    unfold ret, modify.
    destruct (video_config mgr); destruct (audio_config mgr);
      apply keeps_books_same; reflexivity.
  - unfold ret, modify.
    destruct (video_config mgr); destruct (audio_config mgr);
      apply keeps_books_same; reflexivity.
Qed.

Lemma update_modem_stats_books (answer : snapshot) (c : controller) :
  keeps_books c (snd (_update_modem_stats answer c)).
Proof.
  unfold _update_modem_stats, and_then, read, when, modify, ret. cbn beta iota.
  repeat match goal with |- context [set_differs ?a ?b] =>
    destruct (set_differs a b); cbn beta iota zeta end;
    apply keeps_books_same; reflexivity.
Qed.

Lemma video_requests_video (c : controller) (bps : Z) :
  video_requests (with_request c (PushVideoBitrate bps)) = video_requests c ++ [bps].
Proof.
  unfold video_requests, with_request. cbn [requests].
  rewrite omap_app. reflexivity.
Qed.

Lemma apply_video_books (bps : Z) (push : result bool) (c : controller) :
  let c1 := snd (_apply_video_bitrate bps push c) in
  config c1 = config c
  /\ requests c1 = requests c ++ [PushVideoBitrate bps]
  /\ video_requests c1 = video_requests c ++ [bps]
  /\ total_bitrate_increases (state c1) = total_bitrate_increases (state c)
  /\ total_bitrate_decreases (state c1) = total_bitrate_decreases (state c)
  /\ total_link_disables (state c1) = total_link_disables (state c)
  /\ total_link_enables (state c1) = total_link_enables (state c).
Proof.
  cbv zeta. rewrite apply_video_result.
  destruct push as [[|]|e]; cbn [snd]; repeat split;
    apply video_requests_video.
Qed.

Lemma note_decrease_books (c c1 : controller) (now : float) (bps : Z) :
  config c1 = config c ->
  requests c1 = requests c ++ [PushVideoBitrate bps] ->
  video_requests c1 = video_requests c ++ [bps] ->
  total_bitrate_increases (state c1) = total_bitrate_increases (state c) ->
  total_bitrate_decreases (state c1) = total_bitrate_decreases (state c) ->
  total_link_disables (state c1) = total_link_disables (state c) ->
  total_link_enables (state c1) = total_link_enables (state c) ->
  keeps_books c (with_state c1 (note_decrease now (state c1))).
Proof.
  intros Hc Hr Hv H1 H2 H3 H4.
  split; [exact Hc|]. split; [eexists; exact Hr|].
  unfold adjustments, video_requests in *. cbn.
  rewrite Hv, length_app, H1, H2, H3, H4. cbn. repeat split; lia.
Qed.

Lemma note_increase_books (c c1 : controller) (now : float) (bps : Z) :
  config c1 = config c ->
  requests c1 = requests c ++ [PushVideoBitrate bps] ->
  video_requests c1 = video_requests c ++ [bps] ->
  total_bitrate_increases (state c1) = total_bitrate_increases (state c) ->
  total_bitrate_decreases (state c1) = total_bitrate_decreases (state c) ->
  total_link_disables (state c1) = total_link_disables (state c) ->
  total_link_enables (state c1) = total_link_enables (state c) ->
  keeps_books c (with_state c1 (note_increase now (state c1))).
Proof.
  intros Hc Hr Hv H1 H2 H3 H4.
  split; [exact Hc|]. split; [eexists; exact Hr|].
  unfold adjustments, video_requests in *. cbn.
  rewrite Hv, length_app, H1, H2, H3, H4. cbn. repeat split; lia.
Qed.

Lemma bitrate_control_books (push : result bool) (now : float) (c : controller) :
  keeps_books c (snd (_adaptive_bitrate_control push now c)).
Proof.
  destruct (Z.eq_dec (current_video_bitrate (state c)) 0) as [H0|H0].
  { rewrite bitrate_control_unset by exact H0. apply keeps_books_refl. }
  destruct (should_decrease c && immediate_decrease (config c)) eqn:Hdec.
  - apply andb_true_iff in Hdec as [Hd Hi].
    destruct (scaled (current_video_bitrate (state c))
                (fsub (flit 1) (bitrate_step_down (config c))))
      as [product|e] eqn:Hprod.
    + rewrite (bitrate_control_decrease push now c product H0 Hd Hi Hprod).
      cbn [snd].
      destruct (decrease_target c product <? current_video_bitrate (state c));
        [|apply keeps_books_refl].
      cbv zeta.
      destruct (apply_video_books (decrease_target c product) push c)
        as (Hc & Hr & Hv & H1 & H2 & H3 & H4).
      eapply note_decrease_books; eassumption.
    + unfold _adaptive_bitrate_control, and_then, read, id, lift.
      apply Z.eqb_neq in H0. rewrite H0, Hd, Hi. cbn [andb].
      rewrite Hprod. apply keeps_books_refl.
  - destruct (can_increase c) eqn:Hinc.
    + rewrite (bitrate_control_increase push now c H0 Hdec Hinc).
      assert (Hcount : keeps_books c (counted c))
        by (apply keeps_books_same; reflexivity).
      destruct (stable_periods_before_increase (config c)
                <=? stable_periods (state c) + 1); [|exact Hcount].
      destruct (scaled (current_video_bitrate (state c))
                  (fadd (flit 1) (bitrate_step_up (config c))))
        as [product|e]; [|exact Hcount].
      cbn [snd].
      destruct (current_video_bitrate (state c) <? increase_target c product);
        [|exact Hcount].
      cbv zeta.
      destruct (apply_video_books (increase_target c product) push (counted c))
        as (Hc & Hr & Hv & H1 & H2 & H3 & H4).
      eapply note_increase_books; eassumption.
    + rewrite (bitrate_control_hold push now c H0 Hdec Hinc). cbn [snd].
      destruct (fle _ _); apply keeps_books_same; reflexivity.
Qed.

Lemma judge_modem_counts (cfg : AdaptiveConfig) (link : RISTLink.t)
  (answer : snapshot) : forall acc : bool * bool * AdaptiveState,
  let s := snd acc in
  let s' := snd (fold_left (judge_modem cfg link) answer acc) in
  total_bitrate_increases s' = total_bitrate_increases s
  /\ total_bitrate_decreases s' = total_bitrate_decreases s
  /\ total_link_disables s <= total_link_disables s'
  /\ total_link_enables s <= total_link_enables s'.
Proof.
  induction answer as [|entry answer IH]; intros acc; cbv zeta;
    [cbn [fold_left]; repeat apply conj; lia|].
  cbn [fold_left].
  specialize (IH (judge_modem cfg link acc entry)). cbv zeta in IH.
  destruct IH as (H1 & H2 & H3 & H4). rewrite H1, H2.
  assert (Hstep :
    total_bitrate_increases (snd (judge_modem cfg link acc entry))
    = total_bitrate_increases (snd acc)
    /\ total_bitrate_decreases (snd (judge_modem cfg link acc entry))
       = total_bitrate_decreases (snd acc)
    /\ total_link_disables (snd acc)
       <= total_link_disables (snd (judge_modem cfg link acc entry))
    /\ total_link_enables (snd acc)
       <= total_link_enables (snd (judge_modem cfg link acc entry))).
  { destruct acc as [[should needs] s]. unfold judge_modem. cbn [snd].
    destruct (signal_strength (snd entry) <? link_disable_signal_threshold cfg).
    - destruct (RISTLink.enabled link); cbn; repeat apply conj; lia.
    - destruct (link_enable_signal_threshold cfg <=? signal_strength (snd entry));
        [|cbn; repeat apply conj; lia].
      destruct (negb (RISTLink.enabled link)); cbn; repeat apply conj; lia. }
  destruct Hstep as (S1 & S2 & S3 & S4). repeat apply conj; lia.
Qed.

Lemma judge_link_counts (cfg : AdaptiveConfig) (monitor : option (nat -> snapshot))
  (links : list RISTLink.t) :
  forall acc : nat * bool * list RISTLink.t * AdaptiveState,
  let s := snd acc in
  let s' := snd (fold_left (judge_link cfg monitor) links acc) in
  total_bitrate_increases s' = total_bitrate_increases s
  /\ total_bitrate_decreases s' = total_bitrate_decreases s
  /\ total_link_disables s <= total_link_disables s'
  /\ total_link_enables s <= total_link_enables s'.
Proof.
  induction links as [|link links IH]; intros acc; cbv zeta;
    [cbn [fold_left]; repeat apply conj; lia|].
  cbn [fold_left].
  specialize (IH (judge_link cfg monitor acc link)). cbv zeta in IH.
  destruct IH as (H1 & H2 & H3 & H4). rewrite H1, H2.
  assert (Hstep :
    total_bitrate_increases (snd (judge_link cfg monitor acc link))
    = total_bitrate_increases (snd acc)
    /\ total_bitrate_decreases (snd (judge_link cfg monitor acc link))
       = total_bitrate_decreases (snd acc)
    /\ total_link_disables (snd acc)
       <= total_link_disables (snd (judge_link cfg monitor acc link))
    /\ total_link_enables (snd acc)
       <= total_link_enables (snd (judge_link cfg monitor acc link))).
  { destruct acc as [[[i needs] new_links] s]. unfold judge_link. cbn [snd].
    destruct monitor as [answers|]; [|cbn; repeat apply conj; lia].
    pose proof (judge_modem_counts cfg link (answers i) (true, needs, s)) as H.
    cbv zeta in H.
    destruct (fold_left (judge_modem cfg link) (answers i) (true, needs, s))
      as [[should needs'] s'].
    exact H. }
  destruct Hstep as (S1 & S2 & S3 & S4). repeat apply conj; lia.
Qed.

Lemma link_control_books (mgr : RISTManager) (monitor : option (nat -> snapshot))
  (push : result bool) (c : controller) :
  keeps_books c (snd (_adaptive_link_control mgr monitor push c)).
Proof.
  unfold _adaptive_link_control.
  destruct (rist_config mgr) as [rc|]; [|apply keeps_books_refl].
  unfold and_then, read, id. cbn beta iota.
  pose proof (judge_link_counts (config c) monitor (RISTConfig.links rc)
                (O, false, [], state c)) as H.
  cbv zeta in H.
  destruct (fold_left (judge_link (config c) monitor) (RISTConfig.links rc)
              (O, false, [], state c)) as [[[i needs] new_links] s].
  cbn [snd] in H. destruct H as (H1 & H2 & H3 & H4).
  unfold modify, when. cbn beta iota.
  assert (Hbase : keeps_books c (with_state c s)).
  { split; [reflexivity|]. split; [exists []; symmetry; apply app_nil_r|].
    unfold adjustments, video_requests. cbn. rewrite H1, H2. repeat apply conj; lia. }
  destruct needs; [|exact Hbase].
  eapply keeps_books_trans; [exact Hbase|].
  unfold _apply_link_config, and_then, update, try_, lift, ret.
  destruct push as [[|]|e]; cbn beta iota;
    (split; [reflexivity|]; split; [eexists; reflexivity|];
     unfold adjustments; cbn [snd state with_request with_dirty with_state];
     rewrite ?video_requests_links;
     try (change (video_requests (with_dirty (with_request (with_state c s)
                                                (PushLinks new_links)) true))
            with (video_requests (with_request (with_state c s) (PushLinks new_links)));
          rewrite video_requests_links);
     repeat apply conj; lia).
Qed.

Lemma save_config_books (mgr : RISTManager) (d : store) (c : controller) :
  keeps_books c (snd (_save_config mgr d c)).
Proof.
  unfold _save_config.
  destruct (stored d) as [loaded|]; [|apply keeps_books_refl].
  destruct (bind loaded (updated_document mgr)); [|apply keeps_books_refl].
  destruct (open_for_writing d); [|apply keeps_books_refl].
  destruct (dump d); [apply keeps_books_same; reflexivity | apply keeps_books_refl].
Qed.

Lemma pass_keeps_books (env : tick_env) (c : controller) :
  keeps_books c (control_tick env c).
Proof.
  apply pass_relates.
  - exact keeps_books_refl.
  - exact keeps_books_trans.
  - intros c0. apply update_rist_stats_books.
  - exact update_modem_stats_books.
  - intros c0. apply bitrate_control_books.
  - intros monitor c0. apply link_control_books.
  - intros c0 _. apply save_config_books.
Qed.

(** X15. The books of the control loop: whatever the passes meet (and
    whether they end in an exception or not), the configuration of the
    controller stays, the history of its requests is only extended, none of
    the four cumulative counters ever goes down, and the bitrate increases
    and decreases counted grow by exactly the number of bitrates asked for.
    For a controller that starts fresh, increases plus decreases is the
    number of bitrates it has asked the session manager for, accepted or
    not. *)
Theorem control_loop_keeps_books (envs : list tick_env) :
  (forall c : controller, keeps_books c (control_loop envs c))
  /\ (forall cfg : AdaptiveConfig,
        let c' := control_loop envs (new_controller cfg) in
        config c' = cfg
        /\ total_bitrate_increases (state c') + total_bitrate_decreases (state c')
           = Z.of_nat (length (video_requests c'))
        /\ 0 <= total_bitrate_increases (state c')
        /\ 0 <= total_bitrate_decreases (state c')
        /\ 0 <= total_link_disables (state c')
        /\ 0 <= total_link_enables (state c')).
Proof.
  assert (H : forall c, keeps_books c (control_loop envs c)).
  { unfold control_loop. induction envs as [|env envs IH]; intros c.
    - apply keeps_books_refl.
    - cbn [fold_left]. eapply keeps_books_trans; [apply pass_keeps_books | apply IH]. }
  split; [exact H|].
  intros cfg c'. destruct (H (new_controller cfg)) as (Hc & _ & H1 & H2 & H3 & H4 & Hb).
  fold c' in Hc, H1, H2, H3, H4, Hb.
  unfold adjustments in Hb. cbn in Hc, H1, H2, H3, H4, Hb.
  repeat split; try assumption. lia.
Qed.

(** ** The controller: when the store is written *)

Lemma clean_stays_refl (c : controller) : clean_stays c c.
Proof. intros _. split; reflexivity. Qed.

Lemma clean_stays_trans (a b c : controller) :
  clean_stays a b -> clean_stays b c -> clean_stays a c.
Proof.
  intros H1 H2 Ha. destruct (H1 Ha) as [Hd Hs].
  destruct (H2 ltac:(congruence)) as [Hd' Hs'].
  split; congruence.
Qed.

Lemma same_persistence_clean (c c' : controller) :
  same_persistence c c' -> clean_stays c c'.
Proof. intros H _. exact H. Qed.

Lemma update_rist_stats_persistence (get : result (option (gmap string Z)))
  (mgr : RISTManager) (c : controller) :
  same_persistence c (snd (_update_rist_stats get mgr c)).
Proof.
  unfold _update_rist_stats, and_then, lift.
  destruct get as [[stats|]|e]; try (split; reflexivity).
  destruct (bool_decide (stats = ∅)); [split; reflexivity|].
  destruct (0 <? stats_get stats "sent_original_packets").
  - destruct (truediv _ _); [|split; reflexivity].
    unfold ret, modify.
    destruct (video_config mgr); destruct (audio_config mgr); split; reflexivity.
  - unfold ret, modify.
    destruct (video_config mgr); destruct (audio_config mgr); split; reflexivity.
Qed.

Lemma bitrate_control_persistence (push : result bool) (now : float)
  (c : controller) :
  push <> Ret true ->
  same_persistence c (snd (_adaptive_bitrate_control push now c)).
Proof.
  intros Hfail.
  destruct (Z.eq_dec (current_video_bitrate (state c)) 0) as [H0|H0].
  { rewrite bitrate_control_unset by exact H0. split; reflexivity. }
  destruct (should_decrease c && immediate_decrease (config c)) eqn:Hdec.
  - apply andb_true_iff in Hdec as [Hd Hi].
    destruct (scaled (current_video_bitrate (state c))
                (fsub (flit 1) (bitrate_step_down (config c))))
      as [product|e] eqn:Hprod.
    + rewrite (bitrate_control_decrease push now c product H0 Hd Hi Hprod).
      cbn [snd].
      destruct (decrease_target c product <? current_video_bitrate (state c));
        [|split; reflexivity].
      cbv zeta. rewrite (failed_push_apply _ push c Hfail). split; reflexivity.
    + unfold _adaptive_bitrate_control, and_then, read, id, lift.
      apply Z.eqb_neq in H0. rewrite H0, Hd, Hi. cbn [andb].
      rewrite Hprod. split; reflexivity.
  - destruct (can_increase c) eqn:Hinc.
    + rewrite (bitrate_control_increase push now c H0 Hdec Hinc).
      destruct (stable_periods_before_increase (config c)
                <=? stable_periods (state c) + 1); [|split; reflexivity].
      destruct (scaled (current_video_bitrate (state c))
                  (fadd (flit 1) (bitrate_step_up (config c))))
        as [product|e]; [|split; reflexivity].
      cbn [snd].
      destruct (current_video_bitrate (state c) <? increase_target c product);
        [|split; reflexivity].
      cbv zeta. rewrite (failed_push_apply _ push (counted c) Hfail).
      split; reflexivity.
    + rewrite (bitrate_control_hold push now c H0 Hdec Hinc). cbn [snd].
      destruct (fle _ _); split; reflexivity.
Qed.

Lemma link_control_persistence (mgr : RISTManager)
  (monitor : option (nat -> snapshot)) (push : result bool) (c : controller) :
  push <> Ret true ->
  same_persistence c (snd (_adaptive_link_control mgr monitor push c)).
Proof.
  intros Hfail. unfold _adaptive_link_control.
  destruct (rist_config mgr) as [rc|]; [|split; reflexivity].
  unfold and_then, read, id. cbn beta iota.
  destruct (fold_left (judge_link (config c) monitor) (RISTConfig.links rc)
              (O, false, [], state c)) as [[[i needs] new_links] s].
  unfold modify, when. cbn beta iota.
  destruct needs; [|split; reflexivity].
  unfold _apply_link_config, and_then, update, try_, lift, ret.
  destruct push as [[|]|e]; cbn beta iota; [congruence | |]; split; reflexivity.
Qed.

Lemma clean_pass (env : tick_env) (c : controller) :
  push_video env <> Ret true ->
  push_links env <> Ret true ->
  _config_dirty c = false ->
  same_persistence c (control_tick env c)
  /\ (forall r, fst (loop_body env c) = Ret r -> r = Untouched).
Proof.
  intros Hv Hl Hclean.
  assert (Hstats : forall c0,
    clean_stays c0 (snd (_update_rist_stats (get_stats env) (manager env) c0)))
    by (intros; apply same_persistence_clean, update_rist_stats_persistence).
  assert (Hmodem : forall answer c0,
    clean_stays c0 (snd (_update_modem_stats answer c0))).
  { intros answer c0. apply same_persistence_clean.
    destruct (modem_sample_sets answer c0) as (_ & _ & _ & _ & H & _). exact H. }
  assert (Hbit : forall c0,
    clean_stays c0 (snd (_adaptive_bitrate_control (push_video env) (now env) c0)))
    by (intros; apply same_persistence_clean, bitrate_control_persistence, Hv).
  assert (Hlink : forall monitor c0,
    clean_stays c0 (snd (_adaptive_link_control (manager_links env) monitor
                           (push_links env) c0)))
    by (intros; apply same_persistence_clean, link_control_persistence, Hl).
  assert (Hsave : forall c0, _config_dirty c0 = true ->
    clean_stays c0 (snd (_save_config (manager_saved env) (disk env) c0)))
    by (intros c0 Hd Hc; congruence).
  split.
  - assert (H : clean_stays c (control_tick env c))
      by (apply pass_relates;
          first [ exact clean_stays_refl | exact clean_stays_trans | exact Hstats
                | exact Hmodem | exact Hbit | exact Hlink | exact Hsave ]).
    exact (H Hclean).
  - intros r. unfold loop_body. unfold and_then at 1.
    assert (H1 : clean_stays c (sampled env c))
      by (apply take_samples_relates;
          first [ exact clean_stays_refl | exact clean_stays_trans | exact Hstats
                | exact Hmodem | exact Hbit | exact Hlink | exact Hsave ]).
    destruct (H1 Hclean) as [H1' _]. clear H1.
    unfold sampled in H1'.
    destruct (take_samples env c) as [[u|e] c1]; cbn [fst snd] in *; [|discriminate].
    unfold and_then at 1.
    assert (H2 : clean_stays c1 (snd (make_decisions env c1)))
      by (apply make_decisions_relates;
          first [ exact clean_stays_refl | exact clean_stays_trans | exact Hstats
                | exact Hmodem | exact Hbit | exact Hlink | exact Hsave ]).
    assert (Hc1 : _config_dirty c1 = false) by congruence.
    destruct (H2 Hc1) as [H2' _]. clear H2.
    destruct (make_decisions env c1) as [[u2|e2] c2]; cbn [fst snd] in *;
      [|discriminate].
    unfold and_then at 1. unfold save_if_due at 1.
    assert (Hc2 : _config_dirty c2 = false) by congruence.
    rewrite Hc2. cbn [andb].
    unfold and_then. destruct (notify env c2) as [[u3|e3] c3]; cbn; congruence.
Qed.

(** X16. The store is written only for a reason. A pass marks the
    configuration dirty only if it was dirty already or a push (of a
    bitrate or of links) succeeded in it. A pass of a clean controller in
    which no push succeeds leaves the persistence bookkeeping alone and
    does not touch the store. *)
Theorem store_written_only_after_push (env : tick_env) (c : controller) :
  (_config_dirty (control_tick env c) = true ->
   _config_dirty c = true
   \/ push_video env = Ret true \/ push_links env = Ret true)
  /\ (push_video env <> Ret true -> push_links env <> Ret true ->
      _config_dirty c = false ->
      _config_dirty (control_tick env c) = false
      /\ _last_config_save (control_tick env c) = _last_config_save c
      /\ forall r, fst (loop_body env c) = Ret r -> r = Untouched).
Proof.
  split.
  - intros Hdirty.
    destruct (_config_dirty c) eqn:Hc; [left; reflexivity|]. right.
    destruct (push_video env) as [[|]|e] eqn:Hv; [left; reflexivity | |];
      (destruct (push_links env) as [[|]|e'] eqn:Hl; [right; reflexivity | |]);
      exfalso;
      (destruct (clean_pass env c) as [[Hd _] _];
       [rewrite Hv; discriminate | rewrite Hl; discriminate | exact Hc |]);
      congruence.
  - intros Hv Hl Hc.
    destruct (clean_pass env c Hv Hl Hc) as [[Hd Hs] Hr].
    split; [congruence|]. split; [exact Hs | exact Hr].
Qed.

Lemma store_written_only_after_push_witness :
  _config_dirty (control_tick (pass 2000000 100 7) (new_controller default_config))
  = false
  /\ fst (loop_body (pass 2000000 100 7) (new_controller default_config))
     = Ret Untouched.
Proof.
  destruct (store_written_only_after_push (pass 2000000 100 7)
              (new_controller default_config)) as [_ H].
  destruct H as (Hd & _ & Hr); try (vm_compute; discriminate); [reflexivity|].
  split; [exact Hd|].
  destruct (fst (loop_body (pass 2000000 100 7) (new_controller default_config)))
    as [r|e] eqn:E.
  - rewrite (Hr r eq_refl). reflexivity.
  - vm_compute in E. discriminate.
Defined.

(** ** The controller: the links it pushes *)

Lemma rebuilt_links_shape (links : list RISTLink.t) : forall flag : nat -> bool,
  let rebuilt := imap (fun i link =>
                         RISTLink.make (RISTLink.address link) (RISTLink.port link)
                           (flag i)) links in
  List.map RISTLink.address rebuilt = List.map RISTLink.address links
  /\ List.map RISTLink.port rebuilt = List.map RISTLink.port links
  /\ Forall (fun l => RISTLink.weight l = 100) rebuilt
  /\ List.map RISTLink.enabled rebuilt = imap (fun i _ => flag i) links.
Proof.
  induction links as [|link links IH]; intros flag; cbv zeta.
  - cbn. repeat split. constructor.
  - destruct (IH (fun i => flag (S i))) as (Ha & Hp & Hw & He).
    cbv zeta in Ha, Hp, Hw, He.
    change (imap (fun i link0 =>
                    RISTLink.make (RISTLink.address link0) (RISTLink.port link0)
                      (flag i)) (link :: links))
      with (RISTLink.make (RISTLink.address link) (RISTLink.port link) (flag O)
            :: imap (fun i link0 =>
                       RISTLink.make (RISTLink.address link0)
                         (RISTLink.port link0) (flag (S i))) links).
    change (imap (fun i (_ : RISTLink.t) => flag i) (link :: links))
      with (flag O :: imap (fun i (_ : RISTLink.t) => flag (S i)) links).
    cbn [List.map]. rewrite Ha, Hp, He.
    repeat split. constructor; [reflexivity | exact Hw].
Qed.

Lemma pushed_links_rebuilt (mgr : RISTManager) (answers : nat -> snapshot)
  (push : result bool) (c : controller) (rc : RISTConfig.t)
  (new_links : list RISTLink.t) :
  rist_config mgr = Some rc ->
  requests (snd (_adaptive_link_control mgr (Some answers) push c))
  = requests c ++ [PushLinks new_links] ->
  new_links = rebuilt_links (config c) answers (RISTConfig.links rc).
Proof.
  intros Hrc Hreq.
  destruct (link_control_requests mgr answers push c rc Hrc) as [H|H];
    rewrite H in Hreq.
  - rewrite <- (app_nil_r (requests c)) in Hreq at 1.
    apply app_inv_head in Hreq. discriminate.
  - apply app_inv_head in Hreq. congruence.
Qed.

(** X17. A link reconfiguration the policy pushes names the same
    endpoints as the configuration of the manager, in the same order: only
    the [enabled] flags can differ, and every weight is back at the default
    of 100, whatever weights the links had. *)
Theorem pushed_links_keep_endpoints (mgr : RISTManager) (answers : nat -> snapshot)
  (push : result bool) (c : controller) (rc : RISTConfig.t)
  (new_links : list RISTLink.t) :
  rist_config mgr = Some rc ->
  requests (snd (_adaptive_link_control mgr (Some answers) push c))
  = requests c ++ [PushLinks new_links] ->
  List.map RISTLink.address new_links = List.map RISTLink.address (RISTConfig.links rc)
  /\ List.map RISTLink.port new_links = List.map RISTLink.port (RISTConfig.links rc)
  /\ Forall (fun l => RISTLink.weight l = 100) new_links
  /\ List.map RISTLink.enabled new_links
     = imap (fun i _ => decided (config c) (answers i)) (RISTConfig.links rc).
Proof.
  intros Hrc Hreq.
  rewrite (pushed_links_rebuilt mgr answers push c rc new_links Hrc Hreq).
  unfold rebuilt_links.
  exact (rebuilt_links_shape (RISTConfig.links rc)
           (fun i => decided (config c) (answers i))).
Qed.

Lemma pushed_links_keep_endpoints_witness :
  List.map RISTLink.address
    [RISTLink.make "192.168.1.100" 5004 false; RISTLink.make "192.168.2.100" 5004 false]
  = List.map RISTLink.address (RISTConfig.links (rist_config_of [link_a true; link_b true])).
Proof.
  apply (pushed_links_keep_endpoints manager_two_links (fun _ => two_modems)
           push_links_against_sources (new_controller default_config)
           (rist_config_of [link_a true; link_b true])).
  - reflexivity.
  - reflexivity.
Defined.

(** X18. The links are switched together. A monitor that gives the same
    answer for every link makes one decision for all of them: every link of
    a pushed reconfiguration carries the same flag, so the policy never
    keeps one link and drops another. When the reading that comes last in
    the answer is below the disable threshold, every link of the pushed
    list is off and the list has no enabled link left. *)
Theorem links_switch_together (mgr : RISTManager) (answers : nat -> snapshot)
  (answer : snapshot) (push : result bool) (c : controller) (rc : RISTConfig.t)
  (new_links : list RISTLink.t) :
  rist_config mgr = Some rc ->
  (forall i, answers i = answer) ->
  requests (snd (_adaptive_link_control mgr (Some answers) push c))
  = requests c ++ [PushLinks new_links] ->
  List.map RISTLink.enabled new_links
  = List.map (fun _ => decided (config c) answer) (RISTConfig.links rc)
  /\ (forall front modem_id status,
        answer = front ++ [(modem_id, status)] ->
        signal_strength status < link_disable_signal_threshold (config c) ->
        List.filter RISTLink.enabled new_links = []).
Proof.
  intros Hrc Hsame Hreq.
  rewrite (pushed_links_rebuilt mgr answers push c rc new_links Hrc Hreq).
  assert (Hflags : forall links,
            List.map RISTLink.enabled (rebuilt_links (config c) answers links)
            = List.map (fun _ => decided (config c) answer) links).
  { intros links.
    destruct (rebuilt_links_shape links (fun i => decided (config c) (answers i)))
      as (_ & _ & _ & H).
    unfold rebuilt_links. rewrite H.
    clear H Hreq. revert answers Hsame.
    induction links as [|l links IH]; intros answers Hsame; [reflexivity|].
    change (decided (config c) (answers 0%nat)
              :: imap (fun i _ => decided (config c) (answers (S i))) links
            = decided (config c) answer
              :: List.map (fun _ => decided (config c) answer) links).
    rewrite Hsame. f_equal.
    apply (IH (fun i => answers (S i))). intros i. apply Hsame. }
  split; [apply Hflags|].
  intros front modem_id status Hanswer Hweak.
  assert (Hoff : decided (config c) answer = false).
  { rewrite Hanswer. unfold decided. rewrite fold_left_app. cbn.
    apply Z.ltb_lt in Hweak. rewrite Hweak. reflexivity. }
  specialize (Hflags (RISTConfig.links rc)). rewrite Hoff in Hflags.
  revert Hflags.
  generalize (rebuilt_links (config c) answers (RISTConfig.links rc)).
  generalize (RISTConfig.links rc).
  intros links rebuilt. revert links.
  induction rebuilt as [|l rebuilt IH]; intros links H; [reflexivity|].
  destruct links as [|l0 links]; [discriminate|].
  cbn in H. injection H as Hl Hrest.
  cbn. rewrite Hl. apply (IH links Hrest).
Qed.

Lemma links_switch_together_witness :
  List.filter RISTLink.enabled
    [RISTLink.make "192.168.1.100" 5004 false; RISTLink.make "192.168.2.100" 5004 false]
  = [].
Proof.
  apply (proj2 (links_switch_together manager_two_links (fun _ => two_modems)
                  two_modems push_links_against_sources
                  (new_controller default_config)
                  (rist_config_of [link_a true; link_b true])
                  [RISTLink.make "192.168.1.100" 5004 false;
                   RISTLink.make "192.168.2.100" 5004 false]
                  eq_refl (fun _ => eq_refl) eq_refl)
          [("modem0"%string, mkModem true 30)] "modem1"%string (mkModem true 10)).
  - reflexivity.
  - vm_compute. reflexivity.
Defined.

(** ** The controller: the document it saves *)

Lemma set_rist_item_result (document written : json) (key : string) (value : json) :
  set_rist_item document key value = Ret written ->
  exists top sub,
    document = JObj top
    /\ top !! "rist"%string = Some (JObj sub)
    /\ written = JObj (<["rist"%string := JObj (<[key := value]> sub)]> top).
Proof.
  destruct document as [| | | | | |top]; cbn; try discriminate.
  destruct (top !! "rist"%string) as [sub|] eqn:Hrist; [|discriminate].
  destruct sub as [| | | | | |sub]; cbn; try discriminate.
  intros [= <-]. exists top, sub. auto.
Qed.

Lemma set_rist_item_sets (document written : json) (key : string) (value : json) :
  set_rist_item document key value = Ret written ->
  has_rist_field written key value /\ rist_missing written = Ret false.
Proof.
  intros H. apply set_rist_item_result in H as (top & sub & -> & Hrist & ->).
  split.
  - exists (<["rist"%string := JObj (<[key := value]> sub)]> top), (<[key := value]> sub).
    split; [reflexivity|]. split; apply lookup_insert_eq.
  - cbn. rewrite lookup_insert_eq. reflexivity.
Qed.

Lemma set_rist_item_keeps (document written : json) (key key' : string)
  (value value' : json) :
  key <> key' ->
  has_rist_field document key' value' ->
  set_rist_item document key value = Ret written ->
  has_rist_field written key' value'.
Proof.
  intros Hne (top0 & sub0 & Hd & Hr0 & Hf0) H.
  apply set_rist_item_result in H as (top & sub & -> & Hrist & ->).
  injection Hd as <-. rewrite Hrist in Hr0. injection Hr0 as <-.
  exists (<["rist"%string := JObj (<[key := value]> sub)]> top), (<[key := value]> sub).
  split; [reflexivity|]. split; [apply lookup_insert_eq|].
  rewrite lookup_insert_ne by exact Hne. exact Hf0.
Qed.

Lemma set_rist_item_again (document : json) (key : string) (value : json) :
  has_rist_field document key value ->
  set_rist_item document key value = Ret document.
Proof.
  intros (top & sub & -> & Hrist & Hf). cbn. rewrite Hrist. cbn.
  rewrite (insert_id sub key value Hf). rewrite (insert_id top _ _ Hrist).
  reflexivity.
Qed.

Lemma step_one_present (document d1 : json) (missing : bool) :
  rist_missing document = Ret missing ->
  (if missing then setitem document "rist" (JObj ∅) else Ret document) = Ret d1 ->
  rist_missing d1 = Ret false.
Proof.
  intros Hm H. destruct missing.
  - destruct document as [| | | | | |top]; cbn in H; try discriminate.
    injection H as <-. cbn. rewrite lookup_insert_eq. reflexivity.
  - injection H as <-. exact Hm.
Qed.

(** X19. The document the persistence step builds holds what the manager
    is configured with: under [rist] its [video_bitrate] is the bitrate of
    the video configuration, its [audio_bitrate] that of the audio
    configuration, and its [links] the address, port and flag of every
    link, each for the configuration that is present. Building the document
    again from the result changes nothing, so saving twice writes the same
    document. *)
Theorem saved_document_holds_configuration (mgr : RISTManager)
  (document written : json) :
  updated_document mgr document = Ret written ->
  (forall vc, video_config mgr = Some vc ->
     has_rist_field written "video_bitrate" (JInt (VideoConfig.bitrate vc)))
  /\ (forall ac, audio_config mgr = Some ac ->
        has_rist_field written "audio_bitrate" (JInt (AudioConfig.bitrate ac)))
  /\ (forall rc, rist_config mgr = Some rc ->
        has_rist_field written "links"
          (JArr (List.map link_entry (RISTConfig.links rc))))
  /\ updated_document mgr written = Ret written.
Proof.
  unfold updated_document at 1.
  destruct (rist_missing document) as [missing|e] eqn:Hmiss; [|discriminate].
  cbn [bind].
  destruct (if missing then setitem document "rist" (JObj ∅) else Ret document)
    as [d1|e] eqn:H1; [|discriminate].
  pose proof (step_one_present document d1 missing Hmiss H1) as P1.
  cbn [bind].
  destruct (match video_config mgr with
            | Some vc => set_rist_item d1 "video_bitrate" (JInt (VideoConfig.bitrate vc))
            | None => Ret d1
            end) as [d2|e] eqn:H2; [|discriminate].
  assert (P2 : rist_missing d2 = Ret false
               /\ forall vc, video_config mgr = Some vc ->
                    has_rist_field d2 "video_bitrate" (JInt (VideoConfig.bitrate vc))).
  { destruct (video_config mgr) as [vc|].
    - apply set_rist_item_sets in H2 as [Hf Hm]. split; [exact Hm|].
      intros vc' [= <-]. exact Hf.
    - injection H2 as <-. split; [exact P1 | discriminate]. }
  destruct P2 as [P2 V2].
  cbn [bind].
  destruct (match audio_config mgr with
            | Some ac => set_rist_item d2 "audio_bitrate" (JInt (AudioConfig.bitrate ac))
            | None => Ret d2
            end) as [d3|e] eqn:H3; [|discriminate].
  assert (P3 : rist_missing d3 = Ret false
               /\ (forall vc, video_config mgr = Some vc ->
                     has_rist_field d3 "video_bitrate" (JInt (VideoConfig.bitrate vc)))
               /\ forall ac, audio_config mgr = Some ac ->
                    has_rist_field d3 "audio_bitrate" (JInt (AudioConfig.bitrate ac))).
  { destruct (audio_config mgr) as [ac|].
    - pose proof (set_rist_item_sets _ _ _ _ H3) as [Hf Hm].
      split; [exact Hm|]. split.
      + intros vc Hvc. eapply set_rist_item_keeps; [|exact (V2 vc Hvc)|exact H3].
        discriminate.
      + intros ac' [= <-]. exact Hf.
    - injection H3 as <-. split; [exact P2|]. split; [exact V2 | discriminate]. }
  destruct P3 as (P3 & V3 & A3).
  cbn [bind]. intros H4.
  assert (P4 : rist_missing written = Ret false
               /\ (forall vc, video_config mgr = Some vc ->
                     has_rist_field written "video_bitrate"
                       (JInt (VideoConfig.bitrate vc)))
               /\ (forall ac, audio_config mgr = Some ac ->
                     has_rist_field written "audio_bitrate"
                       (JInt (AudioConfig.bitrate ac)))
               /\ forall rc, rist_config mgr = Some rc ->
                    has_rist_field written "links"
                      (JArr (List.map link_entry (RISTConfig.links rc)))).
  { destruct (rist_config mgr) as [rc|].
    - pose proof (set_rist_item_sets _ _ _ _ H4) as [Hf Hm].
      split; [exact Hm|]. split; [|split].
      + intros vc Hvc. eapply set_rist_item_keeps; [|exact (V3 vc Hvc)|exact H4].
        discriminate.
      + intros ac Hac. eapply set_rist_item_keeps; [|exact (A3 ac Hac)|exact H4].
        discriminate.
      + intros rc' [= <-]. exact Hf.
    - injection H4 as <-. split; [exact P3|]. split; [exact V3|].
      split; [exact A3 | discriminate]. }
  destruct P4 as (P4 & V4 & A4 & L4).
  split; [exact V4|]. split; [exact A4|]. split; [exact L4|].
  unfold updated_document. rewrite P4. cbn [bind].
  assert (E2 : match video_config mgr with
               | Some vc => set_rist_item written "video_bitrate"
                              (JInt (VideoConfig.bitrate vc))
               | None => Ret written
               end = Ret written).
  { destruct (video_config mgr) as [vc|]; [|reflexivity].
    apply set_rist_item_again, V4. reflexivity. }
  rewrite E2. cbn [bind].
  assert (E3 : match audio_config mgr with
               | Some ac => set_rist_item written "audio_bitrate"
                              (JInt (AudioConfig.bitrate ac))
               | None => Ret written
               end = Ret written).
  { destruct (audio_config mgr) as [ac|]; [|reflexivity].
    apply set_rist_item_again, A4. reflexivity. }
  rewrite E3. cbn [bind].
  destruct (rist_config mgr) as [rc|]; [|reflexivity].
  apply set_rist_item_again, L4. reflexivity.
Qed.

Lemma saved_document_holds_configuration_witness :
  has_rist_field
    (JObj (<["max_br" := JInt 6000]>
          (<["srt_latency" := JInt 2000]>
          (<["rist" := JObj (<["profile" := JStr "high_1080p30"]>
                            (<["video_bitrate" := JInt 2000000]>
                            (<["links" := JArr [link_entry (link_a true);
                                                link_entry (link_b true)]]> ∅)))]>
             ∅))))
    "video_bitrate" (JInt 2000000).
Proof.
  apply (proj1 (saved_document_holds_configuration manager_streaming
                  sample_document _ ltac:(vm_compute; reflexivity))
           sample_video).
  reflexivity.
Defined.

(** X20. Nothing is saved into a document whose [rist] entry is no
    object: if the stored document is an object with [rist] present but
    not an object (null, say) and the manager holds any configuration, the
    step raises inside, which it catches, and the file stays untouched and
    the controller is left as it was, so a dirty controller stays dirty. *)
Theorem save_refuses_foreign_rist (mgr : RISTManager) (d : store)
  (c : controller) (top : gmap string json) (entry : json) :
  stored d = Some (Ret (JObj top)) ->
  top !! "rist"%string = Some entry ->
  (forall sub, entry <> JObj sub) ->
  video_config mgr <> None \/ audio_config mgr <> None \/ rist_config mgr <> None ->
  _save_config mgr d c = (Untouched, c).
Proof.
  intros Hstored Hrist Hno Hcfg.
  unfold _save_config. rewrite Hstored. cbn [bind].
  assert (Hraise : exists e, updated_document mgr (JObj top) = Raise e).
  { unfold updated_document. cbn [rist_missing bind].
    rewrite bool_decide_false by congruence. cbn [bind].
    assert (Hset : forall key value,
              exists e, set_rist_item (JObj top) key value = Raise e).
    { intros key value. cbn. rewrite Hrist.
      destruct entry; cbn; eauto. exfalso. eapply Hno. reflexivity. }
    destruct (video_config mgr) as [vc|].
    { destruct (Hset "video_bitrate"%string (JInt (VideoConfig.bitrate vc)))
        as [e ->]. eauto. }
    cbn [bind]. destruct (audio_config mgr) as [ac|].
    { destruct (Hset "audio_bitrate"%string (JInt (AudioConfig.bitrate ac)))
        as [e ->]. eauto. }
    cbn [bind]. destruct (rist_config mgr) as [rc|].
    { apply Hset. }
    destruct Hcfg as [H|[H|H]]; congruence. }
  destruct Hraise as [e ->]. reflexivity.
Qed.

Lemma save_refuses_foreign_rist_witness :
  _save_config manager_streaming
    (mkStore (Some (Ret (JObj (<["rist" := JNull]> (<["max_br" := JInt 6000]> ∅)))))
       (Ret tt) (Ret tt) (flit 1000))
    (with_dirty (new_controller default_config) true)
  = (Untouched, with_dirty (new_controller default_config) true).
Proof.
  apply (save_refuses_foreign_rist manager_streaming _ _
           (<["rist" := JNull]> (<["max_br" := JInt 6000]> ∅)) JNull).
  - reflexivity.
  - vm_compute. reflexivity.
  - discriminate.
  - left. discriminate.
Defined.

(** ** The stream profiles *)

Lemma video_lookup_listed (p : VideoProfile.t) :
  In p ALL_VIDEO_PROFILES -> get_video_profile (VideoProfile.id p) = Some p.
Proof.
  intros H. unfold ALL_VIDEO_PROFILES in H.
  repeat (destruct H as [<-|H]; [vm_compute; reflexivity|]).
  destruct H.
Qed.

Lemma audio_lookup_listed (p : AudioProfile.t) :
  In p ALL_AUDIO_PROFILES -> get_audio_profile (AudioProfile.id p) = Some p.
Proof.
  intros H. unfold ALL_AUDIO_PROFILES in H.
  repeat (destruct H as [<-|H]; [vm_compute; reflexivity|]).
  destruct H.
Qed.

Lemma video_lookup_found (i : string) (p : VideoProfile.t) :
  get_video_profile i = Some p -> In p ALL_VIDEO_PROFILES /\ VideoProfile.id p = i.
Proof.
  intros H. apply List.find_some in H as [Hin Heq].
  split; [exact Hin | apply String.eqb_eq, Heq].
Qed.

Lemma audio_lookup_found (i : string) (p : AudioProfile.t) :
  get_audio_profile i = Some p -> In p ALL_AUDIO_PROFILES /\ AudioProfile.id p = i.
Proof.
  intros H. apply List.find_some in H as [Hin Heq].
  split; [exact Hin | apply String.eqb_eq, Heq].
Qed.

Lemma video_profile_shape (p : VideoProfile.t) :
  In p ALL_VIDEO_PROFILES ->
  VideoProfile.keyframe_interval p = 2 * VideoProfile.framerate p
  /\ 9 * VideoProfile.width p = 16 * VideoProfile.height p
  /\ 1000 * (VideoProfile.bitrate p / 1000) = VideoProfile.bitrate p
  /\ 5000000 <= VideoProfile.bitrate p <= 35000000.
Proof.
  intros H. unfold ALL_VIDEO_PROFILES in H.
  repeat (destruct H as [<-|H]; [vm_compute; repeat split; congruence|]).
  destruct H.
Qed.

Lemma audio_profile_shape (p : AudioProfile.t) :
  In p ALL_AUDIO_PROFILES ->
  AudioProfile.sample_rate p = 48000 /\ AudioProfile.channels p = 2
  /\ 96000 <= AudioProfile.bitrate p <= 256000.
Proof.
  intros H. unfold ALL_AUDIO_PROFILES in H.
  repeat (destruct H as [<-|H]; [vm_compute; repeat split; congruence|]).
  destruct H.
Qed.

(** X21. Looking a profile up by id and reading the id of a profile are
    inverse to each other: [get_video_profile] answers a profile exactly
    when it is a listed profile with the id asked for, so every listed
    video profile is found under its own id (no id is listed twice) and an
    id that is not listed gives [None]; the same holds for
    [get_audio_profile]. *)
Theorem profile_lookup_round_trip :
  (forall i p, get_video_profile i = Some p
               <-> In p ALL_VIDEO_PROFILES /\ VideoProfile.id p = i)
  /\ (forall i p, get_audio_profile i = Some p
                  <-> In p ALL_AUDIO_PROFILES /\ AudioProfile.id p = i).
Proof.
  split; intros i p; split.
  - apply video_lookup_found.
  - intros [Hin <-]. apply video_lookup_listed, Hin.
  - apply audio_lookup_found.
  - intros [Hin <-]. apply audio_lookup_listed, Hin.
Qed.

(** X22. [create_stream_config] gives all three configurations or none:
    three times [None] exactly when one of the two ids names no profile,
    and otherwise a RIST configuration with the links and the bonding
    method as given, a video configuration with the fields of the video
    profile and an audio configuration with the fields of the audio
    profile. Every video configuration it makes has a keyframe every two
    seconds, a 16:9 picture and a bitrate that is a whole number of kbps
    between 5 and 35 Mbps; every audio configuration is 48 kHz stereo. *)
Theorem stream_config_all_or_nothing (video_profile_id audio_profile_id : string)
  (links : list RISTLink.t) (bonding_method : BondingMethod) :
  ((get_video_profile video_profile_id = None
    \/ get_audio_profile audio_profile_id = None)
   /\ create_stream_config video_profile_id audio_profile_id links bonding_method
      = (None, None, None))
  \/ exists vp ap rc vc ac,
       get_video_profile video_profile_id = Some vp
       /\ get_audio_profile audio_profile_id = Some ap
       /\ create_stream_config video_profile_id audio_profile_id links
            bonding_method = (Some rc, Some vc, Some ac)
       /\ RISTConfig.links rc = links
       /\ RISTConfig.bonding_method rc = bonding_method
       /\ VideoConfig.codec vc = VideoProfile.codec vp
       /\ VideoConfig.width vc = VideoProfile.width vp
       /\ VideoConfig.height vc = VideoProfile.height vp
       /\ VideoConfig.framerate vc = VideoProfile.framerate vp
       /\ VideoConfig.bitrate vc = VideoProfile.bitrate vp
       /\ AudioConfig.codec ac = AudioProfile.codec ap
       /\ AudioConfig.bitrate ac = AudioProfile.bitrate ap
       /\ VideoConfig.keyframe_interval vc = 2 * VideoConfig.framerate vc
       /\ 9 * VideoConfig.width vc = 16 * VideoConfig.height vc
       /\ 1000 * (VideoConfig.bitrate vc / 1000) = VideoConfig.bitrate vc
       /\ 5000000 <= VideoConfig.bitrate vc <= 35000000
       /\ AudioConfig.sample_rate ac = 48000
       /\ AudioConfig.channels ac = 2.
Proof.
  unfold create_stream_config.
  destruct (get_video_profile video_profile_id) as [vp|] eqn:Hv;
    [|left; split; [left|]; reflexivity].
  destruct (get_audio_profile audio_profile_id) as [ap|] eqn:Ha;
    [|left; split; [right|]; reflexivity].
  right.
  destruct (video_lookup_found _ _ Hv) as [Hvin _].
  destruct (audio_lookup_found _ _ Ha) as [Hain _].
  destruct (video_profile_shape vp Hvin) as (K & W & B & R).
  destruct (audio_profile_shape ap Hain) as (S & C & _).
  do 5 eexists. split; [reflexivity|]. split; [reflexivity|].
  split; [reflexivity|]. cbn.
  repeat apply conj; first [reflexivity | assumption | lia].
Qed.

Lemma command_of_both (hp : string -> bool) (m : RISTManager)
  (rc : RISTConfig.t) (vc : VideoConfig.t) (ac : AudioConfig.t) :
  rist_config m = Some rc -> video_config m = Some vc -> audio_config m = Some ac ->
  _build_pipeline_command hp m
  = Ret (((([gst_launch m] ++ _build_video_pipeline hp vc) ++ ["!"%string])
            ++ _build_audio_pipeline ac)
           ++ ["!"%string] ++ _build_rist_pipeline rc).
Proof.
  intros Hrc Hvc Hac. unfold _build_pipeline_command.
  rewrite Hrc, Hvc, Hac. reflexivity.
Qed.

Lemma video_pipeline_picture (hp : string -> bool) (vc : VideoConfig.t) :
  In ("width=" ++ str_int (VideoConfig.width vc)
        ++ ",height=" ++ str_int (VideoConfig.height vc)
        ++ ",framerate=" ++ str_int (VideoConfig.framerate vc) ++ "/1")%string
    (_build_video_pipeline hp vc)
  /\ In ("key-int-max=" ++ str_int (VideoConfig.keyframe_interval vc))%string
       (_build_video_pipeline hp vc).
Proof.
  unfold _build_video_pipeline. split.
  - apply in_or_app. left. do 4 right. left. reflexivity.
  - apply in_or_app. right.
    destruct (VideoConfig.codec vc); do 3 right; left; reflexivity.
Qed.

Lemma audio_pipeline_bitrate (ac : AudioConfig.t) :
  In ("bitrate=" ++ str_int (AudioConfig.bitrate ac))%string
    (_build_audio_pipeline ac).
Proof.
  unfold _build_audio_pipeline. apply in_or_app. right.
  destruct (AudioConfig.codec ac); right; left; reflexivity.
Qed.

(** X23. A stream made from two listed profiles starts. On a manager that
    is not streaming, for a listed video profile, a listed audio profile
    and any links, the configurations [create_stream_config] makes from
    the two ids are accepted by [configure], the command line is built
    without raising and names the picture size and frame rate, the bitrate
    in kbps and the keyframe interval of the video profile and the bitrate
    of the audio profile, and [start] answers true when the launched
    process stays alive. *)
Theorem profile_stream_starts (hp : string -> bool) (proc : Popen)
  (m : RISTManager) (vp : VideoProfile.t) (ap : AudioProfile.t)
  (links : list RISTLink.t) (bonding_method : BondingMethod) :
  is_streaming m = false ->
  In vp ALL_VIDEO_PROFILES ->
  In ap ALL_AUDIO_PROFILES ->
  exists rc vc ac cmd,
    create_stream_config (VideoProfile.id vp) (AudioProfile.id ap) links
      bonding_method = (Some rc, Some vc, Some ac)
    /\ fst (configure m rc (Some vc) (Some ac)) = Ret tt
    /\ _build_pipeline_command hp (snd (configure m rc (Some vc) (Some ac)))
       = Ret cmd
    /\ In ("width=" ++ str_int (VideoProfile.width vp)
             ++ ",height=" ++ str_int (VideoProfile.height vp)
             ++ ",framerate=" ++ str_int (VideoProfile.framerate vp) ++ "/1")%string
         cmd
    /\ In ("bitrate=" ++ str_int (VideoProfile.bitrate vp / 1000))%string cmd
    /\ In ("key-int-max=" ++ str_int (2 * VideoProfile.framerate vp))%string cmd
    /\ In ("bitrate=" ++ str_int (AudioProfile.bitrate ap))%string cmd
    /\ fst (start hp (Alive proc (Ret tt))
              (snd (configure m rc (Some vc) (Some ac)))) = Ret true.
Proof.
  intros Hs Hv Ha.
  unfold create_stream_config.
  rewrite (video_lookup_listed vp Hv), (audio_lookup_listed ap Ha).
  destruct (video_profile_shape vp Hv) as (K & _).
  set (rc := RISTConfig.mk links bonding_method 1200 1200 25 50 500 4 5 10).
  set (vc := VideoConfig.mk (VideoProfile.codec vp) (VideoProfile.width vp)
               (VideoProfile.height vp) (VideoProfile.framerate vp)
               (VideoProfile.bitrate vp) (VideoProfile.keyframe_interval vp)).
  set (ac := AudioConfig.mk (AudioProfile.codec ap) (AudioProfile.bitrate ap)
               (AudioProfile.sample_rate ap) (AudioProfile.channels ap)).
  exists rc, vc, ac.
  unfold configure. rewrite Hs. cbn [fst snd].
  set (m1 := set_configs m (Some rc) (Some vc) (Some ac)).
  eexists. split; [reflexivity|]. split; [reflexivity|].
  split; [exact (command_of_both hp m1 rc vc ac eq_refl eq_refl eq_refl)|].
  destruct (video_pipeline_picture hp vc) as [Hpic Hkey].
  pose proof (video_pipeline_bitrate hp vc) as Hbit.
  pose proof (audio_pipeline_bitrate ac) as Haud.
  rewrite <- K.
  split.
  { apply in_or_app. left. apply in_or_app. left. apply in_or_app. left.
    apply in_or_app. right. exact Hpic. }
  split.
  { apply in_or_app. left. apply in_or_app. left. apply in_or_app. left.
    apply in_or_app. right. exact Hbit. }
  split.
  { apply in_or_app. left. apply in_or_app. left. apply in_or_app. left.
    apply in_or_app. right. exact Hkey. }
  split.
  { apply in_or_app. left. apply in_or_app. right. exact Haud. }
  rewrite (start_alive hp proc m1 rc Hs eq_refl). reflexivity.
Qed.

Lemma profile_stream_starts_witness :
  exists rc vc ac,
    create_stream_config "youtube_1080p60_h265" "opus_128k"
      [RISTLink.mk "192.168.1.100" 5004 true 100] BROADCAST
    = (Some rc, Some vc, Some ac)
    /\ fst (start all_plugins (Alive sample_process (Ret tt))
              (snd (configure (new_manager sample_path) rc (Some vc) (Some ac))))
       = Ret true.
Proof.
  destruct (profile_stream_starts all_plugins sample_process
              (new_manager sample_path) YOUTUBE_1080P_60_H265 AUDIO_OPUS_128
              [RISTLink.mk "192.168.1.100" 5004 true 100] BROADCAST)
    as (rc & vc & ac & cmd & H1 & _ & _ & _ & _ & _ & _ & H2).
  - reflexivity.
  - vm_compute. tauto.
  - vm_compute. tauto.
  - exists rc, vc, ac. split; [exact H1 | exact H2].
Defined.
